(** * Dispatch and offload orchestration of [accelerate.big_modeling]

    A shallow embedding of [src/accelerate/big_modeling.py]: the device-map
    normaliser of [dispatch_model], its hook path and fast path, the guard
    that [add_warning] puts around the model's transfer methods, the two
    whole-model offload entry points [cpu_offload] and [disk_offload], the
    tree walk of [_attach_layerwise_casting_hooks], the orchestrator
    [load_checkpoint_and_dispatch] and the context managers [init_on_device]
    and [init_empty_weights].

    Python dictionaries whose iteration order matters (the device map, the
    execution-device and offload tables) are insertion-ordered association
    lists; [set(device_map.values())] is a [gset]; the tied-parameter map,
    keyed by [data_ptr()], is a [gmap Z]. Functions of other modules of the
    package and of PyTorch are the fields of the class [Collaborators]; they
    are calls that return, so the failures of a run are the errors that the
    code of this file raises itself. *)

From Stdlib Require Import Ascii.
From stdpp Require Import gmap strings list pretty.

Local Open Scope string_scope.
Local Open Scope list_scope.
Local Open Scope Z_scope.

(** ** Devices *)

(** [torch.device]: a type and an optional index. *)
Record TorchDevice := {
  dev_type : string;
  dev_index : option Z
}.

#[global] Instance TorchDevice_eq_dec : EqDecision TorchDevice.
Proof. solve_decision. Defined.

(** A value of a device map, [Union[str, int, torch.device]]. Python's [==]
    never identifies values of two different branches ([torch.device("cpu") ==
    "cpu"] is [False]), which is equality of this type. *)
Inductive Device :=
  | DStr (s : string)
  | DInt (n : Z)
  | DTorch (d : TorchDevice).

#[global] Instance device_eq_dec : EqDecision Device.
Proof. solve_decision. Defined.

Definition device_to_sum (d : Device) : string + Z + string * option Z :=
  match d with
  | DStr s => inl (inl s)
  | DInt n => inl (inr n)
  | DTorch t => inr (dev_type t, dev_index t)
  end.

Definition device_of_sum (x : string + Z + string * option Z) : Device :=
  match x with
  | inl (inl s) => DStr s
  | inl (inr n) => DInt n
  | inr (t, i) => DTorch {| dev_type := t; dev_index := i |}
  end.

#[global] Instance device_countable : Countable Device.
Proof.
  apply (inj_countable' device_to_sum device_of_sum).
  intros [s|n|[t i]]; reflexivity.
Defined.

Definition cpu : Device := DStr "cpu".
Definition disk : Device := DStr "disk".
Definition mps : Device := DStr "mps".

(** [torch.device("meta")] *)
Definition meta_device : TorchDevice := {| dev_type := "meta"; dev_index := None |}.

(** ** Insertion-ordered dictionaries *)

Abbreviation dict V := (list (string * V)) (only parsing).

Section Dict.
Context {V : Type}.

Definition dict_keys (d : dict V) : list string := d.*1.
Definition dict_values (d : dict V) : list V := d.*2.

Fixpoint dict_get (k : string) (d : dict V) : option V :=
  match d with
  | [] => None
  | (k', v) :: d' => if decide (k' = k) then Some v else dict_get k d'
  end.

(** [d[k] = v]: an existing key keeps its position, a new key goes last. *)
Fixpoint dict_set (k : string) (v : V) (d : dict V) : dict V :=
  match d with
  | [] => [(k, v)]
  | (k', v') :: d' =>
      if decide (k' = k) then (k, v) :: d' else (k', v') :: dict_set k v d'
  end.

(** [{name: f(name, x) for name, x in items}] *)
Definition dict_comprehension {A} (f : string -> A -> V) (items : dict A) : dict V :=
  fold_left (fun acc '(k, x) => dict_set k (f k x) acc) items [].
End Dict.

(** [x in [a, b, ...]] *)
Definition py_in `{EqDecision A} (x : A) (l : list A) : bool := bool_decide (x ∈ l).

(** ** The device-map normaliser of [dispatch_model] *)

Abbreviation DeviceMap := (dict Device) (only parsing).

(** [set(device_map.values())] *)
Definition device_set (device_map : DeviceMap) : gset Device :=
  list_to_set (dict_values device_map).

Inductive Exn :=
  | ValueError (msg : string)
  | RuntimeError (msg : string)
  | IndexError
  | StopIteration.

#[global] Instance Exn_eq_dec : EqDecision Exn.
Proof. solve_decision. Defined.

(** Lines 370-374: the default of [main_device]. *)
Definition default_main_device (device_map : DeviceMap) : Exn + Device :=
  if bool_decide (device_set device_map = {[cpu]})
     || bool_decide (device_set device_map = {[cpu; disk]})
  then inr cpu
  else
    match filter (λ d, d ∉ [cpu; disk]) (dict_values device_map) with
    | d :: _ => inr d
    | [] => inl IndexError
    end.


(** Lines 395-398: the execution-device table. *)
Definition execution_device_table (device_map : DeviceMap) (main_device : Device) : dict Device :=
  dict_set EmptyString main_device
    (dict_comprehension
       (λ _ device, if py_in device [cpu; disk] then main_device else device)
       device_map).

(** Line 399. *)
Definition offloaded_devices (main_device : Device) : list Device :=
  if bool_decide (main_device = cpu) || bool_decide (main_device = mps)
  then [disk] else [cpu; disk].

(** Line 400: the offload-flag table. *)
Definition offload_table (device_map : DeviceMap) (main_device : Device) : dict bool :=
  dict_comprehension (λ _ device, py_in device (offloaded_devices main_device)) device_map.

(** [[name for name, device in device_map.items() if device == tier]] *)
Definition modules_on (tier : Device) (device_map : DeviceMap) : list string :=
  dict_keys (filter (λ item, item.2 = tier) device_map).

(** ** Models and their tensors *)

Record Tensor := {
  tensor_device : TorchDevice;
  tensor_data : Z
}.

#[global] Instance Tensor_eq_dec : EqDecision Tensor.
Proof. solve_decision. Defined.

Abbreviation StateDict := (dict Tensor) (only parsing).

(** The part of an [nn.Module] that this file reads or writes.
    [named_parameters] and [named_buffers] are what the methods of these names
    yield; the three quantisation attributes may be absent; [guards] lists the
    transfer methods that [dispatch_model] has replaced by a wrapper of
    [add_warning], the latest first. *)
Record Model := {
  named_parameters : dict Tensor;
  named_buffers : dict Tensor;
  quantization_method : option string;
  is_loaded_in_8bit : option bool;
  is_loaded_in_4bit : option bool;
  guards : list string;
  hf_device_map : option DeviceMap
}.

(** [model.parameters()] *)
Definition parameters (m : Model) : list Tensor := dict_values (named_parameters m).

Definition set_named_parameters (ps : dict Tensor) (m : Model) : Model :=
  {| named_parameters := ps; named_buffers := named_buffers m;
     quantization_method := quantization_method m;
     is_loaded_in_8bit := is_loaded_in_8bit m; is_loaded_in_4bit := is_loaded_in_4bit m;
     guards := guards m; hf_device_map := hf_device_map m |}.

Definition set_named_buffers (bs : dict Tensor) (m : Model) : Model :=
  {| named_parameters := named_parameters m; named_buffers := bs;
     quantization_method := quantization_method m;
     is_loaded_in_8bit := is_loaded_in_8bit m; is_loaded_in_4bit := is_loaded_in_4bit m;
     guards := guards m; hf_device_map := hf_device_map m |}.

Definition set_guards (g : list string) (m : Model) : Model :=
  {| named_parameters := named_parameters m; named_buffers := named_buffers m;
     quantization_method := quantization_method m;
     is_loaded_in_8bit := is_loaded_in_8bit m; is_loaded_in_4bit := is_loaded_in_4bit m;
     guards := g; hf_device_map := hf_device_map m |}.

Definition set_hf_device_map (dm : DeviceMap) (m : Model) : Model :=
  {| named_parameters := named_parameters m; named_buffers := named_buffers m;
     quantization_method := quantization_method m;
     is_loaded_in_8bit := is_loaded_in_8bit m; is_loaded_in_4bit := is_loaded_in_4bit m;
     guards := guards m; hf_device_map := Some dm |}.

(** The arguments of [OffloadedWeightsLoader(...)]. *)
Record OffloadedWeightsLoader := {
  loader_state_dict : option StateDict;
  loader_save_folder : option string;
  loader_index : option (dict string);
  loader_device : option Device
}.

Inductive WeightsMap :=
  | WeightsDict (sd : StateDict)
  | WeightsLoader (l : OffloadedWeightsLoader).

(** The keyword arguments of [attach_align_device_hook_on_blocks]. *)
Record BlockHookArgs := {
  bh_execution_device : dict Device;
  bh_offload : dict bool;
  bh_offload_buffers : bool;
  bh_weights_map : option WeightsMap;
  bh_skip_keys : option (string + list string);
  bh_preload_module_classes : option (list string);
  bh_tied_params_map : gmap Z (gmap Device Tensor)
}.

(** The keyword arguments of [attach_align_device_hook]. *)
Record AlignHookArgs := {
  ah_execution_device : Device;
  ah_offload : bool;
  ah_offload_buffers : bool;
  ah_weights_map : WeightsMap;
  ah_preload_module_classes : option (list string)
}.

(** The arguments of a transfer method ([model.to(...)], [model.cuda(...)]):
    [torch._C._nn._parse_to(...)[0]] is the device, if one is given. *)
Record TransferArgs := {
  to_device : option Device;
  to_dtype : option string
}.

Inductive Warning :=
  | WarnOffloadedToMeta (tiers : gset Device)
  | WarnMoveDispatched
  | WarnP2P.

(** What a call does to the world outside the model record, in order. *)
Inductive Event :=
  | EvOffloadStateDict (save_dir : string) (sd : StateDict)
  | EvAttachOnBlocks (args : BlockHookArgs)
  | EvAddAlignDevicesHook (io_same_device : bool)
  | EvAttachAlign (args : AlignHookArgs)
  | EvRetie (tied_params : list (list string))
  | EvWarning (w : Warning)
  | EvWrap (method : string)
  | EvSetTensor (name : string) (device : Device)
  | EvTransfer (method : string) (args : TransferArgs).

(** ** Collaborators

    What [big_modeling] imports from [.hooks], [.utils], [os.path] and PyTorch.
    A function that changes the model is a function on [Model]; the
    dispatcher records the call as an [Event] as well. *)
Class Collaborators := {
  (** [check_device_map(model, device_map)]: the error it raises, if any *)
  check_device_map : Model -> DeviceMap -> option Exn;
  is_bnb_available : string -> bool;
  is_npu_available : bool;
  is_mlu_available : bool;
  is_sdaa_available : bool;
  is_musa_available : bool;
  is_xpu_available : bool;
  check_cuda_p2p_ib_support : bool;
  os_path_isdir : string -> bool;
  os_path_isfile : string -> bool;
  (** [torch.device(d)] *)
  torch_device : Device -> TorchDevice;
  (** [model.state_dict()] *)
  model_state_dict : Model -> StateDict;
  extract_submodules_state_dict : StateDict -> list string -> StateDict;
  find_tied_parameters : Model -> list (list string);
  (** [recursive_getattr(model, name).data_ptr()] *)
  param_data_ptr : Model -> string -> Z;
  attach_align_device_hook_on_blocks : BlockHookArgs -> Model -> Model;
  attach_align_device_hook : AlignHookArgs -> Model -> Model;
  (** [add_hook_to_module(model, AlignDevicesHook(io_same_device=b), append=True)] *)
  add_align_devices_hook : bool -> Model -> Model;
  retie_parameters : list (list string) -> Model -> Model;
  (** the transfer method of this name that [nn.Module] defines *)
  module_transfer : string -> TransferArgs -> Model -> Model
}.

(** ** Effects: the model is state, calls are logged, exceptions end the run *)

Definition M (A : Type) : Type := Model -> Model * list Event * (Exn + A).

#[global] Instance M_ret : MRet M := λ A a m, (m, [], inr a).

#[global] Instance M_bind : MBind M := λ A B f x m,
  match x m with
  | (m1, l1, inl e) => (m1, l1, inl e)
  | (m1, l1, inr a) =>
      match f a m1 with
      | (m2, l2, r) => (m2, l1 ++ l2, r)
      end
  end.

Definition raise {A} (e : Exn) : M A := λ m, (m, [], inl e).
Definition emit (ev : Event) : M unit := λ m, (m, [ev], inr tt).
Definition get_model : M Model := λ m, (m, [], inr m).
Definition modify (f : Model -> Model) : M unit := λ m, (f m, [], inr tt).

(** [for x in xs: body(x)] *)
Fixpoint for_each {A} (xs : list A) (body : A -> M unit) : M unit :=
  match xs with
  | [] => mret tt
  | x :: xs' => body x ;; for_each xs' body
  end.

Definition when (b : bool) (body : M unit) : M unit := if b then body else mret tt.

Definition model_of {A} (r : Model * list Event * (Exn + A)) : Model := r.1.1.
Definition log_of {A} (r : Model * list Event * (Exn + A)) : list Event := r.1.2.
Definition outcome_of {A} (r : Model * list Event * (Exn + A)) : Exn + A := r.2.

Definition is_none {A} (o : option A) : bool :=
  match o with Some _ => false | None => true end.
Definition is_some {A} (o : option A) : bool :=
  match o with Some _ => true | None => false end.

(** [os.path.join(a, b)] of [posixpath], for a relative [b]. *)
Fixpoint ends_with_slash (a : string) : bool :=
  match a with
  | EmptyString => false
  | String c EmptyString => bool_decide (c = "/"%char)
  | String _ a' => ends_with_slash a'
  end.

Definition os_path_join (a b : string) : string :=
  if bool_decide (a = EmptyString) || ends_with_slash a then a +:+ b else a +:+ "/" +:+ b.

(** [param.device.type == "meta"] *)
Definition on_meta_type (t : Tensor) : bool :=
  bool_decide (dev_type (tensor_device t) = "meta").

(** [param.device == torch.device("meta")] *)
Definition on_meta_device (t : Tensor) : bool :=
  bool_decide (tensor_device t = meta_device).

Definition dict_alter {V} (f : V -> V) (k : string) (d : dict V) : dict V :=
  (λ item, if decide (item.1 = k) then (item.1, f item.2) else item) <$> d.

(** The errors of lines 462, 383 and 521. *)
Definition cannot_move : Exn :=
  RuntimeError "You can't move a model that has some modules offloaded to cpu or disk.".

Definition missing_offload_dir (disk_modules : list string) : Exn :=
  ValueError
    ("We need an `offload_dir` to dispatch this model according to this `device_map`, the following submodules need to be offloaded: "
     +:+ String.concat ", " disk_modules +:+ ".").

Definition disk_only_error : Exn :=
  ValueError
    "You are trying to offload the whole model to the disk. Please use the `disk_offload` function instead.".

Section BigModeling.
Context `{Collaborators}.

(** [tensor.to(d)] *)
Definition tensor_to (d : Device) (t : Tensor) : Tensor :=
  {| tensor_device := torch_device d; tensor_data := tensor_data t |}.

(** Modelled from the spec: [set_module_tensor_to_device] of
    [utils.modeling], the single-tensor placement primitive, which "moves
    one named tensor to a given device"; the other tensors stay. *)
Definition set_module_tensor_to_device (tensor_name : string) (device : Device)
    (model : Model) : Model :=
  set_named_buffers (dict_alter (tensor_to device) tensor_name (named_buffers model))
    (set_named_parameters
       (dict_alter (tensor_to device) tensor_name (named_parameters model)) model).

(** *** The movement guard, lines 450-465 *)

Definition add_warning (fn_name : string) (fn : TransferArgs -> M unit)
    : TransferArgs -> M unit :=
  λ args,
    (if bool_decide (fn_name = "to") then
       when (is_some (to_device args)) (emit (EvWarning WarnMoveDispatched))
     else emit (EvWarning WarnMoveDispatched)) ;;
    model ← get_model;
    for_each (parameters model) (λ param,
      when (on_meta_device param) (raise cannot_move)) ;;
    fn args.

(** The method that [nn.Module] defines. *)
Definition unguarded (method : string) : TransferArgs -> M unit :=
  λ args, emit (EvTransfer method args) ;; modify (module_transfer method args).

(** The method under [layers] wrappers of [add_warning]; [functools.wraps]
    keeps [__name__]. *)
Fixpoint guarded (layers : nat) (method : string) : TransferArgs -> M unit :=
  match layers with
  | O => unguarded method
  | S n => add_warning method (guarded n method)
  end.

(** [model.<method>(args)], through the wrappers installed so far. *)
Definition call_transfer (method : string) (args : TransferArgs) : M unit :=
  model ← get_model;
  guarded (length (filter (λ g, g = method) (guards model))) method args.

(** [model.<method> = add_warning(model.<method>, model)] *)
Definition install_guard (method : string) : M unit :=
  modify (λ model, set_guards (method :: guards model) model) ;;
  emit (EvWrap method).

(** Lines 469-480: the accelerator method that gets the guard. *)
Definition accelerator_method : string :=
  if is_npu_available then "npu"
  else if is_mlu_available then "mlu"
  else if is_sdaa_available then "sdaa"
  else if is_musa_available then "musa"
  else if is_xpu_available then "xpu"
  else "cuda".

(** *** [dispatch_model] *)

(** Lines 357-363. *)
Definition forced_hooks (model : Model) (force_hooks : bool) : bool :=
  if bool_decide (default "bitsandbytes" (quantization_method model) = "bitsandbytes") then
    if default false (is_loaded_in_8bit model)
       || (default false (is_loaded_in_4bit model) && negb (is_bnb_available "0.43.2"))
    then true
    else force_hooks
  else force_hooks.

(** Lines 415-421. *)
Definition build_tied_params_map (model : Model) (tied_params : list (list string))
    : gmap Z (gmap Device Tensor) :=
  fold_left
    (λ tied_params_map group,
       fold_left
         (λ tied_params_map param_name,
            <[param_data_ptr model param_name := ∅]> tied_params_map)
         group tied_params_map)
    tied_params ∅.

(** Lines 370-374. *)
Definition resolve_main_device (main_device : option Device) (device_map : DeviceMap)
    : Exn + Device :=
  match main_device with
  | Some d => inr d
  | None => default_main_device device_map
  end.

(** Lines 376-379: the state kept on the host. *)
Definition host_state_dict (model : Model) (device_map : DeviceMap) (main_device : Device)
    (state_dict : option StateDict) : option StateDict :=
  if bool_decide (main_device ≠ cpu) then
    let cpu_modules := modules_on cpu device_map in
    if is_none state_dict && bool_decide (0 < length cpu_modules)%nat
    then Some (extract_submodules_state_dict (model_state_dict model) cpu_modules)
    else state_dict
  else state_dict.

(** Lines 395-435: what [attach_align_device_hook_on_blocks] is called with;
    [state_dict] is the one of line 379. *)
Definition block_hook_args (model : Model) (device_map : DeviceMap) (main_device : Device)
    (state_dict : option StateDict) (offload_dir : option string)
    (offload_index : option (dict string)) (offload_buffers : bool)
    (skip_keys : option (string + list string))
    (preload_module_classes : option (list string)) : BlockHookArgs :=
  let disk_modules := modules_on disk device_map in
  let execution_device := execution_device_table device_map main_device in
  let offload := offload_table device_map main_device in
  let save_folder := if bool_decide (0 < length disk_modules)%nat then offload_dir else None in
  let weights_map :=
    if is_some state_dict || is_some save_folder || is_some offload_index then
      Some (WeightsLoader
              {| loader_state_dict := state_dict;
                 loader_save_folder := save_folder;
                 loader_index := offload_index;
                 loader_device := if is_some offload_index then Some main_device else None |})
    else None in
  let tied_params := find_tied_parameters model in
  let tied_params_map := build_tied_params_map model tied_params in
  {| bh_execution_device := execution_device;
     bh_offload := offload;
     bh_offload_buffers := offload_buffers;
     bh_weights_map := weights_map;
     bh_skip_keys := skip_keys;
     bh_preload_module_classes := preload_module_classes;
     bh_tied_params_map := tied_params_map |}.

(** Lines 370-489. *)
Definition hook_path (device_map : DeviceMap) (main_device : option Device)
    (state_dict : option StateDict) (offload_dir : option string)
    (offload_index : option (dict string)) (offload_buffers : bool)
    (skip_keys : option (string + list string))
    (preload_module_classes : option (list string)) : M unit :=
  main_device ← match resolve_main_device main_device device_map with
                 | inr d => mret d
                 | inl e => raise e
                 end;
  model ← get_model;
  let state_dict := host_state_dict model device_map main_device state_dict in
  let disk_modules := modules_on disk device_map in
  when (is_none offload_dir && is_none offload_index
        && bool_decide (0 < length disk_modules)%nat)
    (raise (missing_offload_dir disk_modules)) ;;
  match offload_dir with
  | Some dir =>
      when (bool_decide (0 < length disk_modules)%nat
            && is_none offload_index
            && (negb (os_path_isdir dir)
                || negb (os_path_isfile (os_path_join dir "index.json"))))
        (emit (EvOffloadStateDict dir
                 (extract_submodules_state_dict (model_state_dict model) disk_modules)))
  | None =>
      (* with disk modules and no index, line 383 has raised *)
      mret tt
  end ;;
  let hook_args :=
    block_hook_args model device_map main_device state_dict offload_dir offload_index
      offload_buffers skip_keys preload_module_classes in
  emit (EvAttachOnBlocks hook_args) ;;
  modify (attach_align_device_hook_on_blocks hook_args) ;;
  let offloaded_tiers := filter (λ device, device ∈ [cpu; disk]) (device_set device_map) in
  when (bool_decide (offloaded_tiers ≠ ∅))
    (emit (EvWarning (WarnOffloadedToMeta offloaded_tiers))) ;;
  let tied_params := find_tied_parameters model in
  emit (EvRetie tied_params) ;;
  modify (retie_parameters tied_params) ;;
  install_guard "to" ;;
  install_guard accelerator_method ;;
  let use_multi_gpu :=
    bool_decide (1 < size (filter (λ device, device ∉ [cpu; disk]) (device_set device_map)))%nat in
  when (use_multi_gpu && negb check_cuda_p2p_ib_support) (emit (EvWarning WarnP2P)).

(** The model that the hook path leaves: hooks attached, ties restored,
    [to] and the accelerator method guarded. *)
Definition hooked_model (hook_args : BlockHookArgs) (tied_params : list (list string))
    (model : Model) : Model :=
  let placed :=
    retie_parameters tied_params (attach_align_device_hook_on_blocks hook_args model) in
  set_guards (accelerator_method :: "to" :: guards placed) placed.

(** Lines 493-500: an integer id gets the name of the backend. *)
Definition backend_device (device : Device) : Device :=
  match device with
  | DInt n =>
      if is_npu_available then DStr ("npu:" +:+ pretty n)
      else if is_mlu_available then DStr ("mlu:" +:+ pretty n)
      else if is_sdaa_available then DStr ("sdaa:" +:+ pretty n)
      else if is_musa_available then DStr ("musa:" +:+ pretty n)
      else device
  | _ => device
  end.

Definition place_tensor (name : string) (device : Device) : M unit :=
  emit (EvSetTensor name device) ;;
  modify (set_module_tensor_to_device name device).

(** [for name, t in tensors: if t.device.type == "meta":
    set_module_tensor_to_device(model, name, device)]. The generator yields
    each tensor as it is when the loop reaches it; a placement changes only the
    tensor just yielded, so the loop sees the tensors as they were when it
    started. *)
Definition materialize_meta (tensors : dict Tensor) (device : Device) : M unit :=
  for_each tensors (λ item, when (on_meta_type item.2) (place_tensor item.1 device)).

(** Lines 491-523. *)
Definition fast_path (device_map : DeviceMap) : M unit :=
  device ← match dict_values device_map with
            | d :: _ => mret d
            | [] => raise IndexError
            end;
  let device := backend_device device in
  if bool_decide (device ≠ disk) then
    model ← get_model;
    let has_meta_tensors := existsb on_meta_type (parameters model) in
    if has_meta_tensors then
      materialize_meta (named_parameters model) device ;;
      model ← get_model;
      materialize_meta (named_buffers model) device
    else
      call_transfer "to" {| to_device := Some device; to_dtype := None |}
  else
    raise disk_only_error.

Definition dispatch_model (device_map : DeviceMap) (main_device : option Device)
    (state_dict : option StateDict) (offload_dir : option string)
    (offload_index : option (dict string)) (offload_buffers : bool)
    (skip_keys : option (string + list string))
    (preload_module_classes : option (list string)) (force_hooks : bool) : M unit :=
  model ← get_model;
  match check_device_map model device_map with
  | Some e => raise e
  | None => mret tt
  end ;;
  let force_hooks := forced_hooks model force_hooks in
  (if bool_decide (1 < size (device_set device_map))%nat || force_hooks then
     hook_path device_map main_device state_dict offload_dir offload_index
       offload_buffers skip_keys preload_module_classes
   else
     fast_path device_map) ;;
  modify (set_hf_device_map device_map).

(** *** [cpu_offload] and [disk_offload] *)

(** [next(iter(model.parameters())).device] *)
Definition first_parameter_device : M Device :=
  model ← get_model;
  match parameters model with
  | param :: _ => mret (DTorch (tensor_device param))
  | [] => raise StopIteration
  end.

Definition cpu_offload (execution_device : option Device) (offload_buffers : bool)
    (state_dict : option StateDict) (preload_module_classes : option (list string))
    : M unit :=
  execution_device ← match execution_device with
                      | None => first_parameter_device
                      | Some d => mret d
                      end;
  model ← get_model;
  let state_dict :=
    match state_dict with
    | None => dict_comprehension (λ _ p, tensor_to cpu p) (model_state_dict model)
    | Some sd => sd
    end in
  emit (EvAddAlignDevicesHook true) ;;
  modify (add_align_devices_hook true) ;;
  let args :=
    {| ah_execution_device := execution_device;
       ah_offload := true;
       ah_offload_buffers := offload_buffers;
       ah_weights_map := WeightsDict state_dict;
       ah_preload_module_classes := preload_module_classes |} in
  emit (EvAttachAlign args) ;;
  modify (attach_align_device_hook args).

Definition disk_offload (offload_dir : string) (execution_device : option Device)
    (offload_buffers : bool) (preload_module_classes : option (list string)) : M unit :=
  model ← get_model;
  when (negb (os_path_isdir offload_dir)
        || negb (os_path_isfile (os_path_join offload_dir "index.json")))
    (emit (EvOffloadStateDict offload_dir (model_state_dict model))) ;;
  execution_device ← match execution_device with
                      | None => first_parameter_device
                      | Some d => mret d
                      end;
  let weights_map :=
    WeightsLoader {| loader_state_dict := None; loader_save_folder := Some offload_dir;
                     loader_index := None; loader_device := None |} in
  emit (EvAddAlignDevicesHook true) ;;
  modify (add_align_devices_hook true) ;;
  let args :=
    {| ah_execution_device := execution_device;
       ah_offload := true;
       ah_offload_buffers := offload_buffers;
       ah_weights_map := weights_map;
       ah_preload_module_classes := preload_module_classes |} in
  emit (EvAttachAlign args) ;;
  modify (attach_align_device_hook args).
End BigModeling.

(** ** A concrete environment

    CUDA-only or NPU collaborators over which the statements above are
    evaluated: the device map always passes the check, nothing is on disk yet,
    the hooks leave the model record as it is, and a transfer method moves
    every parameter and buffer as [nn.Module.to] does. *)
Module Lab.
Definition lab_torch_device (d : Device) : TorchDevice :=
  match d with
  | DTorch t => t
  | DInt n => {| dev_type := "cuda"; dev_index := Some n |}
  | DStr s => {| dev_type := s; dev_index := None |}
  end.

Definition lab_move_all (d : Device) (m : Model) : Model :=
  let move := λ item : string * Tensor,
    (item.1, {| tensor_device := lab_torch_device d; tensor_data := tensor_data item.2 |}) in
  set_named_buffers (move <$> named_buffers m)
    (set_named_parameters (move <$> named_parameters m) m).

(** [to(device)] goes where it is told, [cpu()] to the host, and
    [cuda()], [npu()], ... to the backend of that name. *)
Definition lab_transfer (method : string) (args : TransferArgs) (m : Model) : Model :=
  if bool_decide (method = "to") then
    match to_device args with
    | Some d => lab_move_all d m
    | None => m
    end
  else lab_move_all (DStr method) m.

(** The names of one tie group share one address. *)
Definition lab_data_ptr (tied : list (list string)) (m : Model) (name : string) : Z :=
  match list_find (λ group, name ∈ group) tied with
  | Some (i, _) => 1000 + Z.of_nat i
  | None => 0
  end.

Definition collaborators (tied : list (list string)) (npu : bool) : Collaborators :=
  {| check_device_map := λ _ _, None;
     is_bnb_available := λ _, true;
     is_npu_available := npu;
     is_mlu_available := false;
     is_sdaa_available := false;
     is_musa_available := false;
     is_xpu_available := false;
     check_cuda_p2p_ib_support := true;
     os_path_isdir := λ _, false;
     os_path_isfile := λ _, false;
     torch_device := lab_torch_device;
     model_state_dict := λ m, named_parameters m ++ named_buffers m;
     extract_submodules_state_dict :=
       λ sd names,
         filter (λ item, Exists (λ n, item.1 = n ∨ String.prefix (n +:+ ".") item.1 = true) names) sd;
     find_tied_parameters := λ _, tied;
     param_data_ptr := lab_data_ptr tied;
     attach_align_device_hook_on_blocks := λ _ m, m;
     attach_align_device_hook := λ _ m, m;
     add_align_devices_hook := λ _ m, m;
     retie_parameters := λ _ m, m;
     module_transfer := lab_transfer |}.

Definition on (t : string) (i : option Z) (data : Z) : Tensor :=
  {| tensor_device := {| dev_type := t; dev_index := i |}; tensor_data := data |}.

Definition model_of_tensors (ps bs : dict Tensor) : Model :=
  {| named_parameters := ps; named_buffers := bs;
     quantization_method := None; is_loaded_in_8bit := None; is_loaded_in_4bit := None;
     guards := []; hf_device_map := None |}.

(** Two linear layers sharing no storage, all on the host. *)
Definition host_model : Model :=
  model_of_tensors
    [("a.weight", on "cpu" None 100); ("b.weight", on "cpu" None 200)]
    [("a.steps", on "cpu" None 300)].

(** The host model, loaded in 8 bits by bitsandbytes. *)
Definition int8_model : Model :=
  {| named_parameters := named_parameters host_model;
     named_buffers := named_buffers host_model;
     quantization_method := Some "bitsandbytes";
     is_loaded_in_8bit := Some true; is_loaded_in_4bit := None;
     guards := []; hf_device_map := None |}.

(** The same layers, with [b] still symbolic. *)
Definition half_meta_model : Model :=
  model_of_tensors
    [("a.weight", on "cpu" None 100); ("b.weight", on "meta" None 0)]
    [("a.steps", on "cpu" None 300); ("b.steps", on "meta" None 0)].
End Lab.

(** ** Layerwise casting *)

Module LayerwiseCasting.
(** [LayerwiseCastingHook(storage_dtype, compute_dtype, non_blocking)] *)
Record CastingHook := {
  storage_dtype : string;
  compute_dtype : string;
  non_blocking : bool
}.

(** An [nn.Module]: the names of the classes of its type (its MRO), the
    hooks it carries and what [named_children()] yields. *)
#[local] Unset Elimination Schemes.
Inductive NNModule :=
  | Mod (classes : list string) (hooks : list CastingHook) (children : list (string * NNModule)).
#[local] Set Elimination Schemes.

Definition classes_of (module : NNModule) : list string :=
  match module with Mod cs _ _ => cs end.
Definition hooks_of (module : NNModule) : list CastingHook :=
  match module with Mod _ hs _ => hs end.
Definition named_children (module : NNModule) : list (string * NNModule) :=
  match module with Mod _ _ ch => ch end.

(** The node that the child positions [path] lead to. *)
Fixpoint node_at (path : list nat) (module : NNModule) : option NNModule :=
  match path with
  | [] => Some module
  | i :: rest =>
      match named_children module !! i with
      | Some child => node_at rest child.2
      | None => None
      end
  end.

(** [isinstance(module, classes)] *)
Definition isinstance (module : NNModule) (classes : list string) : bool :=
  existsb (λ c, py_in c (classes_of module)) classes.

(** [skip_modules_pattern]: a string is iterated character by character. *)
Inductive Patterns :=
  | PatternStr (s : string)
  | PatternTuple (ps : list string).

Definition iter_patterns (p : Patterns) : list string :=
  match p with
  | PatternStr s => (λ c, String c EmptyString) <$> String.list_ascii_of_string s
  | PatternTuple ps => ps
  end.

(** [f"{_prefix}.{name}" if _prefix else name] *)
Definition layer_name (_prefix name : string) : string :=
  if bool_decide (_prefix = EmptyString) then name else _prefix +:+ "." +:+ name.

(** Modelled from the spec: [add_hook_to_module(module, hook, append=True)]
    of [.hooks], which "attaches a hook" at the node; the hook joins the ones
    the module has and nothing else of the tree changes. *)
Definition add_hook_to_module (module : NNModule) (hook : CastingHook) : NNModule :=
  match module with
  | Mod cs hs ch => Mod cs (hs ++ [hook]) ch
  end.

Section Walk.
(** [SUPPORTED_PYTORCH_LAYERS_FOR_UPCASTING] of [utils.constants] and
    [re.search(pattern, string) is not None]. *)
Variable SUPPORTED_PYTORCH_LAYERS_FOR_UPCASTING : list string.
Variable re_search : string -> string -> bool.

Variable hook : CastingHook.
Variable skip_modules_pattern : option Patterns.
Variable skip_modules_classes : option (list string).

(** Lines 740-742. *)
Definition should_skip (module : NNModule) (_prefix : string) : bool :=
  match skip_modules_classes with
  | Some classes => isinstance module classes
  | None => false
  end
  || match skip_modules_pattern with
     | Some patterns => existsb (λ pattern, re_search pattern _prefix) (iter_patterns patterns)
     | None => false
     end.

(** Lines 731-766; the result is the tree after the call. *)
Fixpoint _attach_layerwise_casting_hooks (module : NNModule) (_prefix : string) : NNModule :=
  if should_skip module _prefix then module
  else if isinstance module SUPPORTED_PYTORCH_LAYERS_FOR_UPCASTING then
    add_hook_to_module module hook
  else
    match module with
    | Mod cs hs ch =>
        Mod cs hs
          (map (λ child : string * NNModule,
                  (child.1, _attach_layerwise_casting_hooks child.2 (layer_name _prefix child.1)))
             ch)
    end.

Definition attach_layerwise_casting_hooks (module : NNModule) : NNModule :=
  _attach_layerwise_casting_hooks module EmptyString.

(** The walk as the specification words it, followed along one path of
    child positions: a skipped node ends it, its subtree with it; an
    eligible node that is not skipped gets the hook and ends it; below any
    other node it goes on into the child. *)
Fixpoint receives_hook (path : list nat) (module : NNModule) (_prefix : string) : bool :=
  if should_skip module _prefix then false
  else if isinstance module SUPPORTED_PYTORCH_LAYERS_FOR_UPCASTING then
    match path with [] => true | _ :: _ => false end
  else
    match path with
    | [] => false
    | i :: rest =>
        match named_children module !! i with
        | Some child => receives_hook rest child.2 (layer_name _prefix child.1)
        | None => false
        end
    end.
End Walk.
End LayerwiseCasting.

(** ** Notions used in the statements *)

(** The calls of [set_module_tensor_to_device] that put the symbolic tensors
    of [tensors] on [device], and the tensors afterwards. *)
Definition placements (device : Device) (tensors : dict Tensor) : list Event :=
  (λ item, EvSetTensor item.1 device) <$> filter (λ item, on_meta_type item.2) tensors.

(** The loop of [materialize_meta] over [todo], seen from one dictionary of
    the model. *)
Definition place_in `{Collaborators} (device : Device) (todo : dict Tensor)
    (d : dict Tensor) : dict Tensor :=
  fold_left
    (λ d item, if on_meta_type item.2 then dict_alter (tensor_to device) item.1 d else d)
    todo d.

Definition materialized `{Collaborators} (device : Device) (tensors : dict Tensor)
    : dict Tensor :=
  (λ item, if on_meta_type item.2 then (item.1, tensor_to device item.2) else item)
    <$> tensors.

(** What one wrapper of [add_warning] logs before it looks at the
    parameters. *)
Definition guard_warnings (fn_name : string) (args : TransferArgs) : list Event :=
  if bool_decide (fn_name = "to") && is_none (to_device args)
  then [] else [EvWarning WarnMoveDispatched].

Definition is_persist_event (ev : Event) : Prop :=
  match ev with EvOffloadStateDict _ _ => True | _ => False end.

Definition is_warning_event (ev : Event) : Prop :=
  match ev with EvWarning _ => True | _ => False end.

Definition is_hook_event (ev : Event) : Prop :=
  match ev with
  | EvAttachOnBlocks _ | EvAddAlignDevicesHook _ | EvAttachAlign _ => True
  | _ => False
  end.

Definition is_wrap_event (ev : Event) : Prop :=
  match ev with EvWrap _ => True | _ => False end.

#[global] Instance is_persist_event_dec ev : Decision (is_persist_event ev).
Proof. destruct ev; apply _. Defined.
#[global] Instance is_warning_event_dec ev : Decision (is_warning_event ev).
Proof. destruct ev; apply _. Defined.
#[global] Instance is_hook_event_dec ev : Decision (is_hook_event ev).
Proof. destruct ev; apply _. Defined.
#[global] Instance is_wrap_event_dec ev : Decision (is_wrap_event ev).
Proof. destruct ev; apply _. Defined.

(** [d] is the first of [l] that satisfies [P]. *)
Definition first_such {A} (P : A -> Prop) (d : A) (l : list A) : Prop :=
  ∃ before after, l = before ++ d :: after ∧ Forall (λ x, ¬ P x) before ∧ P d.

Definition host_only (device_map : DeviceMap) : Prop :=
  device_set device_map = {[cpu]} ∨ device_set device_map = {[cpu; disk]}.

#[global] Instance host_only_dec device_map : Decision (host_only device_map).
Proof. unfold host_only. apply _. Defined.


(** ** What a hook-path run logs, part by part *)

(** The write of lines 387-393. *)
Definition persist_events `{Collaborators} (model : Model) (device_map : DeviceMap)
    (offload_dir : option string) (offload_index : option (dict string)) : list Event :=
  match offload_dir with
  | Some dir =>
      if bool_decide (0 < length (modules_on disk device_map))%nat
         && is_none offload_index
         && (negb (os_path_isdir dir)
             || negb (os_path_isfile (os_path_join dir "index.json")))
      then [EvOffloadStateDict dir
              (extract_submodules_state_dict (model_state_dict model)
                 (modules_on disk device_map))]
      else []
  | None => []
  end.

(** The warning of lines 438-444. *)
Definition offload_warning (device_map : DeviceMap) : list Event :=
  let offloaded_tiers := filter (λ device, device ∈ [cpu; disk]) (device_set device_map) in
  if bool_decide (offloaded_tiers ≠ ∅)
  then [EvWarning (WarnOffloadedToMeta offloaded_tiers)] else [].

(** The warning of lines 483-489. *)
Definition p2p_warning `{Collaborators} (device_map : DeviceMap) : list Event :=
  if bool_decide
       (1 < size (filter (λ device, device ∉ [cpu; disk]) (device_set device_map)))%nat
     && negb check_cuda_p2p_ib_support
  then [EvWarning WarnP2P] else [].

(** ** The module tree without its hooks *)

Fixpoint strip_hooks (module : LayerwiseCasting.NNModule) : LayerwiseCasting.NNModule :=
  match module with
  | LayerwiseCasting.Mod cs _ ch =>
      LayerwiseCasting.Mod cs []
        (map (λ child : string * LayerwiseCasting.NNModule, (child.1, strip_hooks child.2)) ch)
  end.

(** ** [load_checkpoint_and_dispatch] *)

(** [max_memory]: device identifier to maximum memory. *)
Abbreviation MaxMemory := (list (Device * string)) (only parsing).

(** The keyword arguments of [load_checkpoint_in_model]. *)
Record LoadArgs := {
  la_checkpoint : string;
  la_device_map : option DeviceMap;
  la_offload_folder : option string;
  la_dtype : option string;
  la_offload_state_dict : option bool;
  la_offload_buffers : bool;
  la_strict : bool;
  la_full_state_dict : bool;
  la_broadcast_from_rank0 : bool
}.

(** What the orchestrator imports from [.utils] beyond the collaborators of
    [dispatch_model]; the three are calls that return. *)
Class Loaders := {
  (** [get_balanced_memory(model, max_memory=, no_split_module_classes=, dtype=, low_zero=)] *)
  get_balanced_memory :
    Model -> option MaxMemory -> option (list string) -> option string -> bool -> MaxMemory;
  (** [infer_auto_device_map(model, max_memory=, no_split_module_classes=, dtype=, offload_buffers=)] *)
  infer_auto_device_map :
    Model -> option MaxMemory -> option (list string) -> option string -> bool -> DeviceMap;
  load_checkpoint_in_model : LoadArgs -> Model -> Model
}.

(** The calls of the orchestrator, in order; the events of the dispatch it
    ends with are kept as they are. *)
Inductive LoadEvent :=
  | EvBalancedMemory (max_memory : option MaxMemory) (no_split_module_classes : option (list string))
      (dtype : option string) (low_zero : bool)
  | EvInferDeviceMap (max_memory : option MaxMemory)
      (no_split_module_classes : option (list string)) (dtype : option string)
      (offload_buffers : bool)
  | EvLoadCheckpoint (args : LoadArgs)
  | EvDispatch (ev : Event).

Definition L (A : Type) : Type := Model -> Model * list LoadEvent * (Exn + A).

#[global] Instance L_ret : MRet L := λ A a m, (m, [], inr a).

#[global] Instance L_bind : MBind L := λ A B f x m,
  match x m with
  | (m1, l1, inl e) => (m1, l1, inl e)
  | (m1, l1, inr a) =>
      match f a m1 with
      | (m2, l2, r) => (m2, l1 ++ l2, r)
      end
  end.

Definition l_raise {A} (e : Exn) : L A := λ m, (m, [], inl e).
Definition l_emit (ev : LoadEvent) : L unit := λ m, (m, [ev], inr tt).
Definition l_get_model : L Model := λ m, (m, [], inr m).
Definition l_modify (f : Model -> Model) : L unit := λ m, (f m, [], inr tt).

(** A call of [dispatch_model] from the orchestrator. *)
Definition l_dispatch {A} (x : M A) : L A := λ m,
  match x m with
  | (m', l, r) => (m', EvDispatch <$> l, r)
  end.

Definition bad_device_map_token : Exn :=
  ValueError
    "If passing a string for `device_map`, please choose 'auto', 'balanced', 'balanced_low_0' or 'sequential'.".

Section Orchestrator.
Context `{Collaborators} `{Loaders}.

(** Lines 623-667. [device_map] is a string, a dictionary or absent. *)
Definition load_checkpoint_and_dispatch (checkpoint : string)
    (device_map : option (string + DeviceMap)) (max_memory : option MaxMemory)
    (no_split_module_classes : option (list string)) (offload_folder : option string)
    (offload_buffers : bool) (dtype : option string) (offload_state_dict : option bool)
    (skip_keys : option (string + list string))
    (preload_module_classes : option (list string)) (force_hooks : bool) (strict : bool)
    (full_state_dict : bool) (broadcast_from_rank0 : bool) : L unit :=
  match device_map with
  | Some (inl token) =>
      if py_in token ["auto"; "balanced"; "balanced_low_0"; "sequential"]
      then mret tt else l_raise bad_device_map_token
  | _ => mret tt
  end ;;
  device_map ←
    match device_map with
    | Some (inl token) =>
        max_memory ←
          (if bool_decide (token ≠ "sequential") then
             model ← l_get_model;
             l_emit (EvBalancedMemory max_memory no_split_module_classes dtype
                       (bool_decide (token = "balanced_low_0"))) ;;
             mret (Some (get_balanced_memory model max_memory no_split_module_classes dtype
                           (bool_decide (token = "balanced_low_0"))))
           else mret max_memory);
        model ← l_get_model;
        l_emit (EvInferDeviceMap max_memory no_split_module_classes dtype offload_buffers) ;;
        mret (Some (infer_auto_device_map model max_memory no_split_module_classes dtype
                      offload_buffers))
    | Some (inr device_map) => mret (Some device_map)
    | None => mret None
    end;
  let offload_state_dict :=
    match offload_state_dict, device_map with
    | None, Some device_map =>
        if py_in disk (dict_values device_map) then Some true else offload_state_dict
    | _, _ => offload_state_dict
    end in
  let load_args :=
    {| la_checkpoint := checkpoint;
       la_device_map := device_map;
       la_offload_folder := offload_folder;
       la_dtype := dtype;
       la_offload_state_dict := offload_state_dict;
       la_offload_buffers := offload_buffers;
       la_strict := strict;
       la_full_state_dict := full_state_dict;
       la_broadcast_from_rank0 := broadcast_from_rank0 |} in
  l_emit (EvLoadCheckpoint load_args) ;;
  l_modify (load_checkpoint_in_model load_args) ;;
  match device_map with
  | None => mret tt
  | Some device_map =>
      l_dispatch
        (dispatch_model device_map None None offload_folder None offload_buffers skip_keys
           preload_module_classes force_hooks)
  end.
End Orchestrator.

(** The device map that the orchestrator loads and dispatches with. *)
Definition resolved_device_map `{Loaders} (model : Model)
    (device_map : option (string + DeviceMap)) (max_memory : option MaxMemory)
    (no_split_module_classes : option (list string)) (dtype : option string)
    (offload_buffers : bool) : option DeviceMap :=
  match device_map with
  | Some (inl token) =>
      let max_memory :=
        if bool_decide (token ≠ "sequential") then
          Some (get_balanced_memory model max_memory no_split_module_classes dtype
                  (bool_decide (token = "balanced_low_0")))
        else max_memory in
      Some (infer_auto_device_map model max_memory no_split_module_classes dtype
              offload_buffers)
  | Some (inr device_map) => Some device_map
  | None => None
  end.

Definition is_balanced_memory_event (ev : LoadEvent) : Prop :=
  match ev with EvBalancedMemory _ _ _ _ => True | _ => False end.

#[global] Instance is_balanced_memory_event_dec ev : Decision (is_balanced_memory_event ev).
Proof. destruct ev; apply _. Defined.

Definition l_model_of {A} (r : Model * list LoadEvent * (Exn + A)) : Model := r.1.1.
Definition l_log_of {A} (r : Model * list LoadEvent * (Exn + A)) : list LoadEvent := r.1.2.
Definition l_outcome_of {A} (r : Model * list LoadEvent * (Exn + A)) : Exn + A := r.2.

(** [device_map] is acceptable: not a string, or one of the four tokens. *)
Definition acceptable_device_map (device_map : option (string + DeviceMap)) : bool :=
  match device_map with
  | Some (inl token) => py_in token ["auto"; "balanced"; "balanced_low_0"; "sequential"]
  | _ => true
  end.

(** The calls of lines 627-642. *)
Definition inference_events `{Loaders} (model : Model)
    (device_map : option (string + DeviceMap)) (max_memory : option MaxMemory)
    (no_split_module_classes : option (list string)) (dtype : option string)
    (offload_buffers : bool) : list LoadEvent :=
  match device_map with
  | Some (inl token) =>
      if bool_decide (token ≠ "sequential") then
        [EvBalancedMemory max_memory no_split_module_classes dtype
           (bool_decide (token = "balanced_low_0"));
         EvInferDeviceMap
           (Some (get_balanced_memory model max_memory no_split_module_classes dtype
                    (bool_decide (token = "balanced_low_0"))))
           no_split_module_classes dtype offload_buffers]
      else [EvInferDeviceMap max_memory no_split_module_classes dtype offload_buffers]
  | _ => []
  end.

(** What [load_checkpoint_in_model] is called with, for the resolved map. *)
Definition load_args_for (checkpoint : string) (device_map : option DeviceMap)
    (offload_folder : option string) (offload_buffers : bool) (dtype : option string)
    (offload_state_dict : option bool) (strict full_state_dict broadcast_from_rank0 : bool)
    : LoadArgs :=
  {| la_checkpoint := checkpoint;
     la_device_map := device_map;
     la_offload_folder := offload_folder;
     la_dtype := dtype;
     la_offload_state_dict :=
       match offload_state_dict, device_map with
       | None, Some device_map =>
           if py_in disk (dict_values device_map) then Some true else offload_state_dict
       | _, _ => offload_state_dict
       end;
     la_offload_buffers := offload_buffers;
     la_strict := strict;
     la_full_state_dict := full_state_dict;
     la_broadcast_from_rank0 := broadcast_from_rank0 |}.

Module LoadLab.
(** An estimator that empties accelerator 0 when asked to, a planner that
    splits the two layers between accelerator 0 and the host, and a loader
    that brings every tensor to the host. *)
Definition loaders : Loaders :=
  {| get_balanced_memory :=
       λ _ _ _ _ low_zero,
         [(DInt 0, if low_zero : bool then "0GiB" else "10GiB"); (cpu, "30GiB")];
     infer_auto_device_map := λ _ _ _ _ _, [("a", DInt 0); ("b", cpu)];
     load_checkpoint_in_model := λ _ m, Lab.lab_move_all cpu m |}.
End LoadLab.

(** ** Initialising a model on a device: [init_on_device], [init_empty_weights]

    The two context managers rebind module-level names for the duration of a
    block.  The closures they install are data here: a closure records the
    variables it captured, and calling it interprets them. *)

Module InitOnDevice.

Inductive PyExn :=
  | KeyError (key : string)
  | AttributeError (name : string)
  | NameError (name : string)
  | TypeError (msg : string)
  | Raised (e : Exn).

(** A value of a parameter's [__dict__]. *)
Inductive AttrValue :=
  | AttrBool (b : bool)
  | AttrInt (n : Z)
  | AttrStr (s : string).

(** A parameter: its class, the tensor it wraps, [requires_grad], and its
    [__dict__]. *)
Record Param := {
  param_cls : string;
  param_tensor : Tensor;
  requires_grad : bool;
  param_dict : dict AttrValue
}.

(** The part of an [nn.Module] the registration methods write. *)
Record TorchModule := {
  _parameters : dict (option Param);
  _buffers : dict (option Tensor)
}.

Definition set_parameters (ps : dict (option Param)) (module : TorchModule) : TorchModule :=
  {| _parameters := ps; _buffers := _buffers module |}.

Definition set_buffers (bs : dict (option Tensor)) (module : TorchModule) : TorchModule :=
  {| _parameters := _parameters module; _buffers := bs |}.

(** What [nn.Module.register_parameter] is bound to: torch's method, or a
    [register_empty_parameter] with its [device] and [old_register_parameter]. *)
Inductive Registrar :=
  | TorchRegisterParameter
  | RegisterEmptyParameter (device : TorchDevice) (old_register_parameter : Registrar).

(** What [nn.Module.register_buffer] is bound to; [old_register_buffer] is
    bound only when line 127 ran. *)
#[local] Unset Elimination Schemes.
Inductive BufferRegistrar :=
  | TorchRegisterBuffer
  | RegisterEmptyBuffer (device : TorchDevice) (old_register_buffer : option BufferRegistrar).
#[local] Set Elimination Schemes.

(** What a tensor constructor [torch.empty], ... is bound to: torch's
    function, or the [wrapper] of [patch_tensor_constructor]. *)
Inductive Constructor :=
  | TorchConstructor (name : string)
  | Wrapper (device : TorchDevice) (fn : Constructor).

(** The module-level state the context managers touch; [torch_state] is the
    rest of torch's state, which only a device context changes. *)
Record Globals {TorchState : Type} := {
  register_parameter : Registrar;
  register_buffer : BufferRegistrar;
  torch_attrs : dict Constructor;
  torch_state : TorchState
}.
Arguments Globals : clear implicits.

Section Init.
Context {TorchState : Type}.

Definition set_register_parameter (r : Registrar) (g : Globals TorchState)
    : Globals TorchState :=
  {| register_parameter := r; register_buffer := register_buffer g;
     torch_attrs := torch_attrs g; torch_state := torch_state g |}.

Definition set_register_buffer (r : BufferRegistrar) (g : Globals TorchState)
    : Globals TorchState :=
  {| register_parameter := register_parameter g; register_buffer := r;
     torch_attrs := torch_attrs g; torch_state := torch_state g |}.

Definition set_torch_attrs (attrs : dict Constructor) (g : Globals TorchState)
    : Globals TorchState :=
  {| register_parameter := register_parameter g; register_buffer := register_buffer g;
     torch_attrs := attrs; torch_state := torch_state g |}.

Definition set_torch_state (s : TorchState) (g : Globals TorchState) : Globals TorchState :=
  {| register_parameter := register_parameter g; register_buffer := register_buffer g;
     torch_attrs := torch_attrs g; torch_state := s |}.

(** PyTorch and the environment. *)
Class Torch := {
  (** torch's own [nn.Module.register_parameter(module, name, param)] *)
  torch_register_parameter :
    TorchModule -> string -> option Param -> PyExn + TorchModule;
  (** torch's own [nn.Module.register_buffer(module, name, buffer, persistent=)] *)
  torch_register_buffer :
    TorchModule -> string -> option Tensor -> bool -> PyExn + TorchModule;
  (** [param_cls(tensor, **kwargs)] *)
  new_parameter : string -> Tensor -> dict AttrValue -> PyExn + Param;
  (** [device.__enter__()] and [device.__exit__(...)], which lets an
      exception of the block through *)
  enter_device : TorchDevice -> TorchState -> TorchState;
  exit_device : TorchDevice -> TorchState -> TorchState;
  (** [parse_flag_from_env(key, default)] *)
  parse_flag_from_env : string -> bool -> bool
}.

Context `{Torch}.

(** [tensor.to(device)] for a [torch.device] *)
Definition to_torch_device (device : TorchDevice) (t : Tensor) : Tensor :=
  {| tensor_device := device; tensor_data := tensor_data t |}.

(** Calling what [nn.Module.register_parameter] is bound to; for the closure
    this is [register_empty_parameter], lines 129-135. *)
Fixpoint call_register_parameter (method : Registrar) (module : TorchModule) (name : string)
    (param : option Param) : PyExn + TorchModule :=
  match method with
  | TorchRegisterParameter => torch_register_parameter module name param
  | RegisterEmptyParameter device old_register_parameter =>
      match call_register_parameter old_register_parameter module name param with
      | inl e => inl e
      | inr module =>
          match param with
          | None => inr module
          | Some param =>
              match dict_get name (_parameters module) with
              | None => inl (KeyError name)
              | Some None => inl (AttributeError "__dict__")
              | Some (Some stored) =>
                  let param_cls := param_cls stored in
                  let kwargs := param_dict stored in
                  let kwargs := dict_set "requires_grad" (AttrBool (requires_grad param)) kwargs in
                  match new_parameter param_cls (to_torch_device device (param_tensor stored))
                          kwargs with
                  | inl e => inl e
                  | inr new =>
                      inr (set_parameters (dict_set name (Some new) (_parameters module))
                             module)
                  end
              end
          end
      end
  end.

(** Calling what [nn.Module.register_buffer] is bound to; for the closure
    this is [register_empty_buffer], lines 137-140. *)
Fixpoint call_register_buffer (method : BufferRegistrar) (module : TorchModule)
    (name : string) (buffer : option Tensor) (persistent : bool) : PyExn + TorchModule :=
  match method with
  | TorchRegisterBuffer => torch_register_buffer module name buffer persistent
  | RegisterEmptyBuffer device old_register_buffer =>
      match old_register_buffer with
      | None => inl (NameError "old_register_buffer")
      | Some old_register_buffer =>
          match call_register_buffer old_register_buffer module name buffer persistent with
          | inl e => inl e
          | inr module =>
              match buffer with
              | None => inr module
              | Some _ =>
                  match dict_get name (_buffers module) with
                  | None => inl (KeyError name)
                  | Some None => inl (AttributeError "to")
                  | Some (Some stored) =>
                      inr (set_buffers
                             (dict_set name (Some (to_torch_device device stored))
                                (_buffers module))
                             module)
                  end
              end
          end
      end
  end.

(** Code that runs against the module-level state and returns or raises. *)
Definition G (A : Type) : Type := Globals TorchState -> Globals TorchState * (PyExn + A).

#[global] Instance G_ret : MRet G := λ A a g, (g, inr a).

#[global] Instance G_bind : MBind G := λ A B f x g,
  match x g with
  | (g1, inl e) => (g1, inl e)
  | (g1, inr a) => f a g1
  end.

Definition g_raise {A} (e : PyExn) : G A := λ g, (g, inl e).
Definition g_get : G (Globals TorchState) := λ g, (g, inr g).
Definition g_modify (f : Globals TorchState -> Globals TorchState) : G unit :=
  λ g, (f g, inr tt).
Definition g_when (b : bool) (body : G unit) : G unit := if b then body else mret tt.

(** [for x in xs: body(x)] *)
Fixpoint g_for_each {A} (xs : list A) (body : A -> G unit) : G unit :=
  match xs with
  | [] => mret tt
  | x :: xs => body x ;; g_for_each xs body
  end.

(** [try: block finally: handler] *)
Definition try_finally {A} (block : G A) (handler : G unit) : G A := λ g,
  match block g with
  | (g1, r) =>
      match handler g1 with
      | (g2, inl e) => (g2, inl e)
      | (g2, inr _) => (g2, r)
      end
  end.

(** [with device: block] *)
Definition with_device {A} (device : TorchDevice) (block : G A) : G A := λ g,
  match block (set_torch_state (enter_device device (torch_state g)) g) with
  | (g1, r) => (set_torch_state (exit_device device (torch_state g1)) g1, r)
  end.

(** [getattr(torch, name)] and [setattr(torch, name, fn)] *)
Definition getattr_torch (name : string) : G Constructor := λ g,
  match dict_get name (torch_attrs g) with
  | Some fn => (g, inr fn)
  | None => (g, inl (AttributeError name))
  end.

Definition setattr_torch (name : string) (fn : Constructor) : G unit :=
  g_modify (λ g, set_torch_attrs (dict_set name fn (torch_attrs g)) g).

(** [{name: getattr(torch, name) for name in names}] *)
Fixpoint getattr_each (names : list string) (acc : dict Constructor) : G (dict Constructor) :=
  match names with
  | [] => mret acc
  | name :: names =>
      fn ← getattr_torch name;
      getattr_each names (dict_set name fn acc)
  end.

(** [init_on_device] (lines 96-170); [body] is the block of the [with]
    statement, which runs at the [yield]. *)
Definition init_on_device {A} (device : TorchDevice) (include_buffers : option bool)
    (body : G A) : G A :=
  let include_buffers :=
    match include_buffers with
    | None => parse_flag_from_env "ACCELERATE_INIT_INCLUDE_BUFFERS" false
    | Some include_buffers => include_buffers
    end in
  if include_buffers then with_device device body
  else
    g ← g_get;
    let old_register_parameter := register_parameter g in
    let old_register_buffer :=
      if include_buffers then Some (register_buffer g) else None in
    tensor_constructors_to_patch ←
      (if include_buffers then getattr_each ["empty"; "zeros"; "ones"; "full"] []
       else mret []);
    try_finally
      (g_modify (set_register_parameter
                   (RegisterEmptyParameter device old_register_parameter)) ;;
       g_when include_buffers
         (g_modify (set_register_buffer (RegisterEmptyBuffer device old_register_buffer))) ;;
       g_for_each (dict_keys tensor_constructors_to_patch)
         (λ torch_function_name,
            fn ← getattr_torch torch_function_name;
            setattr_torch torch_function_name (Wrapper device fn)) ;;
       body)
      (g_modify (set_register_parameter old_register_parameter) ;;
       g_when include_buffers
         (match old_register_buffer with
          | Some old_register_buffer => g_modify (set_register_buffer old_register_buffer)
          | None => g_raise (NameError "old_register_buffer")
          end) ;;
       g_for_each tensor_constructors_to_patch
         (λ '(torch_function_name, old_torch_function),
            setattr_torch torch_function_name old_torch_function)).

(** [init_empty_weights] (lines 60-93) *)
Definition init_empty_weights {A} (include_buffers : option bool) (body : G A) : G A :=
  let include_buffers :=
    match include_buffers with
    | None => parse_flag_from_env "ACCELERATE_INIT_INCLUDE_BUFFERS" false
    | Some include_buffers => include_buffers
    end in
  init_on_device meta_device (Some include_buffers) body.

(** [module.register_parameter(name, param)] in a block: the method is
    looked up on [nn.Module] when the call is made. *)
Definition register (module : TorchModule) (name : string) (param : option Param)
    : G TorchModule :=
  λ g, (g, call_register_parameter (register_parameter g) module name param).

(** The value [include_buffers] has after lines 117-118. *)
Definition resolved_flag (include_buffers : option bool) : bool :=
  match include_buffers with
  | None => parse_flag_from_env "ACCELERATE_INIT_INCLUDE_BUFFERS" false
  | Some include_buffers => include_buffers
  end.
End Init.

(** A torch whose parameter classes take [requires_grad] only, whose device
    contexts are a stack, and an environment without the flag. *)
Definition lab_torch : @Torch (list TorchDevice) :=
  {| torch_register_parameter :=
       λ module name param,
         if decide (name = EmptyString) then inl (KeyError "parameter name can't be empty")
         else inr (set_parameters (dict_set name param (_parameters module)) module);
     torch_register_buffer :=
       λ module name buffer _,
         inr (set_buffers (dict_set name buffer (_buffers module)) module);
     new_parameter :=
       λ cls tensor kwargs,
         match kwargs with
         | [(key, AttrBool b)] =>
             if decide (key = "requires_grad") then
               inr {| param_cls := cls; param_tensor := tensor; requires_grad := b;
                      param_dict := [] |}
             else inl (TypeError key)
         | _ => inl (TypeError "unexpected keyword argument")
         end;
     enter_device := λ device stack, device :: stack;
     exit_device := λ device stack, tail stack;
     parse_flag_from_env := λ _ default, default |}.

Definition lab_globals : Globals (list TorchDevice) :=
  {| register_parameter := TorchRegisterParameter;
     register_buffer := TorchRegisterBuffer;
     torch_attrs := (λ name, (name, TorchConstructor name)) <$> ["empty"; "zeros"; "ones"; "full"];
     torch_state := [] |}.

Definition lab_weight : Param :=
  {| param_cls := "Parameter";
     param_tensor := {| tensor_device := {| dev_type := "cpu"; dev_index := None |};
                        tensor_data := 7 |};
     requires_grad := true;
     param_dict := [] |}.

Definition lab_module : TorchModule := {| _parameters := []; _buffers := [] |}.
End InitOnDevice.
(** * Properties *)

(** ** Dictionaries *)

Section DictFacts.
Context {V : Type}.
Implicit Types (d : dict V) (k : string) (v : V).

Lemma dict_get_set_eq k v d : dict_get k (dict_set k v d) = Some v.
Proof.
  induction d as [|[k' v'] d IH]; simpl.
  - by rewrite decide_True.
  - destruct (decide (k' = k)) as [->|Hne]; simpl.
    + by rewrite decide_True.
    + by rewrite decide_False.
Qed.

Lemma dict_get_set_ne k k' v d : k ≠ k' → dict_get k' (dict_set k v d) = dict_get k' d.
Proof.
  intros Hne. induction d as [|[k0 v0] d IH]; simpl.
  - by rewrite decide_False.
  - destruct (decide (k0 = k)) as [->|Hk0]; simpl.
    + by rewrite !decide_False.
    + by rewrite IH.
Qed.

Lemma dict_set_elem k v d k' v' :
  (k', v') ∈ dict_set k v d → (k' = k ∧ v' = v) ∨ (k', v') ∈ d.
Proof.
  induction d as [|[k0 v0] d IH]; simpl.
  - intros [= -> ->]%list_elem_of_singleton. by left.
  - destruct (decide (k0 = k)) as [->|Hk0].
    + intros [Heq|Hin]%elem_of_cons; [left; by inversion Heq|].
      right. by apply elem_of_cons; right.
    + intros [Heq|Hin]%elem_of_cons.
      * right. rewrite Heq. apply elem_of_cons; by left.
      * destruct (IH Hin) as [?|?]; [by left|].
        right. by apply elem_of_cons; right.
Qed.

Lemma dict_set_fresh k v d : k ∉ dict_keys d → dict_set k v d = d ++ [(k, v)].
Proof.
  unfold dict_keys. induction d as [|[k' v'] d IH]; simpl; [done|].
  intros Hnotin. apply not_elem_of_cons in Hnotin as [Hne Hnotin].
  rewrite decide_False by done. by rewrite IH.
Qed.

Lemma dict_get_elem k v d : NoDup (dict_keys d) → (k, v) ∈ d → dict_get k d = Some v.
Proof.
  unfold dict_keys. induction d as [|[k' v'] d IH]; simpl.
  - by intros _ ?%elem_of_nil.
  - intros [Hfresh Hnd]%NoDup_cons [Heq|Hin]%elem_of_cons.
    + inversion Heq; subst. by rewrite decide_True.
    + rewrite decide_False; [by apply IH|].
      intros ->. apply Hfresh. by apply (list_elem_of_fmap_2 fst _ (k, v)).
Qed.

Lemma dict_get_fmap {A} (g : string -> A -> V) k (items : dict A) :
  dict_get k ((λ item, (item.1, g item.1 item.2)) <$> items) = g k <$> dict_get k items.
Proof.
  induction items as [|[k' x] items IH]; simpl; [done|].
  destruct (decide (k' = k)) as [->|]; [done|apply IH].
Qed.

Lemma dict_comprehension_fold {A} (g : string -> A -> V) (items : dict A) d :
  NoDup (dict_keys d ++ dict_keys items) →
  fold_left (λ acc '(k, x), dict_set k (g k x) acc) items d
  = d ++ ((λ item, (item.1, g item.1 item.2)) <$> items).
Proof.
  unfold dict_keys. revert d. induction items as [|[k x] items IH]; intros d Hnd; simpl.
  - by rewrite app_nil_r.
  - rewrite fmap_cons in Hnd. simpl in Hnd.
    rewrite dict_set_fresh.
    2:{ apply NoDup_app in Hnd as (_ & Hdisj & _).
        intros Hin. apply (Hdisj _ Hin). by apply elem_of_cons; left. }
    rewrite IH.
    + by rewrite <- app_assoc.
    + rewrite fmap_app, <- app_assoc. exact Hnd.
Qed.

(** On a dictionary (no key twice) a comprehension is a map over the items. *)
Lemma dict_comprehension_fmap {A} (g : string -> A -> V) (items : dict A) :
  NoDup (dict_keys items) →
  dict_comprehension g items = (λ item, (item.1, g item.1 item.2)) <$> items.
Proof.
  intros Hnd. unfold dict_comprehension. by rewrite dict_comprehension_fold.
Qed.
End DictFacts.

(** ** The device-map normaliser *)

Lemma filter_head_first_such {A} (P : A -> Prop) `{∀ x, Decision (P x)} (l : list A) d :
  (∃ rest, filter P l = d :: rest) ↔ first_such P d l.
Proof.
  split.
  - induction l as [|x l IH]; intros [rest Hf]; [done|].
    rewrite filter_cons in Hf. destruct (decide (P x)) as [HP|HP].
    + inversion Hf; subst. by exists [], l.
    + destruct (IH (ex_intro _ rest Hf)) as (before & after & -> & Hb & Hd).
      exists (x :: before), after. split_and!; [done| |done]. by constructor.
  - intros (before & after & -> & Hb & Hd).
    induction Hb as [|x before Hx Hb IH]; simpl.
    + rewrite filter_cons, decide_True by done. eauto.
    + rewrite filter_cons, decide_False by done. exact IH.
Qed.

Lemma default_main_device_host device_map :
  host_only device_map → default_main_device device_map = inr cpu.
Proof.
  intros Hh. unfold default_main_device.
  destruct Hh as [->| ->].
  - by rewrite bool_decide_eq_true_2.
  - rewrite (bool_decide_eq_true_2 ({[cpu; disk]} = {[cpu; disk]})) by done.
    by rewrite orb_true_r.
Qed.

Lemma default_main_device_other device_map :
  ¬ host_only device_map →
  default_main_device device_map
  = match filter (λ d, d ∉ [cpu; disk]) (dict_values device_map) with
    | d :: _ => inr d
    | [] => inl IndexError
    end.
Proof.
  intros Hh. unfold default_main_device, host_only in *.
  rewrite !bool_decide_eq_false_2; [done|tauto..].
Qed.

Lemma default_main_device_iff (device_map : DeviceMap) d :
  default_main_device device_map = inr d
  ↔ (host_only device_map ∧ d = cpu)
    ∨ (¬ host_only device_map
       ∧ first_such (λ x, x ∉ [cpu; disk]) d (dict_values device_map)).
Proof.
  destruct (decide (host_only device_map)) as [Hh|Hh].
  - rewrite default_main_device_host by done. split.
    + intros [= <-]. by left.
    + intros [[_ ->]|[? _]]; done.
  - rewrite default_main_device_other by done.
    rewrite <- filter_head_first_such. split.
    + destruct (filter _ _) as [|x rest] eqn:Hf; [done|].
      intros [= ->]. right. eauto.
    + intros [[? _]|[_ [rest ->]]]; done.
Qed.

Lemma default_main_device_not_disk (device_map : DeviceMap) d :
  default_main_device device_map = inr d → d ≠ disk.
Proof.
  intros [[_ ->]|[_ (before & after & _ & _ & Hd)]]%default_main_device_iff; [done|].
  intros ->. apply Hd. apply elem_of_cons; right. apply elem_of_cons; by left.
Qed.

Example default_main_device_accelerator :
  default_main_device [("a", cpu); ("b", DInt 1); ("c", DInt 0); ("d", disk)] = inr (DInt 1).
Proof. vm_compute. reflexivity. Qed.

Example default_main_device_host_and_disk :
  default_main_device [("a", cpu); ("b", disk); ("c", cpu)] = inr cpu.
Proof. vm_compute. reflexivity. Qed.

Example default_main_device_torch_cpu :
  default_main_device [("a", DTorch {| dev_type := "cpu"; dev_index := None |})]
  = inr (DTorch {| dev_type := "cpu"; dev_index := None |}).
Proof. vm_compute. reflexivity. Qed.

Example default_main_device_root_on_disk :
  default_main_device [(EmptyString, disk)] = inl IndexError.
Proof. vm_compute. reflexivity. Qed.

(** C5. Without an override, the main device is the host exactly when the
    set of tiers of the device map is {cpu} or {cpu, disk}; otherwise it is the
    first value of the map, in iteration order, that is neither "cpu" nor
    "disk" (and no other device is ever selected). *)
Theorem default_main_device_selection (device_map : DeviceMap) :
  (resolve_main_device None device_map = inr cpu ↔ host_only device_map)
  ∧ ∀ d, resolve_main_device None device_map = inr d
         ↔ (host_only device_map ∧ d = cpu)
           ∨ (¬ host_only device_map
              ∧ first_such (λ x, x ∉ [cpu; disk]) d (dict_values device_map)).
Proof.
  split; [|intros d; apply default_main_device_iff].
  simpl. rewrite default_main_device_iff. split.
  - intros [[? _]|[_ (before & after & _ & _ & Hcpu)]]; [done|].
    exfalso. apply Hcpu. apply elem_of_cons; by left.
  - intros ?. by left.
Qed.

(** *** The offload-flag table *)

Lemma offload_table_get (device_map : DeviceMap) (main_device : Device) name tier :
  NoDup (dict_keys device_map) →
  (name, tier) ∈ device_map →
  dict_get name (offload_table device_map main_device)
  = Some (py_in tier (offloaded_devices main_device)).
Proof.
  intros Hnd Hin. unfold offload_table.
  rewrite dict_comprehension_fmap by done.
  rewrite (dict_get_fmap (λ _ device, py_in device (offloaded_devices main_device))).
  by rewrite (dict_get_elem _ _ _ Hnd Hin).
Qed.

Lemma py_in_offloaded_devices (main_device tier : Device) :
  py_in tier (offloaded_devices main_device) = true
  ↔ tier = disk ∨ (tier = cpu ∧ main_device ≠ cpu ∧ main_device ≠ mps).
Proof.
  unfold py_in, offloaded_devices. rewrite bool_decide_eq_true.
  repeat case_bool_decide; simpl; rewrite ?elem_of_cons, ?elem_of_nil;
    intuition (try congruence; try discriminate).
Qed.

(** C3, as the code has it. For a module path of the device map, the
    offload flag is true exactly when its tier is "disk", or its tier is "cpu"
    and the main device is neither "cpu" nor "mps". *)
Theorem offload_flag_by_tier (device_map : DeviceMap) (main_device : Device) name tier :
  NoDup (dict_keys device_map) →
  (name, tier) ∈ device_map →
  ∃ flag, dict_get name (offload_table device_map main_device) = Some flag
          ∧ (flag = true
             ↔ tier = disk ∨ (tier = cpu ∧ main_device ≠ cpu ∧ main_device ≠ mps)).
Proof.
  intros Hnd Hin. eexists. split; [by apply offload_table_get|].
  apply py_in_offloaded_devices.
Qed.

Lemma offload_flag_by_tier_witness :
  ∃ flag, dict_get "b" (offload_table [("a", DInt 0); ("b", cpu); ("c", disk)] (DInt 0))
          = Some flag
          ∧ (flag = true ↔ cpu = disk ∨ (cpu = cpu ∧ DInt 0 ≠ cpu ∧ DInt 0 ≠ mps)).
Proof.
  apply (offload_flag_by_tier [("a", DInt 0); ("b", cpu); ("c", disk)] (DInt 0) "b" cpu).
  - compute_done.
  - compute_done.
Defined.

(** C3 as stated fails when the host is the main device: in the map
    [{"a": "cpu", "b": "disk"}] the main device defaults to "cpu" and the
    module on the host gets the flag [False]. *)
Lemma offload_flag_host_main_counterexample :
  let device_map := [("a", cpu); ("b", disk)] in
  resolve_main_device None device_map = inr cpu
  ∧ ("a", cpu) ∈ device_map
  ∧ dict_get "a" (offload_table device_map cpu) = Some false.
Proof. cbv zeta. split_and!; [vm_compute; reflexivity|compute_done|vm_compute; reflexivity]. Qed.

(** *** The execution-device table *)

Lemma execution_device_table_fmap (device_map : DeviceMap) (main_device : Device) :
  NoDup (dict_keys device_map) →
  execution_device_table device_map main_device
  = dict_set EmptyString main_device
      ((λ item, (item.1, if py_in item.2 [cpu; disk] then main_device else item.2))
         <$> device_map).
Proof.
  intros Hnd. unfold execution_device_table. by rewrite dict_comprehension_fmap.
Qed.

(** C6, as the code has it. In the execution-device table the root path
    maps to the main device, every other path of the device map to the main
    device if its tier is "cpu" or "disk" and to its own tier otherwise; an
    entry is "disk" only if the main device is, which the default selection
    never yields. *)
Theorem execution_device_table_entries (device_map : DeviceMap) (main_device : Device) :
  NoDup (dict_keys device_map) →
  dict_get EmptyString (execution_device_table device_map main_device) = Some main_device
  ∧ (∀ name tier, (name, tier) ∈ device_map → name ≠ EmptyString →
       dict_get name (execution_device_table device_map main_device)
       = Some (if bool_decide (tier = cpu ∨ tier = disk) then main_device else tier))
  ∧ (∀ name d, (name, d) ∈ execution_device_table device_map main_device →
       d = main_device ∨ (d ≠ cpu ∧ d ≠ disk ∧ (name, d) ∈ device_map))
  ∧ (∀ d, resolve_main_device None device_map = inr d → d ≠ disk).
Proof.
  intros Hnd. rewrite execution_device_table_fmap by done. split_and!.
  - apply dict_get_set_eq.
  - intros name tier Hin Hne. rewrite dict_get_set_ne by done.
    rewrite (dict_get_fmap (λ _ x, if py_in x [cpu; disk] then main_device else x)).
    rewrite (dict_get_elem _ _ _ Hnd Hin). simpl. f_equal.
    unfold py_in.
    rewrite (bool_decide_ext (tier ∈ [cpu; disk]) (tier = cpu ∨ tier = disk)); [done|].
    rewrite !elem_of_cons, elem_of_nil. tauto.
  - intros name d [[_ ->]|Hin]%dict_set_elem; [by left|].
    apply list_elem_of_fmap in Hin as ([k x] & [= -> ->] & Hin). simpl.
    unfold py_in. case_bool_decide as Hx; [by left|right].
    rewrite !elem_of_cons, elem_of_nil in Hx. split_and!; [tauto..|done].
  - intros d. apply default_main_device_not_disk.
Qed.

Lemma execution_device_table_entries_witness :
  let device_map := [("a", DInt 0); ("b", cpu); ("c", disk)] in
  NoDup (dict_keys device_map)
  ∧ dict_get "b" (execution_device_table device_map (DInt 0)) = Some (DInt 0).
Proof.
  cbv zeta. assert (Hnd : NoDup (dict_keys [("a", DInt 0); ("b", cpu); ("c", disk)]))
    by compute_done.
  split; [exact Hnd|].
  destruct (execution_device_table_entries _ (DInt 0) Hnd) as (_ & Hget & _).
  apply (Hget "b" cpu); compute_done.
Defined.

(** C6 as stated fails at the root: in the map that puts "layer" on
    accelerator 0 and the root path on accelerator 1, the table sends the
    root to the main device 0. And an overriding [main_device="disk"] puts
    "disk" in the table. *)
Lemma execution_device_root_counterexample :
  let device_map := [("layer", DInt 0); (EmptyString, DInt 1)] in
  resolve_main_device None device_map = inr (DInt 0)
  ∧ (EmptyString, DInt 1) ∈ device_map
  ∧ dict_get EmptyString (execution_device_table device_map (DInt 0)) = Some (DInt 0)
  ∧ dict_get "b" (execution_device_table [("a", DInt 0); ("b", cpu)] disk) = Some disk.
Proof.
  cbv zeta. split_and!; [vm_compute; reflexivity|compute_done|vm_compute; reflexivity..].
Qed.

(** ** Runs of the dispatcher *)

Lemma filter_none {A} (P : A -> Prop) `{∀ x, Decision (P x)} (l : list A) :
  Forall (λ x, ¬ P x) l → filter P l = [].
Proof.
  induction 1 as [|x l Hx Hl IH]; [done|]. by rewrite filter_cons, decide_False.
Qed.

Lemma when_emit_run (b : bool) (ev : Event) (m : Model) :
  when b (emit ev) m = (m, if b then [ev] else [], inr tt).
Proof. by destruct b. Qed.

Lemma Forall_if_singleton {A} (P : A -> Prop) (b : bool) (x : A) :
  P x → Forall P (if b then [x] else []).
Proof. destruct b; repeat constructor; done. Qed.

(** *** The tied-parameter map *)

Lemma fold_insert_empty_lookup {V} (f : string -> Z) (names : list string)
    (acc : gmap Z (gmap Device V)) (k : Z) :
  fold_left (λ acc name, <[f name := ∅]> acc) names acc !! k
  = if bool_decide (k ∈ f <$> names) then Some ∅ else acc !! k.
Proof.
  revert acc. induction names as [|name names IH]; intros acc.
  - done.
  - cbn [fold_left]. rewrite fmap_cons, IH. destruct (decide (k ∈ f <$> names)) as [Hin|Hin].
    + rewrite !bool_decide_eq_true_2; [done| |done]. by apply elem_of_cons; right.
    + rewrite (bool_decide_eq_false_2 _ Hin).
      destruct (decide (k = f name)) as [->|Hne].
      * rewrite lookup_insert_eq, bool_decide_eq_true_2; [done|]. by apply elem_of_cons; left.
      * rewrite lookup_insert_ne by done.
        rewrite bool_decide_eq_false_2; [done|].
        intros [?|?]%elem_of_cons; done.
Qed.

Lemma elem_of_concat {A} (x : A) (ls : list (list A)) :
  x ∈ concat ls ↔ ∃ l, l ∈ ls ∧ x ∈ l.
Proof.
  induction ls as [|l ls IH]; simpl.
  - split; [by intros ?%elem_of_nil|by intros (? & ?%elem_of_nil & _)].
  - rewrite elem_of_app, IH. split.
    + intros [Hx|(l' & Hl' & Hx)]; [exists l|exists l']; split; try done.
      * by apply elem_of_cons; left.
      * by apply elem_of_cons; right.
    + intros (l' & [->|Hl']%elem_of_cons & Hx); [by left|right; eauto].
Qed.

Lemma fold_groups_concat {A B} (g : A -> B -> A) (groups : list (list B)) (acc : A) :
  fold_left (λ acc group, fold_left g group acc) groups acc
  = fold_left g (concat groups) acc.
Proof.
  revert acc. induction groups as [|group groups IH]; intros acc; simpl; [done|].
  by rewrite IH, fold_left_app.
Qed.

Section Runs.
Context `{Collaborators}.

Lemma hook_path_returns device_map main_device state_dict offload_dir offload_index
    offload_buffers skip_keys preload_module_classes model main :
  resolve_main_device main_device device_map = inr main →
  ¬ (offload_dir = None ∧ offload_index = None ∧ modules_on disk device_map ≠ []) →
  ∃ persisted warned p2p,
    hook_path device_map main_device state_dict offload_dir offload_index
      offload_buffers skip_keys preload_module_classes model
    = (hooked_model
         (block_hook_args model device_map main
            (host_state_dict model device_map main state_dict)
            offload_dir offload_index offload_buffers skip_keys preload_module_classes)
         (find_tied_parameters model) model,
       persisted
       ++ EvAttachOnBlocks
            (block_hook_args model device_map main
               (host_state_dict model device_map main state_dict)
               offload_dir offload_index offload_buffers skip_keys preload_module_classes)
          :: warned
       ++ [EvRetie (find_tied_parameters model); EvWrap "to"; EvWrap accelerator_method]
       ++ p2p,
       inr tt)
    ∧ Forall is_persist_event persisted
    ∧ Forall is_warning_event warned
    ∧ Forall is_warning_event p2p.
Proof.
  intros Hmain Hdir. unfold hook_path.
  unfold mbind, M_bind. rewrite Hmain. simpl.
  assert (Hraise : is_none offload_dir && is_none offload_index
                   && bool_decide (0 < length (modules_on disk device_map))%nat = false).
  { destruct offload_dir, offload_index; simpl; try done.
    apply bool_decide_eq_false. intros Hlen. apply Hdir. split_and!; try done.
    intros Heq. rewrite Heq in Hlen. simpl in Hlen. lia. }
  rewrite Hraise. simpl.
  destruct offload_dir as [dir|]; unfold mret, M_ret; simpl;
    repeat (rewrite when_emit_run; simpl).
  - eexists (if _ : bool then _ else _), (if _ : bool then _ else _),
      (if _ : bool then _ else _).
    split; [reflexivity|]. split_and!; by apply Forall_if_singleton.
  - eexists [], _, _.
    split; [reflexivity|]. split_and!; [constructor|by apply Forall_if_singleton..].
Qed.

(** *** The movement guard *)

Lemma for_each_check (c : Tensor -> bool) (e : Exn) (ps : list Tensor) (m : Model) :
  for_each ps (λ param, when (c param) (raise e)) m
  = (m, [], if existsb c ps then inl e else inr tt).
Proof.
  induction ps as [|p ps IH]; [done|].
  cbn [for_each existsb]. unfold mbind, M_bind.
  destruct (c p); simpl; [done|]. by rewrite IH.
Qed.

Lemma add_warning_run (fn_name : string) (fn : TransferArgs -> M unit) args m :
  add_warning fn_name fn args m
  = if existsb on_meta_device (parameters m)
    then (m, guard_warnings fn_name args, inl cannot_move)
    else (model_of (fn args m), guard_warnings fn_name args ++ log_of (fn args m),
          outcome_of (fn args m)).
Proof.
  unfold add_warning, guard_warnings, mbind, M_bind, get_model.
  assert (Hw : (if bool_decide (fn_name = "to")
                then when (is_some (to_device args)) (emit (EvWarning WarnMoveDispatched))
                else emit (EvWarning WarnMoveDispatched)) m
               = (m, if bool_decide (fn_name = "to") && is_none (to_device args)
                     then [] else [EvWarning WarnMoveDispatched], inr tt)).
  { destruct (bool_decide (fn_name = "to")), (to_device args); done. }
  rewrite Hw. simpl. rewrite for_each_check.
  destruct (existsb on_meta_device (parameters m)); simpl.
  - by rewrite app_nil_r.
  - by destruct (fn args m) as [[m' l] r].
Qed.

Lemma on_meta_device_type (t : Tensor) : on_meta_device t = true → on_meta_type t = true.
Proof.
  unfold on_meta_device, on_meta_type. intros Hd%bool_decide_eq_true.
  apply bool_decide_eq_true. by rewrite Hd.
Qed.

Lemma no_meta_type_no_meta_device (ps : list Tensor) :
  existsb on_meta_type ps = false → existsb on_meta_device ps = false.
Proof.
  induction ps as [|p ps IH]; [done|]. simpl.
  intros [Hp Hps]%orb_false_iff. rewrite (IH Hps), orb_false_r.
  destruct (on_meta_device p) eqn:Hd; [|done].
  by rewrite (on_meta_device_type _ Hd) in Hp.
Qed.

(** With every parameter off [torch.device("meta")], a call goes through
    all the wrappers to the method of [nn.Module]. *)
Lemma guarded_passes (layers : nat) (method : string) args m :
  existsb on_meta_device (parameters m) = false →
  guarded layers method args m
  = (module_transfer method args m,
     concat (replicate layers (guard_warnings method args)) ++ [EvTransfer method args],
     inr tt).
Proof.
  intros Hm. induction layers as [|n IH]; [done|].
  cbn [guarded]. rewrite add_warning_run, Hm, IH.
  unfold model_of, log_of, outcome_of. simpl. by rewrite app_assoc.
Qed.

Lemma guarded_blocks (layers : nat) (method : string) args m :
  existsb on_meta_device (parameters m) = true →
  guarded (S layers) method args m = (m, guard_warnings method args, inl cannot_move).
Proof. intros Hm. cbn [guarded]. by rewrite add_warning_run, Hm. Qed.

Lemma count_guard_pos (method : string) (gs : list string) :
  method ∈ gs → ∃ layers, length (filter (λ g, g = method) gs) = S layers.
Proof.
  induction gs as [|g gs IH]; [by intros ?%elem_of_nil|].
  intros Hin. rewrite filter_cons. destruct (decide (g = method)) as [->|Hne].
  - simpl. eauto.
  - apply elem_of_cons in Hin as [->|Hin]; [done|]. by apply IH.
Qed.

Lemma call_transfer_guarded (method : string) args m :
  method ∈ guards m →
  (existsb on_meta_device (parameters m) = true →
     call_transfer method args m = (m, guard_warnings method args, inl cannot_move))
  ∧ (existsb on_meta_device (parameters m) = false →
     ∃ layers,
       call_transfer method args m
       = (module_transfer method args m,
          concat (replicate (S layers) (guard_warnings method args))
          ++ [EvTransfer method args],
          inr tt)).
Proof.
  intros [layers Hlayers]%count_guard_pos.
  unfold call_transfer, mbind, M_bind, get_model. rewrite Hlayers. split; intros Hm.
  - by rewrite guarded_blocks.
  - exists layers. by rewrite guarded_passes.
Qed.

Lemma call_transfer_unguarded (method : string) args m :
  method ∉ guards m →
  call_transfer method args m = (module_transfer method args m, [EvTransfer method args], inr tt).
Proof.
  intros Hnotin. unfold call_transfer, mbind, M_bind, get_model.
  replace (filter (λ g, g = method) (guards m)) with (@nil string); [done|].
  symmetry. induction (guards m) as [|g gs IH]; [done|].
  apply not_elem_of_cons in Hnotin as [Hne Hnotin].
  rewrite filter_cons, decide_False by done. by apply IH.
Qed.

(** *** The fast path *)

Lemma placements_cons (device : Device) name t (tensors : dict Tensor) :
  placements device ((name, t) :: tensors)
  = if on_meta_type t then EvSetTensor name device :: placements device tensors
    else placements device tensors.
Proof.
  unfold placements. rewrite filter_cons. simpl.
  by destruct (on_meta_type t).
Qed.

Lemma materialize_meta_run (tensors : dict Tensor) (device : Device) (m : Model) :
  materialize_meta tensors device m
  = (fold_left
       (λ m item,
          if on_meta_type item.2 then set_module_tensor_to_device item.1 device m else m)
       tensors m,
     placements device tensors, inr tt).
Proof.
  revert m. induction tensors as [|[name t] tensors IH]; intros m; [done|].
  rewrite placements_cons. unfold materialize_meta in *. cbn [for_each fold_left].
  unfold mbind, M_bind. simpl.
  destruct (on_meta_type t) eqn:Ht; simpl; by rewrite IH.
Qed.

Lemma fold_place_model (device : Device) (todo : dict Tensor) (m : Model) :
  fold_left
    (λ m item, if on_meta_type item.2 then set_module_tensor_to_device item.1 device m else m)
    todo m
  = set_named_buffers (place_in device todo (named_buffers m))
      (set_named_parameters (place_in device todo (named_parameters m)) m).
Proof.
  revert m. induction todo as [|[name t] todo IH]; intros m.
  - by destruct m.
  - unfold place_in in *. cbn [fold_left]. rewrite IH. simpl.
    by destruct (on_meta_type t).
Qed.

Lemma dict_alter_absent {V} (f : V -> V) k (d : dict V) :
  k ∉ dict_keys d → dict_alter f k d = d.
Proof.
  unfold dict_keys, dict_alter. induction d as [|[k' v] d IH]; [done|].
  rewrite !fmap_cons. simpl. intros [Hne Hnotin]%not_elem_of_cons.
  rewrite decide_False by done. by rewrite IH.
Qed.

Lemma place_in_disjoint (device : Device) (todo d : dict Tensor) :
  (∀ k, k ∈ dict_keys todo → k ∉ dict_keys d) → place_in device todo d = d.
Proof.
  unfold place_in. induction todo as [|[name t] todo IH]; intros Hdisj; [done|].
  cbn [fold_left]. simpl.
  assert (Hname : name ∉ dict_keys d) by (apply Hdisj; apply elem_of_cons; by left).
  assert (Hrest : ∀ k, k ∈ dict_keys todo → k ∉ dict_keys d).
  { intros k Hk. apply Hdisj. by apply elem_of_cons; right. }
  destruct (on_meta_type t); [rewrite dict_alter_absent by done|]; by apply IH.
Qed.

Lemma place_in_lookup (device : Device) (todo d : dict Tensor) :
  NoDup (dict_keys todo) →
  place_in device todo d
  = (λ entry, match dict_get entry.1 todo with
              | Some t => if on_meta_type t then (entry.1, tensor_to device entry.2) else entry
              | None => entry
              end) <$> d.
Proof.
  unfold place_in, dict_keys. revert d.
  induction todo as [|[name t] todo IH]; intros d Hnd.
  - simpl. by rewrite list_fmap_id.
  - rewrite fmap_cons in Hnd. apply NoDup_cons in Hnd as [Hfresh Hnd].
    cbn [fold_left]. rewrite IH by done. simpl.
    assert (Hnone : dict_get name todo = None).
    { clear -Hfresh. induction todo as [|[k v] todo IH]; [done|]. simpl.
      rewrite fmap_cons in Hfresh. apply not_elem_of_cons in Hfresh as [Hne Hfresh].
      rewrite decide_False by done. by apply IH. }
    destruct (on_meta_type t) eqn:Ht.
    + unfold dict_alter. rewrite <- list_fmap_compose. apply list_fmap_ext.
      intros i [k v] _. simpl. destruct (decide (k = name)) as [->|Hne]; simpl.
      * rewrite Hnone, decide_True by done. by rewrite Ht.
      * by rewrite decide_False.
    + apply list_fmap_ext. intros i [k v] _. simpl.
      destruct (decide (name = k)) as [->|Hne]; [by rewrite Hnone, Ht|done].
Qed.

Lemma place_in_self (device : Device) (d : dict Tensor) :
  NoDup (dict_keys d) → place_in device d d = materialized device d.
Proof.
  intros Hnd. rewrite place_in_lookup by done. unfold materialized.
  apply list_fmap_ext. intros i [k v] Hi. simpl.
  by rewrite (dict_get_elem k v d Hnd) by (by eapply list_elem_of_lookup_2).
Qed.

Lemma materialized_keys (device : Device) (d : dict Tensor) :
  dict_keys (materialized device d) = dict_keys d.
Proof.
  unfold dict_keys, materialized. rewrite <- list_fmap_compose.
  apply list_fmap_ext. intros i [k v] _. simpl. by destruct (on_meta_type v).
Qed.

Lemma backend_device_disk (d : Device) : backend_device d = disk ↔ d = disk.
Proof.
  unfold backend_device, disk. destruct d as [s|n|t]; try done.
  repeat case_match; split; done.
Qed.

(** The fast path, for a model with a symbolic parameter. *)
Lemma fast_path_meta_run device_map d rest model :
  dict_values device_map = d :: rest →
  backend_device d ≠ disk →
  existsb on_meta_type (parameters model) = true →
  let device := backend_device d in
  let placed :=
    set_named_buffers (place_in device (named_parameters model) (named_buffers model))
      (set_named_parameters
         (place_in device (named_parameters model) (named_parameters model)) model) in
  fast_path device_map model
  = (set_named_buffers (place_in device (named_buffers placed) (named_buffers placed))
       (set_named_parameters
          (place_in device (named_buffers placed) (named_parameters placed)) placed),
     placements device (named_parameters model) ++ placements device (named_buffers placed),
     inr tt).
Proof.
  intros Hvalues Hdisk Hmeta device placed. subst device placed.
  unfold fast_path, mbind, M_bind, get_model. rewrite Hvalues. simpl.
  rewrite bool_decide_eq_true_2 by done. rewrite Hmeta.
  rewrite materialize_meta_run, fold_place_model. simpl.
  by rewrite materialize_meta_run, fold_place_model.
Qed.

(** The fast path, for a model without symbolic parameters. *)
Lemma fast_path_move_run device_map d rest model :
  dict_values device_map = d :: rest →
  backend_device d ≠ disk →
  existsb on_meta_type (parameters model) = false →
  let args := {| to_device := Some (backend_device d); to_dtype := None |} in
  fast_path device_map model
  = (module_transfer "to" args model,
     concat (replicate (length (filter (λ g, g = "to") (guards model)))
               [EvWarning WarnMoveDispatched])
     ++ [EvTransfer "to" args],
     inr tt).
Proof.
  intros Hvalues Hdisk Hmeta args. subst args.
  unfold fast_path, mbind, M_bind, get_model. rewrite Hvalues. simpl.
  rewrite bool_decide_eq_true_2 by done. rewrite Hmeta.
  unfold call_transfer, mbind, M_bind, get_model.
  by rewrite guarded_passes by by apply no_meta_type_no_meta_device.
Qed.

Lemma fast_path_disk_run device_map d rest model :
  dict_values device_map = d :: rest →
  backend_device d = disk →
  fast_path device_map model = (model, [], inl disk_only_error).
Proof.
  intros Hvalues Hdisk. unfold fast_path, mbind, M_bind. rewrite Hvalues. simpl.
  rewrite bool_decide_eq_false_2; [done|]. by intros [].
Qed.

Lemma dispatch_model_fast_path device_map main_device state_dict offload_dir offload_index
    offload_buffers skip_keys preload_module_classes force_hooks model :
  check_device_map model device_map = None →
  bool_decide (1 < size (device_set device_map))%nat || forced_hooks model force_hooks = false →
  dispatch_model device_map main_device state_dict offload_dir offload_index
    offload_buffers skip_keys preload_module_classes force_hooks model
  = match fast_path device_map model with
    | (m, l, inr _) => (set_hf_device_map device_map m, l, inr tt)
    | (m, l, inl e) => (m, l, inl e)
    end.
Proof.
  intros Hcheck Hpath. unfold dispatch_model, mbind, M_bind, get_model.
  rewrite Hcheck. simpl. rewrite Hpath.
  destruct (fast_path device_map model) as [[m l] [e|[]]]; [done|].
  simpl. by rewrite app_nil_r.
Qed.

Lemma single_tier_values (device_map : DeviceMap) (tier : Device) :
  device_set device_map = {[tier]} →
  (∃ rest, dict_values device_map = tier :: rest)
  ∧ bool_decide (1 < size (device_set device_map))%nat = false.
Proof.
  unfold device_set. intros Hset. split.
  - destruct (dict_values device_map) as [|d rest] eqn:Hvalues.
    + simpl in Hset. symmetry in Hset. by apply non_empty_singleton_L in Hset.
    + assert (Hd : d ∈ ({[tier]} : gset Device)).
      { rewrite <- Hset. apply elem_of_list_to_set. by apply elem_of_cons; left. }
      apply elem_of_singleton in Hd as ->. eauto.
  - rewrite Hset, size_singleton. apply bool_decide_eq_false. lia.
Qed.

Lemma placements_set_tensor (device : Device) (tensors : dict Tensor) ev :
  ev ∈ placements device tensors
  ↔ ∃ name t, ev = EvSetTensor name device ∧ (name, t) ∈ tensors ∧ on_meta_type t = true.
Proof.
  unfold placements. rewrite list_elem_of_fmap. split.
  - intros ([name t] & -> & [Hmeta Hin]%list_elem_of_filter). simpl in *.
    exists name, t. split_and!; [done..|]. by apply Is_true_true.
  - intros (name & t & -> & Hin & Hmeta). exists (name, t). split; [done|].
    apply list_elem_of_filter. split; [|done]. simpl. by apply Is_true_true.
Qed.

Lemma fast_path_meta_log device_map d rest model :
  dict_values device_map = d :: rest →
  backend_device d ≠ disk →
  existsb on_meta_type (parameters model) = true →
  outcome_of (fast_path device_map model) = inr tt
  ∧ Forall (λ ev, ∃ name, ev = EvSetTensor name (backend_device d))
      (log_of (fast_path device_map model)).
Proof.
  intros Hvalues Hdisk Hmeta.
  rewrite (fast_path_meta_run device_map d rest model Hvalues Hdisk Hmeta).
  split; [done|]. unfold log_of. simpl.
  apply Forall_app; split; apply Forall_forall;
    intros ev (name & t & -> & _)%placements_set_tensor; eauto.
Qed.

(** C4, as the code has it. With one tier in the device map and hooks not
    forced, neither by [force_hooks] nor by an 8-bit (or old 4-bit)
    bitsandbytes model, no hook and no guard is installed; a sole tier
    "disk" raises the error that names [disk_offload], with nothing moved;
    any other tier, with no parameter on the meta device, is reached by one
    [model.to(tier)]. *)
Theorem single_tier_fast_path device_map main_device state_dict offload_dir offload_index
    offload_buffers skip_keys preload_module_classes force_hooks model tier :
  check_device_map model device_map = None →
  device_set device_map = {[tier]} →
  forced_hooks model force_hooks = false →
  let run := dispatch_model device_map main_device state_dict offload_dir offload_index
               offload_buffers skip_keys preload_module_classes force_hooks model in
  let args := {| to_device := Some (backend_device tier); to_dtype := None |} in
  Forall (λ ev, ¬ is_hook_event ev ∧ ¬ is_wrap_event ev) (log_of run)
  ∧ (tier = disk → run = (model, [], inl disk_only_error))
  ∧ (tier ≠ disk → existsb on_meta_type (parameters model) = false →
       ∃ warnings,
         Forall is_warning_event warnings
         ∧ run = (set_hf_device_map device_map (module_transfer "to" args model),
                  warnings ++ [EvTransfer "to" args], inr tt)).
Proof.
  intros Hcheck Hset Hforced run args.
  destruct (single_tier_values device_map tier Hset) as [[rest Hvalues] Hsize].
  assert (Hpath : bool_decide (1 < size (device_set device_map))%nat
                  || forced_hooks model force_hooks = false)
    by (by rewrite Hsize, Hforced).
  assert (Hrun := dispatch_model_fast_path device_map main_device state_dict offload_dir
                    offload_index offload_buffers skip_keys preload_module_classes
                    force_hooks model Hcheck Hpath).
  fold run in Hrun. clearbody run. subst run.
  destruct (decide (tier = disk)) as [Hdisk|Hdisk].
  - rewrite (fast_path_disk_run device_map tier rest model Hvalues)
      by (by apply backend_device_disk).
    split_and!; [constructor|done|done].
  - assert (Hbackend : backend_device tier ≠ disk) by (by rewrite backend_device_disk).
    destruct (existsb on_meta_type (parameters model)) eqn:Hmeta.
    + destruct (fast_path_meta_log device_map tier rest model Hvalues Hbackend Hmeta)
        as [Hout Hlog].
      destruct (fast_path device_map model) as [[m l] [e|[]]]; [done|].
      split_and!; [|done|done]. unfold log_of in *. simpl in *.
      eapply Forall_impl; [exact Hlog|]. intros ev [name ->]. simpl. tauto.
    + rewrite (fast_path_move_run device_map tier rest model Hvalues Hbackend Hmeta).
      fold args. split_and!; [|done|].
      * unfold log_of. simpl. apply Forall_app. split.
        -- apply Forall_forall. intros ev (l & Hl & Hev)%elem_of_concat.
           apply elem_of_replicate in Hl as [-> _].
           apply list_elem_of_singleton in Hev as ->. simpl. tauto.
        -- repeat constructor; simpl; tauto.
      * intros _ _. eexists. split; [|reflexivity].
        apply Forall_forall. intros ev (l & Hl & Hev)%elem_of_concat.
        apply elem_of_replicate in Hl as [-> _].
        by apply list_elem_of_singleton in Hev as ->.
Qed.

(** C7. On the fast path to a tier other than "disk", for a model with a
    parameter on the meta device and distinct tensor names: the calls made
    are one [set_module_tensor_to_device] per symbolic parameter and then
    per symbolic buffer, in order, and no whole-model transfer; the symbolic
    tensors end on the tier and every other tensor is as it was. *)
Theorem fast_path_materializes_meta device_map main_device state_dict offload_dir
    offload_index offload_buffers skip_keys preload_module_classes force_hooks model tier :
  check_device_map model device_map = None →
  device_set device_map = {[tier]} →
  forced_hooks model force_hooks = false →
  tier ≠ disk →
  existsb on_meta_type (parameters model) = true →
  NoDup (dict_keys (named_parameters model ++ named_buffers model)) →
  let run := dispatch_model device_map main_device state_dict offload_dir offload_index
               offload_buffers skip_keys preload_module_classes force_hooks model in
  let device := backend_device tier in
  run = (set_hf_device_map device_map
           (set_named_buffers (materialized device (named_buffers model))
              (set_named_parameters (materialized device (named_parameters model)) model)),
         placements device (named_parameters model)
         ++ placements device (named_buffers model),
         inr tt)
  ∧ Forall (λ ev, ¬ is_hook_event ev ∧ ∀ method args, ev ≠ EvTransfer method args)
      (log_of run)
  ∧ ∀ name t, (name, t) ∈ named_parameters model → on_meta_type t = false →
      (name, t) ∈ named_parameters (model_of run)
      ∧ ∀ d, EvSetTensor name d ∉ log_of run.
Proof.
  intros Hcheck Hset Hforced Hdisk Hmeta Hnd run device.
  destruct (single_tier_values device_map tier Hset) as [[rest Hvalues] Hsize].
  assert (Hpath : bool_decide (1 < size (device_set device_map))%nat
                  || forced_hooks model force_hooks = false)
    by (by rewrite Hsize, Hforced).
  assert (Hbackend : backend_device tier ≠ disk) by (by rewrite backend_device_disk).
  unfold dict_keys in Hnd. rewrite fmap_app in Hnd.
  apply NoDup_app in Hnd as (Hps & Hdisj & Hbs).
  assert (Hrun : run
    = (set_hf_device_map device_map
         (set_named_buffers (materialized device (named_buffers model))
            (set_named_parameters (materialized device (named_parameters model)) model)),
       placements device (named_parameters model)
       ++ placements device (named_buffers model),
       inr tt)).
  { subst run. rewrite dispatch_model_fast_path by done.
    rewrite (fast_path_meta_run device_map tier rest model Hvalues Hbackend Hmeta).
    simpl. fold device.
    rewrite (place_in_self device (named_parameters model)) by done.
    rewrite (place_in_disjoint device (named_parameters model) (named_buffers model))
      by (intros k Hk; by apply Hdisj).
    rewrite (place_in_self device (named_buffers model)) by done.
    rewrite (place_in_disjoint device (named_buffers model)
               (materialized device (named_parameters model))); [done|].
    intros k Hk. rewrite materialized_keys. intros Hk'. by apply (Hdisj k). }
  rewrite Hrun. unfold log_of, model_of. simpl. split_and!; [done| |].
  - apply Forall_app; split; apply Forall_forall;
      intros ev (name & t & -> & _)%placements_set_tensor; simpl;
      (split; [tauto|intros ? ? ?; discriminate]).
  - intros name t Hin Hnot. split.
    + unfold materialized. apply list_elem_of_fmap. exists (name, t). simpl.
      by rewrite Hnot.
    + intros d [Hev|Hev]%elem_of_app;
        apply placements_set_tensor in Hev as (name' & t' & [= <- _] & Hin' & Hmeta').
      * assert (Hget := dict_get_elem name t _ Hps Hin).
        rewrite (dict_get_elem name t' _ Hps Hin') in Hget. congruence.
      * apply (Hdisj name).
        -- by apply (list_elem_of_fmap_2 fst _ (name, t)).
        -- by apply (list_elem_of_fmap_2 fst _ (name, t')).
Qed.

Lemma build_tied_params_map_lookup (model : Model) (tied_params : list (list string)) ptr :
  build_tied_params_map model tied_params !! ptr
  = if bool_decide (ptr ∈ param_data_ptr model <$> concat tied_params)
    then Some ∅ else None.
Proof.
  unfold build_tied_params_map.
  rewrite (fold_groups_concat
             (λ acc name, <[param_data_ptr model name := ∅]> acc) tied_params ∅).
  by rewrite fold_insert_empty_lookup, lookup_empty.
Qed.

Lemma build_tied_params_map_dom (model : Model) (tied_params : list (list string)) :
  dom (build_tied_params_map model tied_params)
  = list_to_set (param_data_ptr model <$> concat tied_params).
Proof.
  apply set_eq. intros ptr.
  rewrite elem_of_dom, build_tied_params_map_lookup, elem_of_list_to_set.
  case_bool_decide as Hptr.
  - split; [intros _; exact Hptr|intros _; by eexists].
  - split; [by intros [? ?]|intros ?; contradiction].
Qed.

(** The two tables of the normaliser are what the hooks are given. *)
Lemma block_hook_args_tables model device_map main state_dict offload_dir offload_index
    offload_buffers skip_keys preload_module_classes :
  let hook_args :=
    block_hook_args model device_map main state_dict offload_dir offload_index
      offload_buffers skip_keys preload_module_classes in
  bh_execution_device hook_args = execution_device_table device_map main
  ∧ bh_offload hook_args = offload_table device_map main.
Proof. done. Qed.

(** The hook path of [dispatch_model], run to its end. *)
Lemma dispatch_model_hook_path device_map main_device state_dict offload_dir offload_index
    offload_buffers skip_keys preload_module_classes force_hooks model main :
  check_device_map model device_map = None →
  bool_decide (1 < size (device_set device_map))%nat || forced_hooks model force_hooks = true →
  resolve_main_device main_device device_map = inr main →
  ¬ (offload_dir = None ∧ offload_index = None ∧ modules_on disk device_map ≠ []) →
  ∃ persisted warned p2p,
    dispatch_model device_map main_device state_dict offload_dir offload_index
      offload_buffers skip_keys preload_module_classes force_hooks model
    = (set_hf_device_map device_map
         (hooked_model
            (block_hook_args model device_map main
               (host_state_dict model device_map main state_dict)
               offload_dir offload_index offload_buffers skip_keys preload_module_classes)
            (find_tied_parameters model) model),
       persisted
       ++ EvAttachOnBlocks
            (block_hook_args model device_map main
               (host_state_dict model device_map main state_dict)
               offload_dir offload_index offload_buffers skip_keys preload_module_classes)
          :: warned
       ++ [EvRetie (find_tied_parameters model); EvWrap "to"; EvWrap accelerator_method]
       ++ p2p,
       inr tt)
    ∧ Forall is_persist_event persisted
    ∧ Forall is_warning_event warned
    ∧ Forall is_warning_event p2p.
Proof.
  intros Hcheck Hpath Hmain Hdir.
  destruct (hook_path_returns device_map main_device state_dict offload_dir offload_index
              offload_buffers skip_keys preload_module_classes model main Hmain Hdir)
    as (persisted & warned & p2p & Hrun & Hp & Hw & Hq).
  exists persisted, warned, p2p. split; [|done].
  unfold dispatch_model, mbind, M_bind, get_model. rewrite Hcheck. simpl.
  rewrite Hpath, Hrun. simpl. by rewrite app_nil_r.
Qed.

(** C1. On the hook path the tied-parameter map handed to the hooks has
    one slot per storage address of a tied name, every slot empty, so every
    name of a group keys an empty slot; and the ties are restored after
    the hooks are attached, in a run that returns: the model returned is the
    model with the hooks attached, then its ties restored, then guarded, and
    its parameters are those that the retie leaves on the hooked model. *)
Theorem tied_params_map_then_retie device_map main_device state_dict offload_dir
    offload_index offload_buffers skip_keys preload_module_classes force_hooks model main :
  check_device_map model device_map = None →
  bool_decide (1 < size (device_set device_map))%nat || forced_hooks model force_hooks = true →
  resolve_main_device main_device device_map = inr main →
  ¬ (offload_dir = None ∧ offload_index = None ∧ modules_on disk device_map ≠ []) →
  let tied_params := find_tied_parameters model in
  let run := dispatch_model device_map main_device state_dict offload_dir offload_index
               offload_buffers skip_keys preload_module_classes force_hooks model in
  ∃ hook_args before between after,
    outcome_of run = inr tt
    ∧ log_of run = before ++ EvAttachOnBlocks hook_args :: between
                   ++ EvRetie tied_params :: after
    ∧ model_of run = set_hf_device_map device_map (hooked_model hook_args tied_params model)
    ∧ named_parameters (model_of run)
      = named_parameters
          (retie_parameters tied_params
             (attach_align_device_hook_on_blocks hook_args model))
    ∧ Forall is_persist_event before
    ∧ Forall is_warning_event between
    ∧ dom (bh_tied_params_map hook_args)
      = list_to_set (param_data_ptr model <$> concat tied_params)
    ∧ size (bh_tied_params_map hook_args)
      = length (remove_dups (param_data_ptr model <$> concat tied_params))
    ∧ (∀ ptr slot, bh_tied_params_map hook_args !! ptr = Some slot → slot = ∅)
    ∧ (∀ group name, group ∈ tied_params → name ∈ group →
         bh_tied_params_map hook_args !! param_data_ptr model name = Some ∅).
Proof.
  intros Hcheck Hpath Hmain Hdir tied_params run.
  destruct (dispatch_model_hook_path device_map main_device state_dict offload_dir
              offload_index offload_buffers skip_keys preload_module_classes force_hooks
              model main Hcheck Hpath Hmain Hdir)
    as (persisted & warned & p2p & Hrun & Hp & Hw & _).
  subst run tied_params. rewrite Hrun. clear Hpath Hrun.
  unfold outcome_of, log_of, model_of. simpl.
  eexists _, persisted, warned, _.
  split_and!; [done|reflexivity|reflexivity|reflexivity|done|done|..]; simpl.
  - apply build_tied_params_map_dom.
  - rewrite <- size_dom, build_tied_params_map_dom.
    rewrite <- (size_list_to_set (C := gset Z) (remove_dups _))
      by apply NoDup_remove_dups.
    f_equal. apply set_eq. intros ptr.
    by rewrite !elem_of_list_to_set, elem_of_remove_dups.
  - intros ptr slot. rewrite build_tied_params_map_lookup.
    case_bool_decide; congruence.
  - intros group name Hgroup Hname. rewrite build_tied_params_map_lookup.
    rewrite bool_decide_eq_true_2; [done|].
    apply list_elem_of_fmap_2. apply elem_of_concat. eauto.
Qed.

(** The error of line 383, whenever a main device can be chosen. *)
Lemma missing_offload_dir_raises device_map main_device state_dict offload_buffers
    skip_keys preload_module_classes force_hooks model main :
  check_device_map model device_map = None →
  bool_decide (1 < size (device_set device_map))%nat || forced_hooks model force_hooks = true →
  resolve_main_device main_device device_map = inr main →
  modules_on disk device_map ≠ [] →
  dispatch_model device_map main_device state_dict None None
    offload_buffers skip_keys preload_module_classes force_hooks model
  = (model, [], inl (missing_offload_dir (modules_on disk device_map))).
Proof.
  intros Hcheck Hpath Hmain Hdisk.
  unfold dispatch_model, mbind, M_bind, get_model. rewrite Hcheck. simpl. rewrite Hpath.
  unfold hook_path, mbind, M_bind. rewrite Hmain. simpl.
  rewrite bool_decide_eq_true_2; [done|].
  destruct (modules_on disk device_map); [done|simpl; lia].
Qed.

Lemma default_main_device_disk_only (device_map : DeviceMap) :
  device_set device_map = {[disk]} → default_main_device device_map = inl IndexError.
Proof.
  intros Hset. rewrite default_main_device_other.
  - rewrite filter_none; [done|]. apply Forall_forall. intros d Hd Hnot.
    assert (Hin : d ∈ device_set device_map) by (by apply elem_of_list_to_set).
    rewrite Hset in Hin. apply elem_of_singleton in Hin as ->.
    apply Hnot. apply elem_of_cons; right. by apply elem_of_cons; left.
  - unfold host_only. rewrite Hset. intros [Heq|Heq].
    + assert (Hin : disk ∈ ({[cpu]} : gset Device)) by (rewrite <- Heq; set_solver).
      by apply elem_of_singleton in Hin.
    + assert (Hin : cpu ∈ ({[disk]} : gset Device)) by (rewrite Heq; set_solver).
      by apply elem_of_singleton in Hin.
Qed.

(** A device map that is all "disk", with hooks forced and no [main_device]:
    line 374 raises before line 383 is reached. *)
Lemma disk_only_forced_hooks_raises device_map state_dict offload_dir offload_index
    offload_buffers skip_keys preload_module_classes force_hooks model :
  check_device_map model device_map = None →
  device_set device_map = {[disk]} →
  forced_hooks model force_hooks = true →
  dispatch_model device_map None state_dict offload_dir offload_index
    offload_buffers skip_keys preload_module_classes force_hooks model
  = (model, [], inl IndexError).
Proof.
  intros Hcheck Hset Hforced.
  unfold dispatch_model, mbind, M_bind, get_model. rewrite Hcheck. simpl.
  rewrite Hforced, orb_true_r.
  unfold hook_path, mbind, M_bind. simpl.
  by rewrite (default_main_device_disk_only _ Hset).
Qed.

(** *** The whole-model offload entry points *)

Lemma cpu_offload_explicit d offload_buffers state_dict preload_module_classes model :
  ∃ args final,
    cpu_offload (Some d) offload_buffers state_dict preload_module_classes model
    = (final, [EvAddAlignDevicesHook true; EvAttachAlign args], inr tt)
    ∧ ah_execution_device args = d.
Proof. by eexists _, _. Qed.

Lemma disk_offload_explicit offload_dir d offload_buffers preload_module_classes model :
  ∃ persisted args final,
    disk_offload offload_dir (Some d) offload_buffers preload_module_classes model
    = (final, persisted ++ [EvAddAlignDevicesHook true; EvAttachAlign args], inr tt)
    ∧ ah_execution_device args = d
    ∧ Forall is_persist_event persisted.
Proof.
  unfold disk_offload, mbind, M_bind, get_model. simpl.
  rewrite when_emit_run. simpl.
  eexists _, _, _. split_and!; [reflexivity|done|].
  by apply Forall_if_singleton.
Qed.

(** C10. Without an execution device, [cpu_offload] and [disk_offload] act
    as with the device of the first parameter; on a model without
    parameters they raise [StopIteration] and attach no hook. With an
    explicit device they return whatever the parameters are. *)
Theorem offload_default_execution_device offload_dir offload_buffers state_dict
    preload_module_classes model :
  cpu_offload None offload_buffers state_dict preload_module_classes model
  = match parameters model with
    | [] => (model, [], inl StopIteration)
    | param :: _ =>
        cpu_offload (Some (DTorch (tensor_device param))) offload_buffers state_dict
          preload_module_classes model
    end
  ∧ match parameters model with
    | [] =>
        outcome_of (disk_offload offload_dir None offload_buffers preload_module_classes model)
        = inl StopIteration
        ∧ Forall is_persist_event
            (log_of (disk_offload offload_dir None offload_buffers
                       preload_module_classes model))
    | param :: _ =>
        disk_offload offload_dir None offload_buffers preload_module_classes model
        = disk_offload offload_dir (Some (DTorch (tensor_device param))) offload_buffers
            preload_module_classes model
    end
  ∧ ∀ d,
      outcome_of (cpu_offload (Some d) offload_buffers state_dict
                    preload_module_classes model) = inr tt
      ∧ outcome_of (disk_offload offload_dir (Some d) offload_buffers
                      preload_module_classes model) = inr tt.
Proof.
  split_and!.
  - unfold cpu_offload, first_parameter_device, mbind, M_bind, get_model. simpl.
    by destruct (parameters model).
  - unfold disk_offload, first_parameter_device, mbind, M_bind, get_model. simpl.
    rewrite when_emit_run. simpl.
    destruct (parameters model); simpl; [|done].
    unfold outcome_of, log_of. simpl. split; [done|].
    rewrite app_nil_r. by apply Forall_if_singleton.
  - intros d. split.
    + by destruct (cpu_offload_explicit d offload_buffers state_dict
                     preload_module_classes model) as (args & final & -> & _).
    + by destruct (disk_offload_explicit offload_dir d offload_buffers
                     preload_module_classes model) as (p & args & final & -> & _).
Qed.

(** C2, as the code has it. After the hook path, [to] and the transfer
    method of the available accelerator backend are the methods that get a
    wrapper. A call of a wrapped method warns (a call of [to] only if it
    names a device); if a parameter is on [torch.device("meta")] when the
    call is made it raises before anything moves, otherwise it runs the
    method of [nn.Module] and returns. *)
Theorem guard_after_dispatch device_map main_device state_dict offload_dir
    offload_index offload_buffers skip_keys preload_module_classes force_hooks model main :
  check_device_map model device_map = None →
  bool_decide (1 < size (device_set device_map))%nat || forced_hooks model force_hooks = true →
  resolve_main_device main_device device_map = inr main →
  ¬ (offload_dir = None ∧ offload_index = None ∧ modules_on disk device_map ≠ []) →
  let run := dispatch_model device_map main_device state_dict offload_dir offload_index
               offload_buffers skip_keys preload_module_classes force_hooks model in
  outcome_of run = inr tt
  ∧ filter is_wrap_event (log_of run) = [EvWrap "to"; EvWrap accelerator_method]
  ∧ (∃ before, guards (model_of run) = accelerator_method :: "to" :: before)
  ∧ ∀ method args m,
      method ∈ ["to"; accelerator_method] →
      guards m = guards (model_of run) →
      (to_device args ≠ None ∨ method ≠ "to" →
         guard_warnings method args = [EvWarning WarnMoveDispatched])
      ∧ (existsb on_meta_device (parameters m) = true →
           call_transfer method args m = (m, guard_warnings method args, inl cannot_move))
      ∧ (existsb on_meta_device (parameters m) = false →
           ∃ layers,
             call_transfer method args m
             = (module_transfer method args m,
                concat (replicate (S layers) (guard_warnings method args))
                ++ [EvTransfer method args],
                inr tt)).
Proof.
  intros Hcheck Hpath Hmain Hdir run.
  destruct (dispatch_model_hook_path device_map main_device state_dict offload_dir
              offload_index offload_buffers skip_keys preload_module_classes force_hooks
              model main Hcheck Hpath Hmain Hdir)
    as (persisted & warned & p2p & Hrun & Hp & Hw & Hq).
  subst run. rewrite Hrun. clear Hpath Hrun. unfold outcome_of, log_of, model_of. simpl.
  split_and!; [done| |by eexists|].
  - rewrite filter_app, filter_cons, decide_False by (by intros []).
    rewrite filter_app. simpl.
    rewrite !filter_cons, decide_False by (by intros []).
    rewrite !decide_True by done.
    rewrite !filter_none; [done|..].
    + eapply Forall_impl; [exact Hq|]. intros []; simpl; tauto.
    + eapply Forall_impl; [exact Hw|]. intros []; simpl; tauto.
    + eapply Forall_impl; [exact Hp|]. intros []; simpl; tauto.
  - intros method args m Hmethod Hguards. split.
    + unfold guard_warnings. intros [Hdev|Hne].
      * destruct (to_device args); [|done]. by rewrite andb_false_r.
      * by rewrite bool_decide_eq_false_2.
    + apply call_transfer_guarded. rewrite Hguards.
      apply elem_of_cons in Hmethod as [->|Hmethod].
      * apply elem_of_cons; right. by apply elem_of_cons; left.
      * apply list_elem_of_singleton in Hmethod as ->. by apply elem_of_cons; left.
Qed.
End Runs.

(** ** The statements on concrete runs *)

(** C8 at a device map that is all "disk", with hooks forced and no
    offload directory: the default of the main device indexes an empty list,
    and the run ends in [IndexError] before line 383 can name the module. *)
Theorem disk_only_forced_hooks_index_error :
  modules_on disk [(EmptyString, disk)] = [EmptyString]
  ∧ dispatch_model (H := Lab.collaborators [] false)
      [(EmptyString, disk)] None None None None false None None true Lab.host_model
    = (Lab.host_model, [], inl IndexError).
Proof. split; vm_compute; reflexivity. Qed.

Lemma tied_params_map_then_retie_witness :
  let run :=
    dispatch_model (H := Lab.collaborators [["a.weight"; "b.weight"]] false)
      [("a", DInt 0); ("b", cpu); ("c", disk)] None None (Some "offload") None
      false None None false Lab.host_model in
  ∃ hook_args before between after,
    outcome_of run = inr tt
    ∧ log_of run = before ++ EvAttachOnBlocks hook_args :: between
                   ++ EvRetie [["a.weight"; "b.weight"]] :: after
    ∧ model_of run
      = set_hf_device_map [("a", DInt 0); ("b", cpu); ("c", disk)]
          (hooked_model (H := Lab.collaborators [["a.weight"; "b.weight"]] false)
             hook_args [["a.weight"; "b.weight"]] Lab.host_model)
    ∧ bh_tied_params_map hook_args !! 1000 = Some ∅.
Proof.
  cbv zeta.
  destruct (tied_params_map_then_retie
              (H := Lab.collaborators [["a.weight"; "b.weight"]] false)
              [("a", DInt 0); ("b", cpu); ("c", disk)] None None (Some "offload") None
              false None None false Lab.host_model (DInt 0))
    as (hook_args & before & between & after & Hout & Hlog & Hmodel & _ & _ & _ & _ & _ & _
        & Hnames).
  - reflexivity.
  - vm_compute; reflexivity.
  - vm_compute; reflexivity.
  - intros (Hdir & _); discriminate.
  - exists hook_args, before, between, after.
    split_and!; [exact Hout|exact Hlog|exact Hmodel|].
    apply (Hnames ["a.weight"; "b.weight"] "a.weight"); compute_done.
Defined.

Lemma guard_after_dispatch_witness :
  let run :=
    dispatch_model (H := Lab.collaborators [] false)
      [("a", DInt 0); ("b", cpu)] None None None None false None None false Lab.host_model in
  let args := {| to_device := Some (DInt 1); to_dtype := None |} in
  let offloaded := set_guards (guards (model_of run)) Lab.half_meta_model in
  call_transfer (H := Lab.collaborators [] false) "to" args offloaded
  = (offloaded, [EvWarning WarnMoveDispatched], inl cannot_move).
Proof.
  cbv zeta.
  destruct (guard_after_dispatch (H := Lab.collaborators [] false)
              [("a", DInt 0); ("b", cpu)] None None None None false None None false
              Lab.host_model (DInt 0))
    as (_ & _ & _ & Hcall).
  - reflexivity.
  - vm_compute; reflexivity.
  - vm_compute; reflexivity.
  - intros (_ & _ & Hdisk). by apply Hdisk.
  - destruct (Hcall "to" {| to_device := Some (DInt 1); to_dtype := None |}
                (set_guards
                   (guards (model_of
                      (dispatch_model (H := Lab.collaborators [] false)
                         [("a", DInt 0); ("b", cpu)] None None None None false None None
                         false Lab.host_model)))
                   Lab.half_meta_model))
      as (_ & Hblocked & _).
    + apply elem_of_cons; by left.
    + reflexivity.
    + apply Hblocked. vm_compute; reflexivity.
Defined.

(** C2 as stated fails twice on a CUDA machine. [cpu()] gets no wrapper:
    on a model with a symbolic parameter it neither warns nor fails. And the
    wrapper of [to] looks at the parameters before the move, not after:
    [to("meta")] on a placed model returns with every parameter symbolic. *)
Lemma guard_counterexample :
  let run :=
    dispatch_model (H := Lab.collaborators [] false)
      [("a", DInt 0); ("b", cpu)] None None None None false None None false Lab.host_model in
  let offloaded := set_guards (guards (model_of run)) Lab.half_meta_model in
  let to_cpu :=
    call_transfer (H := Lab.collaborators [] false) "cpu"
      {| to_device := None; to_dtype := None |} offloaded in
  let to_meta :=
    call_transfer (H := Lab.collaborators [] false) "to"
      {| to_device := Some (DStr "meta"); to_dtype := None |} (model_of run) in
  guards (model_of run) = ["cuda"; "to"]
  ∧ existsb on_meta_device (parameters offloaded) = true
  ∧ outcome_of to_cpu = inr tt
  ∧ log_of to_cpu = [EvTransfer "cpu" {| to_device := None; to_dtype := None |}]
  ∧ existsb on_meta_device (parameters (model_of run)) = false
  ∧ outcome_of to_meta = inr tt
  ∧ forallb on_meta_device (parameters (model_of to_meta)) = true.
Proof. cbv zeta. split_and!; vm_compute; reflexivity. Qed.

Lemma single_tier_fast_path_witness :
  let device_map := [(EmptyString, DInt 0)] in
  let args := {| to_device := Some (DInt 0); to_dtype := None |} in
  ∃ warnings,
    Forall is_warning_event warnings
    ∧ dispatch_model (H := Lab.collaborators [] false)
        device_map None None None None false None None false Lab.host_model
      = (set_hf_device_map device_map (Lab.lab_move_all (DInt 0) Lab.host_model),
         warnings ++ [EvTransfer "to" args], inr tt).
Proof.
  cbv zeta.
  destruct (single_tier_fast_path (H := Lab.collaborators [] false)
              [(EmptyString, DInt 0)] None None None None false None None false
              Lab.host_model (DInt 0))
    as (_ & _ & Hmove).
  - reflexivity.
  - compute_done.
  - reflexivity.
  - apply Hmove; [done|reflexivity].
Defined.

(** C4 as stated fails twice. A bitsandbytes model loaded in 8 bits gets
    hooks although [force_hooks] is [False] and the map has one tier. And a
    model with a symbolic parameter is not moved as a unit: its symbolic
    tensors are placed one by one. *)
Lemma fast_path_counterexample :
  let device_map := [(EmptyString, DInt 0)] in
  let quantized :=
    dispatch_model (H := Lab.collaborators [] false)
      device_map None None None None false None None false Lab.int8_model in
  let symbolic :=
    dispatch_model (H := Lab.collaborators [] false)
      device_map None None None None false None None false Lab.half_meta_model in
  device_set device_map = {[DInt 0]}
  ∧ Exists is_hook_event (log_of quantized)
  ∧ guards (model_of quantized) = ["cuda"; "to"]
  ∧ outcome_of symbolic = inr tt
  ∧ log_of symbolic = [EvSetTensor "b.weight" (DInt 0); EvSetTensor "b.steps" (DInt 0)].
Proof.
  cbv zeta. split_and!; [compute_done|compute_done|vm_compute; reflexivity..].
Qed.

Lemma fast_path_materializes_meta_witness :
  let device_map := [(EmptyString, DInt 0)] in
  let run :=
    dispatch_model (H := Lab.collaborators [] false)
      device_map None None None None false None None false Lab.half_meta_model in
  log_of run = [EvSetTensor "b.weight" (DInt 0); EvSetTensor "b.steps" (DInt 0)]
  ∧ named_parameters (model_of run)
    = [("a.weight", Lab.on "cpu" None 100); ("b.weight", Lab.on "cuda" (Some 0) 0)].
Proof.
  cbv zeta.
  destruct (fast_path_materializes_meta (H := Lab.collaborators [] false)
              [(EmptyString, DInt 0)] None None None None false None None false
              Lab.half_meta_model (DInt 0))
    as (-> & _ & _).
  - reflexivity.
  - compute_done.
  - reflexivity.
  - discriminate.
  - reflexivity.
  - compute_done.
  - split; vm_compute; reflexivity.
Defined.

(** ** Layerwise casting *)

Section LayerwiseCastingFacts.
Import LayerwiseCasting.

Lemma NNModule_ind (P : NNModule -> Prop) :
  (∀ cs hs ch, Forall (λ child, P child.2) ch → P (Mod cs hs ch)) →
  ∀ module, P module.
Proof.
  intros Hmod. fix IH 1. intros [cs hs ch]. apply Hmod.
  induction ch as [|[name sub] ch IHch]; constructor; [apply IH|exact IHch].
Qed.

Variable SUPPORTED : list string.
Variable re_search : string -> string -> bool.
Variable hook : CastingHook.
Variable skip_modules_pattern : option Patterns.
Variable skip_modules_classes : option (list string).

#[local] Abbreviation walk :=
  (_attach_layerwise_casting_hooks SUPPORTED re_search hook
     skip_modules_pattern skip_modules_classes).
#[local] Abbreviation skips :=
  (should_skip re_search skip_modules_pattern skip_modules_classes).
#[local] Abbreviation hooked :=
  (receives_hook SUPPORTED re_search skip_modules_pattern skip_modules_classes).

Lemma fmap_hooks_unchanged (node : option NNModule) :
  (λ node, hooks_of node ++ []) <$> node = hooks_of <$> node.
Proof. destruct node; simpl; by rewrite ?app_nil_r. Qed.

Lemma walk_unfold module _prefix :
  walk module _prefix
  = if skips module _prefix then module
    else if isinstance module SUPPORTED then add_hook_to_module module hook
    else Mod (classes_of module) (hooks_of module)
           ((λ child, (child.1, walk child.2 (layer_name _prefix child.1)))
              <$> named_children module).
Proof. by destruct module. Qed.




Lemma walk_hooks_at module : ∀ _prefix path,
  hooks_of <$> node_at path (walk module _prefix)
  = (λ node, hooks_of node ++ if hooked path module _prefix then [hook] else [])
      <$> node_at path module.
Proof.
  induction module as [cs hs ch IH] using NNModule_ind. intros _prefix path.
  rewrite walk_unfold.
  destruct (skips (Mod cs hs ch) _prefix) eqn:Hskip.
  { destruct path; cbn [receives_hook]; rewrite Hskip; by rewrite fmap_hooks_unchanged. }
  destruct (isinstance (Mod cs hs ch) SUPPORTED) eqn:Hinst.
  { destruct path as [|i rest]; cbn [receives_hook]; rewrite Hskip, Hinst; [done|].
    by rewrite fmap_hooks_unchanged. }
  destruct path as [|i rest]; cbn [receives_hook]; rewrite Hskip, Hinst.
  { simpl. by rewrite app_nil_r. }
  cbn [node_at named_children classes_of hooks_of]. rewrite list_lookup_fmap.
  destruct (ch !! i) as [[name sub]|] eqn:Hi; [|done]. simpl.
  apply (Forall_lookup_1 _ _ _ _ IH Hi).
Qed.


End LayerwiseCastingFacts.

(** A transformer block: the pattern "norm" keeps the normalisation layer
    out, the linear layers get the hook, and nothing below a linear layer is
    visited. *)
Example layerwise_casting_block :
  let linear := λ children, LayerwiseCasting.Mod ["Linear"; "Module"] [] children in
  let hook := {| LayerwiseCasting.storage_dtype := "float8_e4m3fn";
                 LayerwiseCasting.compute_dtype := "bfloat16";
                 LayerwiseCasting.non_blocking := false |} in
  let block :=
    LayerwiseCasting.Mod ["Block"; "Module"] []
      [("norm", LayerwiseCasting.Mod ["LayerNorm"; "Module"] [] [("inner", linear [])]);
       ("proj", linear [("lora", linear [])]);
       ("mlp", LayerwiseCasting.Mod ["MLP"; "Module"] [] [("fc", linear [])])] in
  LayerwiseCasting.attach_layerwise_casting_hooks ["Linear"]
    (λ pattern s, bool_decide (String.index 0 pattern s ≠ None)) hook
    (Some (LayerwiseCasting.PatternTuple ["norm"])) None block
  = LayerwiseCasting.Mod ["Block"; "Module"] []
      [("norm", LayerwiseCasting.Mod ["LayerNorm"; "Module"] [] [("inner", linear [])]);
       ("proj", LayerwiseCasting.Mod ["Linear"; "Module"] [hook] [("lora", linear [])]);
       ("mlp", LayerwiseCasting.Mod ["MLP"; "Module"] []
                 [("fc", LayerwiseCasting.Mod ["Linear"; "Module"] [hook] [])])].
Proof. vm_compute. reflexivity. Qed.

(** * Further properties of the dispatcher *)

Section MoreRuns.
Context `{Collaborators}.

Lemma hook_path_exact device_map main_device state_dict offload_dir offload_index
    offload_buffers skip_keys preload_module_classes model main :
  resolve_main_device main_device device_map = inr main →
  is_none offload_dir && is_none offload_index
  && bool_decide (0 < length (modules_on disk device_map))%nat = false →
  let hook_args :=
    block_hook_args model device_map main
      (host_state_dict model device_map main state_dict)
      offload_dir offload_index offload_buffers skip_keys preload_module_classes in
  hook_path device_map main_device state_dict offload_dir offload_index
    offload_buffers skip_keys preload_module_classes model
  = (hooked_model hook_args (find_tied_parameters model) model,
     persist_events model device_map offload_dir offload_index
     ++ EvAttachOnBlocks hook_args :: offload_warning device_map
     ++ [EvRetie (find_tied_parameters model); EvWrap "to"; EvWrap accelerator_method]
     ++ p2p_warning device_map,
     inr tt).
Proof.
  intros Hmain Hraise hook_args. subst hook_args.
  unfold hook_path, persist_events, offload_warning, p2p_warning.
  unfold mbind, M_bind. rewrite Hmain. simpl. rewrite Hraise. simpl.
  destruct offload_dir as [dir|]; unfold mret, M_ret; simpl;
    repeat (rewrite when_emit_run; simpl); reflexivity.
Qed.

Lemma hook_path_raises_missing device_map main_device state_dict offload_dir offload_index
    offload_buffers skip_keys preload_module_classes model main :
  resolve_main_device main_device device_map = inr main →
  is_none offload_dir && is_none offload_index
  && bool_decide (0 < length (modules_on disk device_map))%nat = true →
  hook_path device_map main_device state_dict offload_dir offload_index
    offload_buffers skip_keys preload_module_classes model
  = (model, [], inl (missing_offload_dir (modules_on disk device_map))).
Proof.
  intros Hmain Hraise. unfold hook_path, mbind, M_bind. rewrite Hmain. simpl.
  by rewrite Hraise.
Qed.

Lemma hook_path_raises_main device_map main_device state_dict offload_dir offload_index
    offload_buffers skip_keys preload_module_classes model e :
  resolve_main_device main_device device_map = inl e →
  hook_path device_map main_device state_dict offload_dir offload_index
    offload_buffers skip_keys preload_module_classes model
  = (model, [], inl e).
Proof. intros Hmain. unfold hook_path, mbind, M_bind. by rewrite Hmain. Qed.

(** Every run of [dispatch_model], by cases. *)
Lemma dispatch_model_cases device_map main_device state_dict offload_dir offload_index
    offload_buffers skip_keys preload_module_classes force_hooks model :
  dispatch_model device_map main_device state_dict offload_dir offload_index
    offload_buffers skip_keys preload_module_classes force_hooks model
  = match check_device_map model device_map with
    | Some e => (model, [], inl e)
    | None =>
        if bool_decide (1 < size (device_set device_map))%nat || forced_hooks model force_hooks
        then
          match resolve_main_device main_device device_map with
          | inl e => (model, [], inl e)
          | inr main =>
              if is_none offload_dir && is_none offload_index
                 && bool_decide (0 < length (modules_on disk device_map))%nat
              then (model, [], inl (missing_offload_dir (modules_on disk device_map)))
              else
                let hook_args :=
                  block_hook_args model device_map main
                    (host_state_dict model device_map main state_dict)
                    offload_dir offload_index offload_buffers skip_keys
                    preload_module_classes in
                (set_hf_device_map device_map
                   (hooked_model hook_args (find_tied_parameters model) model),
                 persist_events model device_map offload_dir offload_index
                 ++ EvAttachOnBlocks hook_args :: offload_warning device_map
                 ++ [EvRetie (find_tied_parameters model); EvWrap "to";
                     EvWrap accelerator_method]
                 ++ p2p_warning device_map,
                 inr tt)
          end
        else
          match dict_values device_map with
          | [] => (model, [], inl IndexError)
          | d :: _ =>
              let device := backend_device d in
              if bool_decide (device = disk) then (model, [], inl disk_only_error)
              else if existsb on_meta_type (parameters model) then
                let placed :=
                  set_named_buffers
                    (place_in device (named_parameters model) (named_buffers model))
                    (set_named_parameters
                       (place_in device (named_parameters model) (named_parameters model))
                       model) in
                (set_hf_device_map device_map
                   (set_named_buffers
                      (place_in device (named_buffers placed) (named_buffers placed))
                      (set_named_parameters
                         (place_in device (named_buffers placed) (named_parameters placed))
                         placed)),
                 placements device (named_parameters model)
                 ++ placements device (named_buffers placed),
                 inr tt)
              else
                let args := {| to_device := Some device; to_dtype := None |} in
                (set_hf_device_map device_map (module_transfer "to" args model),
                 concat (replicate (length (filter (λ g, g = "to") (guards model)))
                           [EvWarning WarnMoveDispatched])
                 ++ [EvTransfer "to" args],
                 inr tt)
          end
    end.
Proof.
  destruct (check_device_map model device_map) as [e|] eqn:Hcheck.
  { unfold dispatch_model, mbind, M_bind, get_model. by rewrite Hcheck. }
  destruct (bool_decide (1 < size (device_set device_map))%nat
            || forced_hooks model force_hooks) eqn:Hpath.
  - unfold dispatch_model, mbind, M_bind, get_model. rewrite Hcheck. simpl. rewrite Hpath.
    destruct (resolve_main_device main_device device_map) as [e|main] eqn:Hmain.
    { by rewrite (hook_path_raises_main _ _ _ _ _ _ _ _ _ e). }
    destruct (is_none offload_dir && is_none offload_index
              && bool_decide (0 < length (modules_on disk device_map))%nat) eqn:Hraise.
    { by rewrite (hook_path_raises_missing _ _ _ _ _ _ _ _ _ main). }
    rewrite (hook_path_exact _ _ _ _ _ _ _ _ _ main) by done.
    simpl. by rewrite app_nil_r.
  - rewrite dispatch_model_fast_path by done.
    destruct (dict_values device_map) as [|d rest] eqn:Hvalues.
    { unfold fast_path, mbind, M_bind. by rewrite Hvalues. }
    simpl. destruct (decide (backend_device d = disk)) as [Hdisk|Hdisk].
    { rewrite (bool_decide_eq_true_2 _ Hdisk).
      by rewrite (fast_path_disk_run device_map d rest). }
    rewrite (bool_decide_eq_false_2 _ Hdisk).
    destruct (existsb on_meta_type (parameters model)) eqn:Hmeta.
    + by rewrite (fast_path_meta_run device_map d rest model Hvalues Hdisk Hmeta).
    + by rewrite (fast_path_move_run device_map d rest model Hvalues Hdisk Hmeta).
Qed.

Lemma resolve_main_device_error main_device device_map e :
  resolve_main_device main_device device_map = inl e → e = IndexError.
Proof.
  unfold resolve_main_device, default_main_device.
  destruct main_device; [done|].
  destruct (_ || _); [done|]. destruct (filter _ _); [|done]. by intros [= <-].
Qed.

(** X1. The errors that [dispatch_model] raises itself are the error of
    [check_device_map] (line 355), the [IndexError] of a main device that
    cannot be chosen (line 374) or of an empty map (line 491), the
    [ValueError] for disk modules without [offload_dir] and [offload_index]
    (line 383) and the [ValueError] for a map on "disk" only (line 521).
    Each is raised before the model is changed and before any collaborator
    acts; a run that returns has recorded the device map on the model. *)
Theorem dispatch_model_own_errors_first device_map main_device state_dict offload_dir
    offload_index offload_buffers skip_keys preload_module_classes force_hooks model :
  let run := dispatch_model device_map main_device state_dict offload_dir offload_index
               offload_buffers skip_keys preload_module_classes force_hooks model in
  match outcome_of run with
  | inl e =>
      (check_device_map model device_map = Some e
       ∨ e = IndexError
       ∨ e = missing_offload_dir (modules_on disk device_map)
       ∨ e = disk_only_error)
      ∧ model_of run = model ∧ log_of run = []
  | inr _ => hf_device_map (model_of run) = Some device_map
  end.
Proof.
  cbv zeta. rewrite dispatch_model_cases.
  destruct (check_device_map model device_map) as [e|]; [by split; [left|]|].
  destruct (bool_decide (1 < size (device_set device_map))%nat
            || forced_hooks model force_hooks).
  - destruct (resolve_main_device main_device device_map) as [e|main] eqn:Hmain.
    { apply resolve_main_device_error in Hmain as ->. simpl. by split; [right; left|]. }
    destruct (is_none offload_dir && is_none offload_index
              && bool_decide (0 < length (modules_on disk device_map))%nat); [|done].
    simpl. by split; [right; right; left|].
  - destruct (dict_values device_map) as [|d rest]; [by split; [right; left|]|]. simpl.
    destruct (bool_decide (backend_device d = disk)); [by split; [right; right; right|]|].
    by destruct (existsb on_meta_type (parameters model)).
Qed.

(** X2. On an empty device map, with no [main_device] given, the call ends
    in [IndexError] whether hooks are forced or not. *)
Theorem dispatch_model_empty_map state_dict offload_dir offload_index offload_buffers
    skip_keys preload_module_classes force_hooks model :
  check_device_map model [] = None →
  dispatch_model [] None state_dict offload_dir offload_index
    offload_buffers skip_keys preload_module_classes force_hooks model
  = (model, [], inl IndexError).
Proof.
  intros Hcheck. rewrite dispatch_model_cases, Hcheck.
  by destruct (forced_hooks model force_hooks).
Qed.

Lemma offload_warning_warns device_map : Forall is_warning_event (offload_warning device_map).
Proof. unfold offload_warning. by apply Forall_if_singleton. Qed.

Lemma p2p_warning_warns device_map : Forall is_warning_event (p2p_warning device_map).
Proof. unfold p2p_warning. by apply Forall_if_singleton. Qed.

Lemma persist_events_elem model device_map offload_dir offload_index ev :
  ev ∈ persist_events model device_map offload_dir offload_index →
  ∃ dir,
    ev = EvOffloadStateDict dir
           (extract_submodules_state_dict (model_state_dict model)
              (modules_on disk device_map))
    ∧ offload_dir = Some dir
    ∧ offload_index = None
    ∧ modules_on disk device_map ≠ []
    ∧ (os_path_isdir dir = false
       ∨ os_path_isfile (os_path_join dir "index.json") = false).
Proof.
  unfold persist_events. destruct offload_dir as [dir|]; [|by intros ?%elem_of_nil].
  destruct (bool_decide (0 < length (modules_on disk device_map))%nat) eqn:Hlen;
    [|by intros ?%elem_of_nil].
  destruct offload_index; [by intros ?%elem_of_nil|]. simpl.
  destruct (os_path_isdir dir) eqn:Hdir;
    destruct (os_path_isfile (os_path_join dir "index.json")) eqn:Hfile; simpl;
    try (by intros ?%elem_of_nil);
    intros ->%list_elem_of_singleton; exists dir; split_and!; try done; eauto;
    intros Heq; rewrite Heq in Hlen; by apply bool_decide_eq_true in Hlen; simpl in Hlen; lia.
Qed.

(** X3. [dispatch_model] writes offloaded weights only to [offload_dir], only
    the weights of the modules on "disk", and only when no [offload_index] is
    passed and the directory does not already hold an [index.json]. *)
Theorem offload_write_only_when_needed device_map main_device state_dict offload_dir
    offload_index offload_buffers skip_keys preload_module_classes force_hooks model dir sd :
  EvOffloadStateDict dir sd
  ∈ log_of (dispatch_model device_map main_device state_dict offload_dir offload_index
              offload_buffers skip_keys preload_module_classes force_hooks model) →
  offload_dir = Some dir
  ∧ offload_index = None
  ∧ modules_on disk device_map ≠ []
  ∧ (os_path_isdir dir = false ∨ os_path_isfile (os_path_join dir "index.json") = false)
  ∧ sd = extract_submodules_state_dict (model_state_dict model) (modules_on disk device_map).
Proof.
  rewrite dispatch_model_cases. unfold log_of.
  destruct (check_device_map model device_map); [by intros ?%elem_of_nil|].
  destruct (bool_decide (1 < size (device_set device_map))%nat
            || forced_hooks model force_hooks);
    [destruct (resolve_main_device main_device device_map); [by intros ?%elem_of_nil|];
     destruct (is_none offload_dir && is_none offload_index
               && bool_decide (0 < length (modules_on disk device_map))%nat);
       [by intros ?%elem_of_nil|]
    |destruct (dict_values device_map) as [|d rest]; [by intros ?%elem_of_nil|];
     simpl; destruct (bool_decide (backend_device d = disk)); [by intros ?%elem_of_nil|];
     destruct (existsb on_meta_type (parameters model))]; simpl.
  - intros [Hin|Hin]%elem_of_app.
    + apply persist_events_elem in Hin as (dir' & [= -> ->] & ? & ? & ? & ?). done.
    + apply elem_of_cons in Hin as [?|Hin]; [done|].
      apply elem_of_app in Hin as [Hin|Hin].
      * pose proof (offload_warning_warns device_map) as Hw.
        by apply (proj1 (Forall_forall _ _) Hw) in Hin.
      * repeat (apply elem_of_cons in Hin as [?|Hin]; [done|]).
        pose proof (p2p_warning_warns device_map) as Hw.
        by apply (proj1 (Forall_forall _ _) Hw) in Hin.
  - intros [Hin|Hin]%elem_of_app;
      by apply placements_set_tensor in Hin as (? & ? & ? & _).
  - intros [Hin|Hin]%elem_of_app.
    + apply elem_of_concat in Hin as (l & Hl & Hin).
      apply elem_of_replicate in Hl as [-> _].
      by apply list_elem_of_singleton in Hin.
    + by apply list_elem_of_singleton in Hin.
Qed.
End MoreRuns.

(** ** Further properties of the normaliser *)

Lemma dict_set_keys {V} k (v : V) (d : dict V) :
  dict_keys (dict_set k v d)
  = if bool_decide (k ∈ dict_keys d) then dict_keys d else dict_keys d ++ [k].
Proof.
  unfold dict_keys. induction d as [|[k' v'] d IH]; [done|].
  simpl. destruct (decide (k' = k)) as [->|Hne].
  - rewrite bool_decide_eq_true_2; [done|]. by apply elem_of_cons; left.
  - rewrite fmap_cons, IH. simpl.
    destruct (decide (k ∈ d.*1)) as [Hin|Hin].
    + rewrite !bool_decide_eq_true_2; [done| |done]. by apply elem_of_cons; right.
    + rewrite !bool_decide_eq_false_2; [done| |done].
      intros [?|?]%elem_of_cons; [congruence|done].
Qed.

Lemma dict_keys_fmap {A V} (g : string -> A -> V) (items : dict A) :
  dict_keys ((λ item, (item.1, g item.1 item.2)) <$> items) = dict_keys items.
Proof.
  unfold dict_keys. rewrite <- list_fmap_compose. by apply list_fmap_ext.
Qed.

(** X5. For a device map (no path twice), the offload table has exactly the
    paths of the map, in its order, and the execution-device table the same
    paths with the root path added last when the map does not have it. *)
Theorem normaliser_table_keys (device_map : DeviceMap) (main_device : Device) :
  NoDup (dict_keys device_map) →
  dict_keys (offload_table device_map main_device) = dict_keys device_map
  ∧ dict_keys (execution_device_table device_map main_device)
    = if bool_decide (EmptyString ∈ dict_keys device_map)
      then dict_keys device_map
      else dict_keys device_map ++ [EmptyString].
Proof.
  intros Hnd. unfold offload_table, execution_device_table.
  rewrite dict_set_keys, !dict_comprehension_fmap by done.
  rewrite (dict_keys_fmap (λ _ device, py_in device (offloaded_devices main_device))).
  by rewrite !(dict_keys_fmap
                 (λ _ device, if py_in device [cpu; disk] then main_device else device)).
Qed.

Lemma normaliser_table_keys_witness :
  let device_map := [("a", DInt 0); ("b", cpu); ("c", disk)] in
  NoDup (dict_keys device_map)
  ∧ dict_keys (execution_device_table device_map (DInt 0))
    = ["a"; "b"; "c"; EmptyString].
Proof.
  cbv zeta.
  assert (Hnd : NoDup (dict_keys [("a", DInt 0); ("b", cpu); ("c", disk)])) by compute_done.
  split; [exact Hnd|].
  by destruct (normaliser_table_keys _ (DInt 0) Hnd) as [_ ->].
Defined.

(** X6. The default main device is always one of the values of the device
    map; the default fails, with [IndexError], exactly when every value of
    the map is "disk" (an empty map included). *)
Theorem default_main_device_total (device_map : DeviceMap) :
  match default_main_device device_map with
  | inr d => d ∈ dict_values device_map ∧ ¬ Forall (λ x, x = disk) (dict_values device_map)
  | inl e => e = IndexError ∧ Forall (λ x, x = disk) (dict_values device_map)
  end.
Proof.
  destruct (decide (host_only device_map)) as [Hh|Hh].
  - rewrite default_main_device_host by done.
    assert (Hcpu : cpu ∈ dict_values device_map).
    { apply (elem_of_list_to_set (C := gset Device)). fold (device_set device_map).
      destruct Hh as [->| ->]; set_solver. }
    split; [done|]. intros Hall.
    by apply (proj1 (Forall_forall _ _) Hall) in Hcpu.
  - rewrite default_main_device_other by done.
    destruct (filter _ _) as [|d rest] eqn:Hf.
    + split; [done|]. apply Forall_forall. intros x Hx.
      assert (Hxin : x ∈ [cpu; disk]).
      { destruct (decide (x ∈ [cpu; disk])) as [|Hnot]; [done|].
        assert (Hxf : x ∈ filter (λ d, d ∉ [cpu; disk]) (dict_values device_map))
          by (by apply list_elem_of_filter).
        rewrite Hf in Hxf. by apply elem_of_nil in Hxf. }
      apply elem_of_cons in Hxin as [->|Hxin].
      * exfalso. apply Hh. unfold host_only, device_set.
        assert (Hsub : ∀ y, y ∈ dict_values device_map → y = cpu ∨ y = disk).
        { intros y Hy. destruct (decide (y ∈ [cpu; disk])) as [Hin|Hnot].
          - apply elem_of_cons in Hin as [?|Hin]; [by left|].
            apply list_elem_of_singleton in Hin. by right.
          - assert (Hyf : y ∈ filter (λ d, d ∉ [cpu; disk]) (dict_values device_map))
              by (by apply list_elem_of_filter).
            rewrite Hf in Hyf. by apply elem_of_nil in Hyf. }
        destruct (decide (disk ∈ dict_values device_map)) as [Hd|Hd].
        -- right. apply set_eq. intros y.
           rewrite elem_of_list_to_set, elem_of_union, !elem_of_singleton. split.
           ++ apply Hsub.
           ++ intros [->| ->]; done.
        -- left. apply set_eq. intros y.
           rewrite elem_of_list_to_set, elem_of_singleton. split.
           ++ intros Hy. destruct (Hsub y Hy) as [->| ->]; done.
           ++ by intros ->.
      * by apply list_elem_of_singleton in Hxin.
    + assert (Hd : d ∈ filter (λ d, d ∉ [cpu; disk]) (dict_values device_map))
        by (rewrite Hf; by apply elem_of_cons; left).
      apply list_elem_of_filter in Hd as [Hnot Hd]. split; [done|].
      intros Hall. apply (proj1 (Forall_forall _ _) Hall) in Hd as ->.
      apply Hnot. apply elem_of_cons; right. by apply elem_of_cons; left.
Qed.

Lemma dict_comprehension_elem {A V} (g : string -> A -> V) (items : dict A) k v :
  (k, v) ∈ dict_comprehension g items → ∃ x, (k, x) ∈ items ∧ v = g k x.
Proof.
  unfold dict_comprehension.
  assert (Hgen : ∀ acc,
            (k, v) ∈ fold_left (λ acc '(k, x), dict_set k (g k x) acc) items acc →
            (k, v) ∈ acc ∨ ∃ x, (k, x) ∈ items ∧ v = g k x).
  { induction items as [|[k' x'] items IH]; intros acc; simpl; [by left|].
    intros [Hin|(x & Hx & ->)]%IH.
    - apply dict_set_elem in Hin as [[-> ->]|Hin]; [right|by left].
      exists x'. split; [by apply elem_of_cons; left|done].
    - right. exists x. split; [by apply elem_of_cons; right|done]. }
  intros [Hin|Hin]%Hgen; [by apply elem_of_nil in Hin|done].
Qed.

Section Offloading.
Context `{Collaborators}.

Lemma modules_on_none (tier : Device) (device_map : DeviceMap) :
  Forall (λ x, x ≠ tier) (dict_values device_map) → modules_on tier device_map = [].
Proof.
  intros Hall. unfold modules_on. rewrite filter_none; [done|].
  apply Forall_forall. intros [k v] Hin Heq. simpl in Heq.
  apply (proj1 (Forall_forall _ _) Hall v); [|done].
  unfold dict_values. by apply (list_elem_of_fmap_2 snd _ (k, v)).
Qed.

Lemma accelerators_only_default (device_map : DeviceMap) d rest :
  dict_values device_map = d :: rest →
  Forall (λ x, x ∉ [cpu; disk]) (dict_values device_map) →
  default_main_device device_map = inr d.
Proof.
  intros Hvalues Hall. rewrite default_main_device_other.
  - replace (filter (λ d, d ∉ [cpu; disk]) (dict_values device_map))
      with (dict_values device_map); [by rewrite Hvalues|].
    clear Hvalues. induction Hall as [|x l Hx Hl IH]; [done|].
    by rewrite filter_cons, decide_True, <- IH.
  - intros Hh.
    assert (Hcpu : cpu ∈ dict_values device_map).
    { apply (elem_of_list_to_set (C := gset Device)). fold (device_set device_map).
      destruct Hh as [->| ->]; set_solver. }
    apply (proj1 (Forall_forall _ _) Hall) in Hcpu. apply Hcpu.
    by apply elem_of_cons; left.
Qed.

Lemma accelerators_only_no_warning (device_map : DeviceMap) :
  Forall (λ x, x ∉ [cpu; disk]) (dict_values device_map) →
  offload_warning device_map = [].
Proof.
  intros Hall. unfold offload_warning. rewrite bool_decide_eq_false_2; [done|].
  intros Hne. apply Hne. apply set_eq. intros x.
  rewrite elem_of_filter. unfold device_set. rewrite elem_of_list_to_set. split.
  - intros [Hin Hx]. by apply (proj1 (Forall_forall _ _) Hall) in Hx.
  - by intros ?%elem_of_empty.
Qed.

(** X4. A device map whose tiers are all accelerators, dispatched through the
    hook path without a state dict or an offload index: the main device is
    the first tier of the map, the hooks are attached without a weights map
    and with every offload flag false, nothing is written to disk and no
    offload warning is logged. *)
Theorem accelerators_only_offloads_nothing device_map offload_dir offload_buffers skip_keys
    preload_module_classes force_hooks model d rest :
  check_device_map model device_map = None →
  bool_decide (1 < size (device_set device_map))%nat || forced_hooks model force_hooks = true →
  dict_values device_map = d :: rest →
  Forall (λ x, x ∉ [cpu; disk]) (dict_values device_map) →
  ∃ hook_args,
    dispatch_model device_map None None offload_dir None
      offload_buffers skip_keys preload_module_classes force_hooks model
    = (set_hf_device_map device_map
         (hooked_model hook_args (find_tied_parameters model) model),
       EvAttachOnBlocks hook_args
       :: [EvRetie (find_tied_parameters model); EvWrap "to"; EvWrap accelerator_method]
       ++ p2p_warning device_map,
       inr tt)
    ∧ bh_weights_map hook_args = None
    ∧ Forall (λ item, item.2 = false) (bh_offload hook_args)
    ∧ dict_get EmptyString (bh_execution_device hook_args) = Some d.
Proof.
  intros Hcheck Hpath Hvalues Hall.
  assert (Hd : d ∉ [cpu; disk]).
  { apply (proj1 (Forall_forall _ _) Hall). rewrite Hvalues. by apply elem_of_cons; left. }
  assert (Hcpu : modules_on cpu device_map = []).
  { apply modules_on_none. eapply Forall_impl; [exact Hall|].
    intros x Hx ->. apply Hx. by apply elem_of_cons; left. }
  assert (Hdisk : modules_on disk device_map = []).
  { apply modules_on_none. eapply Forall_impl; [exact Hall|].
    intros x Hx ->. apply Hx. apply elem_of_cons; right. by apply elem_of_cons; left. }
  eexists. rewrite dispatch_model_cases, Hcheck, Hpath. simpl.
  rewrite (accelerators_only_default _ _ _ Hvalues Hall).
  rewrite Hdisk. simpl. rewrite andb_false_r. simpl.
  split_and!.
  - assert (Hp : persist_events model device_map offload_dir None = []).
    { unfold persist_events. rewrite Hdisk. destruct offload_dir; [|done].
      rewrite (bool_decide_eq_false_2 (0 < length (@nil string))%nat); [done|simpl; lia]. }
    rewrite Hp, accelerators_only_no_warning by done. reflexivity.
  - unfold block_hook_args, host_state_dict. simpl.
    rewrite Hcpu, Hdisk. simpl. by destruct (bool_decide (d ≠ cpu)).
  - simpl. apply Forall_forall. intros [k v] Hin. simpl.
    apply dict_comprehension_elem in Hin as (x & Hx & ->).
    unfold py_in. apply bool_decide_eq_false.
    assert (Hxv : x ∈ dict_values device_map).
    { unfold dict_values. by apply (list_elem_of_fmap_2 snd _ (k, x)). }
    apply (proj1 (Forall_forall _ _) Hall) in Hxv.
    unfold offloaded_devices. intros Hin. apply Hxv.
    destruct (bool_decide (d = cpu) || bool_decide (d = mps)); [|done].
    apply list_elem_of_singleton in Hin as ->.
    apply elem_of_cons; right. by apply elem_of_cons; left.
  - simpl. unfold execution_device_table. apply dict_get_set_eq.
Qed.

(** X7. A call of a transfer method of the model, by the number of wrappers
    the method has: with no parameter on [torch.device("meta")] every wrapper
    logs its warning and the method of [nn.Module] runs once; with a
    parameter there, a wrapped method raises after the warning of the
    outermost wrapper only, and a method without wrapper runs unchecked. *)
Theorem call_transfer_through_guards (method : string) (args : TransferArgs) (m : Model) :
  call_transfer method args m
  = let layers := length (filter (λ g, g = method) (guards m)) in
    if existsb on_meta_device (parameters m) then
      match layers with
      | O => (module_transfer method args m, [EvTransfer method args], inr tt)
      | S _ => (m, guard_warnings method args, inl cannot_move)
      end
    else
      (module_transfer method args m,
       concat (replicate layers (guard_warnings method args)) ++ [EvTransfer method args],
       inr tt).
Proof.
  unfold call_transfer, mbind, M_bind, get_model. cbv zeta.
  destruct (existsb on_meta_device (parameters m)) eqn:Hmeta.
  - destruct (length (filter (λ g, g = method) (guards m))) as [|layers]; [done|].
    by rewrite guarded_blocks.
  - by rewrite guarded_passes.
Qed.

(** X8. [disk_offload] writes the state dict of the model to [offload_dir]
    exactly when the directory has no [index.json], and does so first: also a
    call that then fails for want of a parameter has written it. *)
Theorem disk_offload_writes_first offload_dir execution_device offload_buffers
    preload_module_classes model :
  let run := disk_offload offload_dir execution_device offload_buffers
               preload_module_classes model in
  let written :=
    if negb (os_path_isdir offload_dir)
       || negb (os_path_isfile (os_path_join offload_dir "index.json"))
    then [EvOffloadStateDict offload_dir (model_state_dict model)] else [] in
  ∃ rest,
    log_of run = written ++ rest
    ∧ Forall is_hook_event rest
    ∧ match outcome_of run with
      | inl e => e = StopIteration ∧ rest = [] ∧ execution_device = None
                 ∧ parameters model = []
      | inr _ => length rest = 2%nat
      end.
Proof.
  cbv zeta. unfold disk_offload, first_parameter_device, mbind, M_bind, get_model. simpl.
  rewrite when_emit_run. simpl.
  destruct execution_device as [d|]; simpl.
  - eexists. split; [reflexivity|]. split; [|done]. by repeat constructor.
  - destruct (parameters model) as [|param params] eqn:Hparams; simpl.
    + exists []. split; [done|]. split; [constructor|done].
    + eexists. split; [reflexivity|]. split; [|done]. by repeat constructor.
Qed.

(** X9. [cpu_offload] without a state dict keeps, under every name of
    [model.state_dict()] and in its order, that tensor moved to "cpu". *)
Theorem cpu_offload_keeps_state_on_host d offload_buffers preload_module_classes model :
  NoDup (dict_keys (model_state_dict model)) →
  ∃ args final,
    cpu_offload (Some d) offload_buffers None preload_module_classes model
    = (final, [EvAddAlignDevicesHook true; EvAttachAlign args], inr tt)
    ∧ ah_weights_map args
      = WeightsDict ((λ item, (item.1, tensor_to cpu item.2)) <$> model_state_dict model)
    ∧ ah_offload args = true.
Proof.
  intros Hnd. eexists _, _. split; [reflexivity|]. simpl.
  split; [|done]. f_equal.
  by rewrite (dict_comprehension_fmap (λ _ p, tensor_to cpu p)).
Qed.
End Offloading.

Section Placement.
Context `{Collaborators}.

Lemma materialized_no_meta (device : Device) (tensors : dict Tensor) :
  dev_type (torch_device device) ≠ "meta" →
  existsb on_meta_type (dict_values (materialized device tensors)) = false.
Proof.
  intros Hdev. unfold dict_values, materialized.
  induction tensors as [|[name t] tensors IH]; [done|].
  rewrite !fmap_cons. cbn [existsb]. rewrite IH, orb_false_r. simpl.
  destruct (on_meta_type t) eqn:Ht; simpl; [|done].
  unfold on_meta_type, tensor_to. simpl. by apply bool_decide_eq_false.
Qed.

(** X10. After the fast path has placed the symbolic tensors of a model (one
    tier other than "disk", distinct tensor names) on a device that is not
    itself the meta device, no parameter and no buffer of the model is on the
    meta device, and the model has the tensor names it had. *)
Theorem fast_path_leaves_no_placeholder device_map main_device state_dict offload_dir
    offload_index offload_buffers skip_keys preload_module_classes force_hooks model tier :
  check_device_map model device_map = None →
  device_set device_map = {[tier]} →
  forced_hooks model force_hooks = false →
  tier ≠ disk →
  existsb on_meta_type (parameters model) = true →
  NoDup (dict_keys (named_parameters model ++ named_buffers model)) →
  dev_type (torch_device (backend_device tier)) ≠ "meta" →
  let run := dispatch_model device_map main_device state_dict offload_dir offload_index
               offload_buffers skip_keys preload_module_classes force_hooks model in
  outcome_of run = inr tt
  ∧ existsb on_meta_type (parameters (model_of run)) = false
  ∧ existsb on_meta_type (dict_values (named_buffers (model_of run))) = false
  ∧ dict_keys (named_parameters (model_of run)) = dict_keys (named_parameters model)
  ∧ dict_keys (named_buffers (model_of run)) = dict_keys (named_buffers model).
Proof.
  intros Hcheck Hset Hforced Hdisk Hmeta Hnd Hdev run.
  destruct (single_tier_values device_map tier Hset) as [[rest Hvalues] Hsize].
  assert (Hbackend : backend_device tier ≠ disk) by (by rewrite backend_device_disk).
  unfold dict_keys in Hnd. rewrite fmap_app in Hnd.
  apply NoDup_app in Hnd as (Hps & Hdisj & Hbs).
  subst run. rewrite dispatch_model_cases, Hcheck, Hsize, Hforced, Hvalues. simpl.
  rewrite (bool_decide_eq_false_2 _ Hbackend), Hmeta.
  unfold outcome_of, model_of, parameters. simpl.
  rewrite (place_in_self _ (named_parameters model)) by done.
  rewrite (place_in_disjoint _ (named_parameters model) (named_buffers model))
    by (intros k Hk; by apply Hdisj).
  rewrite (place_in_self _ (named_buffers model)) by done.
  rewrite (place_in_disjoint _ (named_buffers model)
             (materialized (backend_device tier) (named_parameters model))).
  2:{ intros k Hk. rewrite materialized_keys. intros Hk'. by apply (Hdisj k). }
  rewrite !materialized_no_meta, !materialized_keys by done. done.
Qed.
End Placement.

(** ** Further properties of the layerwise-casting walk *)

Section MoreLayerwiseCasting.
Import LayerwiseCasting.

Variable SUPPORTED : list string.
Variable re_search : string -> string -> bool.
Variable hook : CastingHook.
Variable skip_modules_pattern : option Patterns.
Variable skip_modules_classes : option (list string).

#[local] Abbreviation walk' :=
  (_attach_layerwise_casting_hooks SUPPORTED re_search hook
     skip_modules_pattern skip_modules_classes).
#[local] Abbreviation hooked' :=
  (receives_hook SUPPORTED re_search skip_modules_pattern skip_modules_classes).

(** X11. The walk changes hooks and nothing else: without the hooks, the
    tree after the walk is the tree before it (classes, child names, order
    and shape). *)
Theorem walk_keeps_structure module : ∀ _prefix,
  strip_hooks (walk' module _prefix) = strip_hooks module.
Proof.
  induction module as [cs hs ch IH] using NNModule_ind. intros _prefix.
  rewrite walk_unfold. repeat case_match; try done.
  cbn [strip_hooks classes_of hooks_of named_children]. f_equal.
  induction IH as [|[name sub] ch Hsub Hch IHch]; [done|].
  rewrite fmap_cons. cbn [map fst snd]. cbn [fst snd] in Hsub.
  by rewrite Hsub, IHch.
Qed.

Lemma hooked_no_descendant path : ∀ module _prefix ext,
  ext ≠ [] →
  hooked' path module _prefix = true →
  hooked' (path ++ ext) module _prefix = false.
Proof.
  induction path as [|i rest IH]; intros module _prefix ext Hext.
  - destruct ext as [|j ext]; [done|]. cbn [receives_hook app].
    destruct (should_skip _ _ _ _ _); [done|].
    by destruct (isinstance module SUPPORTED).
  - cbn [receives_hook app]. destruct (should_skip _ _ _ _ _); [done|].
    destruct (isinstance module SUPPORTED); [done|].
    destruct (named_children module !! i) as [child|]; [|done]. by apply IH.
Qed.

(** X12. Hooks never nest: below a node whose hooks the walk has changed, the
    walk changes the hooks of no node. *)
Theorem walk_hooks_never_nest module _prefix path ext :
  ext ≠ [] →
  hooks_of <$> node_at path (walk' module _prefix) ≠ hooks_of <$> node_at path module →
  hooks_of <$> node_at (path ++ ext) (walk' module _prefix)
  = hooks_of <$> node_at (path ++ ext) module.
Proof.
  intros Hext Hchanged.
  assert (Hhooked : hooked' path module _prefix = true).
  { destruct (hooked' path module _prefix) eqn:Hh; [done|]. exfalso. apply Hchanged.
    rewrite walk_hooks_at, Hh. apply fmap_hooks_unchanged. }
  rewrite walk_hooks_at, (hooked_no_descendant _ _ _ _ Hext Hhooked).
  apply fmap_hooks_unchanged.
Qed.
End MoreLayerwiseCasting.

Lemma string_app_assoc (s1 s2 s3 : string) : (s1 +:+ s2) +:+ s3 = s1 +:+ s2 +:+ s3.
Proof.
  induction s1 as [|a s1 IH]; [done|].
  change (String a ((s1 +:+ s2) +:+ s3) = String a (s1 +:+ s2 +:+ s3)). by rewrite IH.
Qed.

Lemma layer_name_fold_prefixed (names : list string) : ∀ _prefix,
  _prefix ≠ EmptyString →
  fold_left LayerwiseCasting.layer_name names _prefix
  = match names with
    | [] => _prefix
    | _ :: _ => _prefix +:+ "." +:+ String.concat "." names
    end.
Proof.
  induction names as [|name names IH]; intros _prefix Hne; [done|].
  cbn [fold_left]. unfold LayerwiseCasting.layer_name at 2.
  rewrite bool_decide_eq_false_2 by done.
  rewrite IH by (by destruct _prefix).
  destruct names as [|name' names]; [done|].
  cbn [String.concat]. by rewrite !string_app_assoc.
Qed.

(** X13. Along a path of children with non-empty names, the name that the
    walk builds from the empty prefix, child by child, is the dotted path:
    the names joined by ".". *)
Theorem layer_name_dotted_path (names : list string) :
  Forall (λ name, name ≠ EmptyString) names →
  fold_left LayerwiseCasting.layer_name names EmptyString = String.concat "." names.
Proof.
  intros Hnames. destruct Hnames as [|name names Hname Hnames]; [done|].
  cbn [fold_left]. unfold LayerwiseCasting.layer_name at 2. simpl.
  rewrite layer_name_fold_prefixed by done. by destruct names.
Qed.

(** ** The checkpoint-and-dispatch orchestrator *)

Section OrchestratorFacts.
Context `{Collaborators} `{Loaders}.

(** Every run of [load_checkpoint_and_dispatch], by cases. *)
Lemma load_checkpoint_and_dispatch_cases checkpoint device_map max_memory
    no_split_module_classes offload_folder offload_buffers dtype offload_state_dict skip_keys
    preload_module_classes force_hooks strict full_state_dict broadcast_from_rank0 model :
  load_checkpoint_and_dispatch checkpoint device_map max_memory no_split_module_classes
    offload_folder offload_buffers dtype offload_state_dict skip_keys preload_module_classes
    force_hooks strict full_state_dict broadcast_from_rank0 model
  = if acceptable_device_map device_map then
      let resolved :=
        resolved_device_map model device_map max_memory no_split_module_classes dtype
          offload_buffers in
      let load_args :=
        load_args_for checkpoint resolved offload_folder offload_buffers dtype
          offload_state_dict strict full_state_dict broadcast_from_rank0 in
      let loaded := load_checkpoint_in_model load_args model in
      let before :=
        inference_events model device_map max_memory no_split_module_classes dtype
          offload_buffers in
      match resolved with
      | None => (loaded, before ++ [EvLoadCheckpoint load_args], inr tt)
      | Some resolved =>
          let run :=
            dispatch_model resolved None None offload_folder None offload_buffers skip_keys
              preload_module_classes force_hooks loaded in
          (model_of run,
           before ++ EvLoadCheckpoint load_args :: (EvDispatch <$> log_of run),
           outcome_of run)
      end
    else (model, [], inl bad_device_map_token).
Proof.
  unfold load_checkpoint_and_dispatch, acceptable_device_map, resolved_device_map,
    inference_events, load_args_for.
  unfold mbind, L_bind, mret, L_ret, l_emit, l_modify, l_get_model, l_dispatch, l_raise.
  destruct device_map as [[token|device_map]|]; simpl.
  - destruct (py_in token ["auto"; "balanced"; "balanced_low_0"; "sequential"]); [|done].
    simpl. destruct (bool_decide (token ≠ "sequential")); simpl;
      by destruct (dispatch_model _ _ _ _ _ _ _ _ _ _) as [[m l] r].
  - by destruct (dispatch_model _ _ _ _ _ _ _ _ _ _) as [[m l] r].
  - done.
Qed.

(** Line 525: a dispatch that returns has recorded its device map. *)
Lemma dispatch_model_returns_mapped device_map main_device state_dict offload_dir
    offload_index offload_buffers skip_keys preload_module_classes force_hooks model u :
  let run := dispatch_model device_map main_device state_dict offload_dir offload_index
               offload_buffers skip_keys preload_module_classes force_hooks model in
  outcome_of run = inr u → hf_device_map (model_of run) = Some device_map.
Proof.
  cbv zeta. rewrite dispatch_model_cases.
  destruct (check_device_map model device_map); [done|].
  destruct (bool_decide (1 < size (device_set device_map))%nat
            || forced_hooks model force_hooks).
  - destruct (resolve_main_device main_device device_map); [done|].
    by destruct (is_none offload_dir && is_none offload_index
                 && bool_decide (0 < length (modules_on disk device_map))%nat).
  - destruct (dict_values device_map) as [|d rest]; [done|]. simpl.
    destruct (bool_decide (backend_device d = disk)); [done|].
    by destruct (existsb on_meta_type (parameters model)).
Qed.

Lemma filter_balanced_dispatch (l : list Event) :
  filter is_balanced_memory_event (EvDispatch <$> l) = [].
Proof.
  induction l as [|ev l IH]; [done|].
  rewrite fmap_cons, filter_cons. by destruct (decide _) as [[]|].
Qed.

(** X14 (load_checkpoint_and_dispatch): the balanced-memory estimator is
    called exactly once for the tokens auto, balanced and balanced_low_0,
    with [low_zero] set only for balanced_low_0, and never for sequential, a
    rejected token, an explicit device map or no device map. *)
Theorem balanced_memory_consulted checkpoint device_map max_memory
    no_split_module_classes offload_folder offload_buffers dtype offload_state_dict skip_keys
    preload_module_classes force_hooks strict full_state_dict broadcast_from_rank0 model :
  filter is_balanced_memory_event
    (l_log_of
       (load_checkpoint_and_dispatch checkpoint device_map max_memory
          no_split_module_classes offload_folder offload_buffers dtype offload_state_dict
          skip_keys preload_module_classes force_hooks strict full_state_dict
          broadcast_from_rank0 model))
  = match device_map with
    | Some (inl token) =>
        if py_in token ["auto"; "balanced"; "balanced_low_0"] then
          [EvBalancedMemory max_memory no_split_module_classes dtype
             (bool_decide (token = "balanced_low_0"))]
        else []
    | _ => []
    end.
Proof.
  rewrite load_checkpoint_and_dispatch_cases.
  assert (∀ (before : list LoadEvent) args l,
            filter is_balanced_memory_event
              (before ++ EvLoadCheckpoint args :: (EvDispatch <$> l))
            = filter is_balanced_memory_event before) as Htail.
  { intros before args l. rewrite filter_app, filter_cons.
    destruct (decide _) as [[]|]. by rewrite filter_balanced_dispatch, app_nil_r. }
  assert (∀ (before : list LoadEvent) args,
            filter is_balanced_memory_event (before ++ [EvLoadCheckpoint args])
            = filter is_balanced_memory_event before) as Hlast.
  { intros before args. apply (Htail before args []). }
  destruct (acceptable_device_map device_map) eqn:Hok.
  - assert (filter is_balanced_memory_event
              (inference_events model device_map max_memory no_split_module_classes dtype
                 offload_buffers)
            = match device_map with
              | Some (inl token) =>
                  if py_in token ["auto"; "balanced"; "balanced_low_0"] then
                    [EvBalancedMemory max_memory no_split_module_classes dtype
                       (bool_decide (token = "balanced_low_0"))]
                  else []
              | _ => []
              end) as Hbefore.
    { destruct device_map as [[token|device_map]|]; [|done..].
      unfold acceptable_device_map, py_in in Hok. apply bool_decide_eq_true_1 in Hok.
      rewrite !elem_of_cons, elem_of_nil in Hok.
      destruct Hok as [->| [->| [->| [->|[]]]]]; by vm_compute. }
    cbv zeta. destruct (resolved_device_map _ _ _ _ _ _).
    + unfold l_log_of. cbn [fst snd]. by rewrite Htail.
    + unfold l_log_of. cbn [fst snd]. by rewrite Hlast.
  - destruct device_map as [[token|device_map]|]; [|done..].
    unfold acceptable_device_map, py_in in Hok. apply bool_decide_eq_false_1 in Hok.
    unfold py_in. rewrite bool_decide_eq_false_2; [done|].
    intros Hin. apply Hok. rewrite !elem_of_cons, elem_of_nil in Hin.
    rewrite !elem_of_cons. tauto.
Qed.

(** X15 (load_checkpoint_and_dispatch): with an acceptable device map the
    checkpoint is loaded once, after the map is inferred and before the
    dispatch.  With no device map the model is returned loaded and
    undispatched.  Otherwise the call ends as [dispatch_model] does on the
    loaded model and the resolved map, with no main device, state dict or
    offload index and with [offload_folder] as its [offload_dir]: its
    outcome and its model are those of the dispatch, and when the dispatch
    returns the resolved map is on the model. *)
Theorem checkpoint_loaded_before_dispatch checkpoint device_map max_memory
    no_split_module_classes offload_folder offload_buffers dtype offload_state_dict skip_keys
    preload_module_classes force_hooks strict full_state_dict broadcast_from_rank0 model :
  acceptable_device_map device_map = true ->
  let run :=
    load_checkpoint_and_dispatch checkpoint device_map max_memory no_split_module_classes
      offload_folder offload_buffers dtype offload_state_dict skip_keys
      preload_module_classes force_hooks strict full_state_dict broadcast_from_rank0 model in
  let resolved :=
    resolved_device_map model device_map max_memory no_split_module_classes dtype
      offload_buffers in
  let load_args :=
    load_args_for checkpoint resolved offload_folder offload_buffers dtype
      offload_state_dict strict full_state_dict broadcast_from_rank0 in
  let before :=
    inference_events model device_map max_memory no_split_module_classes dtype
      offload_buffers in
  let loaded := load_checkpoint_in_model load_args model in
  match resolved with
  | None => run = (loaded, before ++ [EvLoadCheckpoint load_args], inr tt)
  | Some resolved =>
      let dispatch :=
        dispatch_model resolved None None offload_folder None offload_buffers skip_keys
          preload_module_classes force_hooks loaded in
      l_log_of run = before ++ EvLoadCheckpoint load_args :: (EvDispatch <$> log_of dispatch)
      ∧ l_model_of run = model_of dispatch
      ∧ l_outcome_of run = outcome_of dispatch
      ∧ (∀ u, outcome_of dispatch = inr u → hf_device_map (l_model_of run) = Some resolved)
  end.
Proof.
  intros Hok. cbv zeta. rewrite load_checkpoint_and_dispatch_cases, Hok. cbv zeta.
  destruct (resolved_device_map _ _ _ _ _ _) as [resolved|] eqn:Hresolved; [|done].
  unfold l_log_of, l_outcome_of, l_model_of. simpl.
  split_and!; [done..|]. intros u Hu.
  by apply (dispatch_model_returns_mapped resolved None None offload_folder None
              offload_buffers skip_keys preload_module_classes force_hooks _ u).
Qed.

(** X16 (load_checkpoint_and_dispatch): a string device map other than the
    four tokens is rejected with a ValueError before anything is estimated,
    inferred, loaded or dispatched. *)
Theorem unknown_token_rejected token checkpoint max_memory
    no_split_module_classes offload_folder offload_buffers dtype offload_state_dict skip_keys
    preload_module_classes force_hooks strict full_state_dict broadcast_from_rank0 model :
  token ∉ ["auto"; "balanced"; "balanced_low_0"; "sequential"] ->
  load_checkpoint_and_dispatch checkpoint (Some (inl token)) max_memory
    no_split_module_classes offload_folder offload_buffers dtype offload_state_dict skip_keys
    preload_module_classes force_hooks strict full_state_dict broadcast_from_rank0 model
  = (model, [], inl bad_device_map_token).
Proof.
  intros Htoken. rewrite load_checkpoint_and_dispatch_cases. simpl.
  unfold py_in. by rewrite bool_decide_eq_false_2.
Qed.
End OrchestratorFacts.

(** ** Initialising on a device *)

Section InitFacts.
Import InitOnDevice.
Context {TorchState : Type} {torch : @Torch TorchState}.

(** Every run of [init_on_device]: the branches on [include_buffers] below
    line 123 are never taken. *)
Lemma init_on_device_run {A} device include_buffers (body : G A) (g : Globals TorchState) :
  init_on_device device include_buffers body g
  = if resolved_flag include_buffers then with_device device body g
    else
      let inner :=
        body (set_register_parameter
                (RegisterEmptyParameter device (register_parameter g)) g) in
      (set_register_parameter (register_parameter g) inner.1, inner.2).
Proof.
  unfold init_on_device, resolved_flag.
  destruct (match include_buffers with
            | Some b => b
            | None => parse_flag_from_env "ACCELERATE_INIT_INCLUDE_BUFFERS" false
            end); [done|].
  unfold mbind, G_bind, g_get, mret, G_ret, try_finally, g_modify. simpl.
  by destruct (body _) as [g1 r].
Qed.

Lemma set_register_parameter_twice r r' (g : Globals TorchState) :
  set_register_parameter r (set_register_parameter r' g) = set_register_parameter r g.
Proof. done. Qed.

Lemma set_register_parameter_same (g : Globals TorchState) :
  set_register_parameter (register_parameter g) g = g.
Proof. by destruct g. Qed.

Lemma set_torch_state_same (g : Globals TorchState) :
  set_torch_state (torch_state g) g = g.
Proof. by destruct g. Qed.

(** X17 (init_on_device): when [include_buffers] resolves to false, the block
    runs with [nn.Module.register_parameter] rebound to the closure and
    nothing else changed; afterwards, whether the block returned or raised
    and whatever it bound the name to, [register_parameter] is what it was on
    entry, and [register_buffer], the tensor constructors and the rest of
    torch's state are as the block left them. *)
Theorem init_on_device_rebinds_one_name {A} device include_buffers (body : G A)
    (g : Globals TorchState) :
  resolved_flag include_buffers = false ->
  let run := init_on_device device include_buffers body g in
  let inner :=
    body (set_register_parameter (RegisterEmptyParameter device (register_parameter g)) g) in
  run.2 = inner.2
  ∧ register_parameter run.1 = register_parameter g
  ∧ register_buffer run.1 = register_buffer inner.1
  ∧ torch_attrs run.1 = torch_attrs inner.1
  ∧ torch_state run.1 = torch_state inner.1.
Proof. intros Hflag. cbv zeta. by rewrite init_on_device_run, Hflag. Qed.

(** X18 (init_on_device): a block that leaves the module-level state as it
    finds it leaves it, under [init_on_device], exactly as it was before the
    context was entered (when [include_buffers] resolves to true: provided
    leaving torch's device context undoes entering it). *)
Theorem init_on_device_round_trip {A} device include_buffers (body : G A)
    (g : Globals TorchState) :
  (∀ g', (body g').1 = g') ->
  (resolved_flag include_buffers = true ->
   exit_device device (enter_device device (torch_state g)) = torch_state g) ->
  (init_on_device device include_buffers body g).1 = g.
Proof.
  intros Hbody Hexit. rewrite init_on_device_run.
  destruct (resolved_flag include_buffers).
  - unfold with_device.
    pose proof (Hbody (set_torch_state (enter_device device (torch_state g)) g)) as Hg.
    destruct (body _) as [g1 r]. simpl in *. subst g1. simpl.
    rewrite Hexit by done. by destruct g.
  - simpl. rewrite Hbody. by destruct g.
Qed.

Lemma registrar_lands device old module name param module' :
  (∀ cls t kwargs new, new_parameter cls t kwargs = inr new → param_tensor new = t) ->
  call_register_parameter (RegisterEmptyParameter device old) module name (Some param)
  = inr module' ->
  ∃ new, dict_get name (_parameters module') = Some (Some new)
         ∧ tensor_device (param_tensor new) = device.
Proof.
  intros Hnew. simpl.
  destruct (call_register_parameter old module name (Some param)) as [e|m]; [done|].
  destruct (dict_get name (_parameters m)) as [[stored|]|]; [|done..].
  destruct (new_parameter _ _ _) as [e|new] eqn:Hcall; [done|].
  intros [= <-]. exists new. simpl. rewrite dict_get_set_eq.
  by rewrite (Hnew _ _ _ _ Hcall).
Qed.

Lemma init_on_device_register device include_buffers module name param
    (g : Globals TorchState) module' :
  resolved_flag include_buffers = false ->
  (∀ cls t kwargs new, new_parameter cls t kwargs = inr new → param_tensor new = t) ->
  (init_on_device device include_buffers (register module name (Some param)) g).2
  = inr module' ->
  (init_on_device device include_buffers (register module name (Some param)) g).1 = g
  ∧ ∃ new, dict_get name (_parameters module') = Some (Some new)
           ∧ tensor_device (param_tensor new) = device.
Proof.
  intros Hflag Hnew. rewrite init_on_device_run, Hflag. cbv zeta. unfold register.
  cbn [fst snd register_parameter set_register_parameter]. intros Hcall. split.
  - by destruct g.
  - by apply (registrar_lands device (register_parameter g) module name param).
Qed.

(** X19 (init_on_device, register_empty_parameter): a parameter registered in
    the block of [init_on_device(device)] with [include_buffers] false, when
    the registration succeeds, is stored under its name on [device], and the
    module-level state is afterwards as it was before the context (the
    parameter class being one that wraps the tensor it is given). *)
Theorem parameter_registered_on_device device include_buffers module name param
    (g : Globals TorchState) module' :
  resolved_flag include_buffers = false ->
  (∀ cls t kwargs new, new_parameter cls t kwargs = inr new → param_tensor new = t) ->
  (init_on_device device include_buffers (register module name (Some param)) g).2
  = inr module' ->
  (init_on_device device include_buffers (register module name (Some param)) g).1 = g
  ∧ ∃ new, dict_get name (_parameters module') = Some (Some new)
           ∧ tensor_device (param_tensor new) = device.
Proof. apply init_on_device_register. Qed.

(** X20 (init_on_device): contexts nest. A parameter registered under
    [init_on_device(outer)] and, inside it, [init_on_device(inner)] ends on
    [inner], and leaving both contexts restores the module-level state. *)
Theorem nested_init_innermost_device outer inner flag_outer flag_inner module name param
    (g : Globals TorchState) module' :
  resolved_flag flag_outer = false ->
  resolved_flag flag_inner = false ->
  (∀ cls t kwargs new, new_parameter cls t kwargs = inr new → param_tensor new = t) ->
  let run :=
    init_on_device outer flag_outer
      (init_on_device inner flag_inner (register module name (Some param))) g in
  run.2 = inr module' ->
  run.1 = g
  ∧ ∃ new, dict_get name (_parameters module') = Some (Some new)
           ∧ tensor_device (param_tensor new) = inner.
Proof.
  intros Houter Hinner Hnew. cbv zeta.
  rewrite (init_on_device_run outer), Houter. cbv zeta. cbn [fst snd]. intros Hrun.
  destruct (init_on_device_register inner flag_inner module name param
              (set_register_parameter
                 (RegisterEmptyParameter outer (register_parameter g)) g) module'
              Hinner Hnew Hrun) as [Hg Hstored].
  split; [|done]. rewrite Hg. by destruct g.
Qed.

(** X21 (init_empty_weights): a parameter registered in the block of
    [init_empty_weights] with [include_buffers] false, when the registration
    succeeds, is stored on the meta device, and the module-level state is
    afterwards as it was before. *)
Theorem init_empty_weights_on_meta include_buffers module name param
    (g : Globals TorchState) module' :
  resolved_flag include_buffers = false ->
  (∀ cls t kwargs new, new_parameter cls t kwargs = inr new → param_tensor new = t) ->
  (init_empty_weights include_buffers (register module name (Some param)) g).2
  = inr module' ->
  (init_empty_weights include_buffers (register module name (Some param)) g).1 = g
  ∧ ∃ new, dict_get name (_parameters module') = Some (Some new)
           ∧ tensor_device (param_tensor new) = meta_device.
Proof.
  intros Hflag Hnew. unfold init_empty_weights.
  apply init_on_device_register; [|done].
  by destruct include_buffers.
Qed.
End InitFacts.

(** ** The further properties at concrete inputs *)

Lemma dispatch_model_empty_map_witness :
  dispatch_model (H := Lab.collaborators [] false)
    [] None None None None false None None false Lab.host_model
  = (Lab.host_model, [], inl IndexError).
Proof.
  apply (dispatch_model_empty_map (H := Lab.collaborators [] false)).
  reflexivity.
Defined.

Lemma offload_write_only_when_needed_witness :
  let device_map := [("a", DInt 0); ("b", disk)] in
  let weights := [("b.weight", Lab.on "cpu" None 200)] in
  EvOffloadStateDict "offload" weights
  ∈ log_of (dispatch_model (H := Lab.collaborators [] false)
              device_map None None (Some "offload") None false None None false
              Lab.host_model)
  ∧ modules_on disk device_map ≠ []
  ∧ weights
    = extract_submodules_state_dict (Collaborators := Lab.collaborators [] false)
        (model_state_dict (Collaborators := Lab.collaborators [] false) Lab.host_model)
        (modules_on disk device_map).
Proof.
  cbv zeta.
  assert (EvOffloadStateDict "offload" [("b.weight", Lab.on "cpu" None 200)]
          ∈ log_of (dispatch_model (H := Lab.collaborators [] false)
                      [("a", DInt 0); ("b", disk)] None None (Some "offload") None false
                      None None false Lab.host_model)) as Hin.
  { vm_compute. apply list_elem_of_here. }
  split; [exact Hin|].
  destruct (offload_write_only_when_needed (H := Lab.collaborators [] false)
              _ _ _ _ _ _ _ _ _ _ _ _ Hin) as (_ & _ & Hdisk & _ & Hweights).
  by split.
Defined.

Lemma accelerators_only_offloads_nothing_witness :
  let device_map := [("a", DInt 0); ("b", DInt 1)] in
  ∃ hook_args,
    log_of (dispatch_model (H := Lab.collaborators [] false)
              device_map None None None None false None None false Lab.host_model)
    = [EvAttachOnBlocks hook_args; EvRetie []; EvWrap "to"; EvWrap "cuda"]
    ∧ bh_weights_map hook_args = None
    ∧ bh_offload hook_args = [("a", false); ("b", false)]
    ∧ dict_get EmptyString (bh_execution_device hook_args) = Some (DInt 0).
Proof.
  cbv zeta.
  destruct (accelerators_only_offloads_nothing (H := Lab.collaborators [] false)
              [("a", DInt 0); ("b", DInt 1)] None false None None false Lab.host_model
              (DInt 0) [DInt 1])
    as (hook_args & Hrun & Hweights & _ & Hroot).
  - reflexivity.
  - vm_compute; reflexivity.
  - reflexivity.
  - repeat constructor; compute_done.
  - exists hook_args. split_and!; [|exact Hweights| |exact Hroot].
    + rewrite Hrun. vm_compute. reflexivity.
    + apply (f_equal log_of) in Hrun. vm_compute in Hrun.
      injection Hrun as Hargs. rewrite <- Hargs. reflexivity.
Defined.

Lemma cpu_offload_keeps_state_on_host_witness :
  ∃ args final,
    cpu_offload (H := Lab.collaborators [] false) (Some (DInt 0)) false None None
      Lab.host_model
    = (final, [EvAddAlignDevicesHook true; EvAttachAlign args], inr tt)
    ∧ ah_weights_map args
      = WeightsDict [("a.weight", Lab.on "cpu" None 100); ("b.weight", Lab.on "cpu" None 200);
                     ("a.steps", Lab.on "cpu" None 300)]
    ∧ ah_offload args = true.
Proof.
  destruct (cpu_offload_keeps_state_on_host (H := Lab.collaborators [] false)
              (DInt 0) false None Lab.host_model)
    as (args & final & Hrun & Hweights & Hoffload).
  - compute_done.
  - exists args, final. split_and!; [exact Hrun| |exact Hoffload].
    rewrite Hweights. vm_compute. reflexivity.
Defined.

Lemma fast_path_leaves_no_placeholder_witness :
  let run :=
    dispatch_model (H := Lab.collaborators [] false)
      [(EmptyString, DInt 0)] None None None None false None None false
      Lab.half_meta_model in
  outcome_of run = inr tt
  ∧ existsb on_meta_type (parameters (model_of run)) = false
  ∧ existsb on_meta_type (dict_values (named_buffers (model_of run))) = false
  ∧ dict_keys (named_parameters (model_of run)) = ["a.weight"; "b.weight"]
  ∧ dict_keys (named_buffers (model_of run)) = ["a.steps"; "b.steps"].
Proof.
  apply (fast_path_leaves_no_placeholder (H := Lab.collaborators [] false)
           [(EmptyString, DInt 0)] None None None None false None None false
           Lab.half_meta_model (DInt 0)).
  - reflexivity.
  - compute_done.
  - reflexivity.
  - discriminate.
  - reflexivity.
  - compute_done.
  - vm_compute. discriminate.
Defined.

Lemma walk_hooks_never_nest_witness :
  let linear := λ children, LayerwiseCasting.Mod ["Linear"; "Module"] [] children in
  let hook := {| LayerwiseCasting.storage_dtype := "float8_e4m3fn";
                 LayerwiseCasting.compute_dtype := "bfloat16";
                 LayerwiseCasting.non_blocking := false |} in
  let block :=
    LayerwiseCasting.Mod ["Block"; "Module"] []
      [("norm", LayerwiseCasting.Mod ["LayerNorm"; "Module"] [] []);
       ("proj", linear [("lora", linear [])])] in
  let walked :=
    LayerwiseCasting._attach_layerwise_casting_hooks ["Linear"] (λ _ _, false) hook None None
      block EmptyString in
  LayerwiseCasting.hooks_of <$> LayerwiseCasting.node_at [1%nat] walked = Some [hook]
  ∧ LayerwiseCasting.hooks_of <$> LayerwiseCasting.node_at [1%nat; 0%nat] walked = Some [].
Proof.
  cbv zeta. split; [vm_compute; reflexivity|].
  change [1%nat; 0%nat] with ([1%nat] ++ [0%nat]).
  rewrite (walk_hooks_never_nest ["Linear"] (λ _ _, false)); [reflexivity|discriminate|].
  vm_compute. discriminate.
Defined.

Lemma layer_name_dotted_path_witness :
  fold_left LayerwiseCasting.layer_name ["model"; "layers"; "0"] EmptyString
  = "model.layers.0".
Proof.
  rewrite layer_name_dotted_path; [reflexivity|].
  repeat constructor; discriminate.
Defined.

Lemma checkpoint_loaded_before_dispatch_witness :
  let run :=
    load_checkpoint_and_dispatch (H := Lab.collaborators [] false) (H0 := LoadLab.loaders)
      "weights.safetensors" (Some (inl "balanced_low_0")) None None None false None None
      None None false false false false Lab.half_meta_model in
  hf_device_map (l_model_of run) = Some [("a", DInt 0); ("b", cpu)].
Proof.
  cbv zeta.
  pose proof (checkpoint_loaded_before_dispatch
                (H := Lab.collaborators [] false) (H0 := LoadLab.loaders)
                "weights.safetensors" (Some (inl "balanced_low_0")) None None None false None
                None None None false false false false Lab.half_meta_model eq_refl)
    as Hrun.
  vm_compute in Hrun. destruct Hrun as (_ & _ & _ & Hmap). vm_compute.
  exact (Hmap tt eq_refl).
Defined.

Lemma unknown_token_rejected_witness :
  load_checkpoint_and_dispatch (H := Lab.collaborators [] false) (H0 := LoadLab.loaders)
    "weights.safetensors" (Some (inl "cuda")) None None None false None None
    None None false false false false Lab.host_model
  = (Lab.host_model, [], inl bad_device_map_token).
Proof.
  apply (unknown_token_rejected (H := Lab.collaborators [] false) (H0 := LoadLab.loaders)).
  compute_done.
Defined.

Lemma init_on_device_rebinds_one_name_witness :
  let cuda := {| dev_type := "cuda"; dev_index := Some 0 |} in
  let run :=
    InitOnDevice.init_on_device (H := InitOnDevice.lab_torch) cuda None
      (InitOnDevice.register (H := InitOnDevice.lab_torch) InitOnDevice.lab_module "weight"
         (Some InitOnDevice.lab_weight))
      InitOnDevice.lab_globals in
  InitOnDevice.register_parameter run.1 = InitOnDevice.TorchRegisterParameter
  ∧ InitOnDevice.register_buffer run.1 = InitOnDevice.TorchRegisterBuffer.
Proof.
  cbv zeta.
  destruct (init_on_device_rebinds_one_name (torch := InitOnDevice.lab_torch)
              {| dev_type := "cuda"; dev_index := Some 0 |} None
              (InitOnDevice.register (H := InitOnDevice.lab_torch) InitOnDevice.lab_module
                 "weight" (Some InitOnDevice.lab_weight))
              InitOnDevice.lab_globals)
    as (_ & Hparameter & Hbuffer & _).
  - reflexivity.
  - split; [exact Hparameter|rewrite Hbuffer; reflexivity].
Defined.

Lemma init_on_device_round_trip_witness :
  (InitOnDevice.init_on_device (H := InitOnDevice.lab_torch)
     {| dev_type := "cuda"; dev_index := Some 0 |} (Some true) (mret tt)
     InitOnDevice.lab_globals).1
  = InitOnDevice.lab_globals.
Proof.
  apply (init_on_device_round_trip (torch := InitOnDevice.lab_torch)).
  - reflexivity.
  - reflexivity.
Defined.

Lemma parameter_registered_on_device_witness :
  let cuda := {| dev_type := "cuda"; dev_index := Some 0 |} in
  let run :=
    InitOnDevice.init_on_device (H := InitOnDevice.lab_torch) cuda None
      (InitOnDevice.register (H := InitOnDevice.lab_torch) InitOnDevice.lab_module "weight"
         (Some InitOnDevice.lab_weight))
      InitOnDevice.lab_globals in
  run.1 = InitOnDevice.lab_globals
  ∧ ∃ new module',
      run.2 = inr module'
      ∧ dict_get "weight" (InitOnDevice._parameters module') = Some (Some new)
      ∧ tensor_device (InitOnDevice.param_tensor new) = cuda.
Proof.
  cbv zeta.
  destruct (parameter_registered_on_device (torch := InitOnDevice.lab_torch)
              {| dev_type := "cuda"; dev_index := Some 0 |} None
              InitOnDevice.lab_module "weight" InitOnDevice.lab_weight
              InitOnDevice.lab_globals
              {| InitOnDevice._parameters :=
                   [("weight",
                     Some {| InitOnDevice.param_cls := "Parameter";
                             InitOnDevice.param_tensor := Lab.on "cuda" (Some 0) 7;
                             InitOnDevice.requires_grad := true;
                             InitOnDevice.param_dict := [] |})];
                 InitOnDevice._buffers := [] |})
    as (Hglobals & new & Hstored & Hdevice).
  - reflexivity.
  - intros cls t kwargs new. simpl.
    destruct kwargs as [|[key [b|n|s]] [|more kwargs]]; try discriminate.
    destruct (decide (key = "requires_grad")); [|discriminate]. by intros [= <-].
  - vm_compute. reflexivity.
  - split; [exact Hglobals|]. eexists new, _. split; [vm_compute; reflexivity|].
    split; [exact Hstored|exact Hdevice].
Defined.

Lemma nested_init_innermost_device_witness :
  let cuda := {| dev_type := "cuda"; dev_index := Some 0 |} in
  let run :=
    InitOnDevice.init_on_device (H := InitOnDevice.lab_torch) cuda None
      (InitOnDevice.init_on_device (H := InitOnDevice.lab_torch) meta_device (Some false)
         (InitOnDevice.register (H := InitOnDevice.lab_torch) InitOnDevice.lab_module
            "weight" (Some InitOnDevice.lab_weight)))
      InitOnDevice.lab_globals in
  run.1 = InitOnDevice.lab_globals
  ∧ ∃ new module',
      run.2 = inr module'
      ∧ dict_get "weight" (InitOnDevice._parameters module') = Some (Some new)
      ∧ tensor_device (InitOnDevice.param_tensor new) = meta_device.
Proof.
  cbv zeta.
  destruct (nested_init_innermost_device (torch := InitOnDevice.lab_torch)
              {| dev_type := "cuda"; dev_index := Some 0 |} meta_device None (Some false)
              InitOnDevice.lab_module "weight" InitOnDevice.lab_weight
              InitOnDevice.lab_globals
              {| InitOnDevice._parameters :=
                   [("weight",
                     Some {| InitOnDevice.param_cls := "Parameter";
                             InitOnDevice.param_tensor := Lab.on "meta" None 7;
                             InitOnDevice.requires_grad := true;
                             InitOnDevice.param_dict := [] |})];
                 InitOnDevice._buffers := [] |})
    as (Hglobals & new & Hstored & Hdevice).
  - reflexivity.
  - reflexivity.
  - intros cls t kwargs new. simpl.
    destruct kwargs as [|[key [b|n|s]] [|more kwargs]]; try discriminate.
    destruct (decide (key = "requires_grad")); [|discriminate]. by intros [= <-].
  - vm_compute. reflexivity.
  - split; [exact Hglobals|]. eexists new, _. split; [vm_compute; reflexivity|].
    split; [exact Hstored|exact Hdevice].
Defined.

Lemma init_empty_weights_on_meta_witness :
  let run :=
    InitOnDevice.init_empty_weights (H := InitOnDevice.lab_torch) None
      (InitOnDevice.register (H := InitOnDevice.lab_torch) InitOnDevice.lab_module "weight"
         (Some InitOnDevice.lab_weight))
      InitOnDevice.lab_globals in
  run.1 = InitOnDevice.lab_globals
  ∧ ∃ new module',
      run.2 = inr module'
      ∧ dict_get "weight" (InitOnDevice._parameters module') = Some (Some new)
      ∧ tensor_device (InitOnDevice.param_tensor new) = meta_device.
Proof.
  cbv zeta.
  destruct (init_empty_weights_on_meta (torch := InitOnDevice.lab_torch) None
              InitOnDevice.lab_module "weight" InitOnDevice.lab_weight
              InitOnDevice.lab_globals
              {| InitOnDevice._parameters :=
                   [("weight",
                     Some {| InitOnDevice.param_cls := "Parameter";
                             InitOnDevice.param_tensor := Lab.on "meta" None 7;
                             InitOnDevice.requires_grad := true;
                             InitOnDevice.param_dict := [] |})];
                 InitOnDevice._buffers := [] |})
    as (Hglobals & new & Hstored & Hdevice).
  - reflexivity.
  - intros cls t kwargs new. simpl.
    destruct kwargs as [|[key [b|n|s]] [|more kwargs]]; try discriminate.
    destruct (decide (key = "requires_grad")); [|discriminate]. by intros [= <-].
  - vm_compute. reflexivity.
  - split; [exact Hglobals|]. eexists new, _. split; [vm_compute; reflexivity|].
    split; [exact Hstored|exact Hdevice].
Defined.
